(** * A-share MCP server: shared tool infrastructure

    A shallow embedding of the Python sources

      - [src/tools/base.py]            (invocation pipeline)
      - [src/tools/date_utils.py]      (calendar resolver)
      - [src/tools/helpers.py]         (code normalisation)
      - [src/tools/market_overview.py] and [src/tools/indices.py]
      - [src/akshare_etf_data_source.py] and [src/tools/etf_analysis.py]
      - [src/tools/etf_market.py], [src/tools/etf_holdings.py] and
        [src/tools/realtime.py]

    and the properties their specification states about them.

    Conventions of the embedding.

    - A Python [str] is a Rocq [string] holding its UTF-8 bytes.
      Concatenation, equality and ordering are exact on those bytes
      (bytewise order of UTF-8 is code-point order).  [len], [isdigit]
      and [strip] work on the characters that the bytes encode, with
      the white space and the digits of Unicode.  [lower], [upper],
      [repr] and the regular expressions are exact on the ASCII range,
      which is where every code, date and numeral of the program
      lives; the statements that depend on them say so.
    - A Python [int] is a [Z].
    - A call that may raise returns an [outcome]; code that talks to the
      clock, the data provider or the renderer lives in the monad [M],
      which threads the chronological trace of those interactions.
    - Logging is not modelled: no property below observes it. *)

From Stdlib Require Import ZArith List String Ascii Bool Lia.
From Stdlib Require Import DecimalString OrdersEx.
Import ListNotations.

Local Open Scope string_scope.
Local Open Scope Z_scope.

(* ===================================================================== *)
(** ** Python strings *)
(* ===================================================================== *)

Module PyStr.

(** [str(n)] for an integer. *)
Definition str_of_int (z : Z) : string :=
  NilZero.string_of_int (Z.to_int z).

(** [f"{z:02d}"] and [f"{z:04d}"]: zero padding up to a width, the sign
    counting towards the width as in Python; exact for [z >= 0],
    which is all the program formats. *)
Fixpoint zeros (n : nat) : string :=
  match n with
  | O => ""
  | S k => "0" ++ zeros k
  end.

Definition fmt_0d (width : nat) (z : Z) : string :=
  let s := str_of_int z in
  zeros (width - String.length s)%nat ++ s.

Definition ascii_code (c : ascii) : Z := Z.of_N (N_of_ascii c).

Definition is_ascii_digit (c : ascii) : bool :=
  (48 <=? ascii_code c) && (ascii_code c <=? 57).

(** The characters for which [str.isspace] holds, by the length of
    their UTF-8 form.  One byte: TAB, LF, VT, FF, CR, FS, GS, RS, US and
    the blank. *)
Definition is_space (c : ascii) : bool :=
  let n := ascii_code c in
  ((9 <=? n) && (n <=? 13)) || ((28 <=? n) && (n <=? 32)).

(** Two bytes: U+0085 and U+00A0, that is [C2 85] and [C2 A0]. *)
Definition is_space2 (a b : ascii) : bool :=
  (ascii_code a =? 194) && ((ascii_code b =? 133) || (ascii_code b =? 160)).

(** Three bytes: U+1680 [E1 9A 80]; U+2000 to U+200A [E2 80 80] to
    [E2 80 8A]; U+2028, U+2029, U+202F [E2 80 A8], [E2 80 A9],
    [E2 80 AF]; U+205F [E2 81 9F]; U+3000 [E3 80 80].  No character of
    four bytes is white space. *)
Definition is_space3 (a b c : ascii) : bool :=
  let x := ascii_code a in
  let y := ascii_code b in
  let z := ascii_code c in
  ((x =? 225) && ((y =? 154) && (z =? 128)))
  || ((x =? 226) && ((y =? 128)
                     && (((128 <=? z) && (z <=? 138))
                         || ((z =? 168) || ((z =? 169) || (z =? 175))))))
  || ((x =? 226) && ((y =? 129) && (z =? 159)))
  || ((x =? 227) && ((y =? 128) && (z =? 128))).

Definition lower_char (c : ascii) : ascii :=
  let n := ascii_code c in
  if (65 <=? n) && (n <=? 90) then ascii_of_N (Z.to_N (n + 32)) else c.

Fixpoint lower (s : string) : string :=
  match s with
  | EmptyString => EmptyString
  | String c r => String (lower_char c) (lower r)
  end.

Fixpoint all_chars (p : ascii -> bool) (s : string) : bool :=
  match s with
  | EmptyString => true
  | String c r => p c && all_chars p r
  end.

(** Strings of ASCII characters, on which [lower], [upper] and the
    regular expressions are exact. *)
Definition is_ascii (s : string) : bool :=
  all_chars (fun c => ascii_code c <? 128) s.

(** A non-empty string of the digits [0] to [9]. *)
Definition ascii_digits (s : string) : bool :=
  match s with
  | EmptyString => false
  | _ => all_chars is_ascii_digit s
  end.

(** The characters of a string: the code points that its UTF-8 bytes
    encode.  A lead byte takes the continuation bytes that its value
    announces; a string cut short ends with the lead byte itself.  On
    bytes that are not the UTF-8 form of a Python [str] the result has
    no meaning. *)
Fixpoint code_points (s : string) : list Z :=
  match s with
  | EmptyString => []
  | String a r1 =>
      let x := ascii_code a in
      if x <? 192 then x :: code_points r1
      else
        match r1 with
        | EmptyString => [x]
        | String b r2 =>
            let y := ascii_code b mod 64 in
            if x <? 224 then ((x - 192) * 64 + y) :: code_points r2
            else
              match r2 with
              | EmptyString => [x]
              | String c r3 =>
                  let z := ascii_code c mod 64 in
                  if x <? 240 then
                    ((x - 224) * 4096 + y * 64 + z) :: code_points r3
                  else
                    match r3 with
                    | EmptyString => [x]
                    | String d r4 =>
                        ((x - 240) * 262144 + y * 4096 + z * 64
                         + ascii_code d mod 64) :: code_points r4
                    end
              end
        end
  end.

(** The characters for which [str.isdigit] holds (those of numeric type
    Digit or Decimal), as ranges of code points: the table of Unicode
    14.0, the one CPython 3.11 carries.  The digits [0] to [9] come
    first; superscripts, the digits of other scripts, circled and
    full-width digits follow. *)
Definition digit_ranges : list (Z * Z) :=
  [(48, 57); (178, 179); (185, 185); (1632, 1641); (1776, 1785);
   (1984, 1993); (2406, 2415); (2534, 2543); (2662, 2671); (2790, 2799);
   (2918, 2927); (3046, 3055); (3174, 3183); (3302, 3311); (3430, 3439);
   (3558, 3567); (3664, 3673); (3792, 3801); (3872, 3881); (4160, 4169);
   (4240, 4249); (4969, 4977); (6112, 6121); (6160, 6169); (6470, 6479);
   (6608, 6618); (6784, 6793); (6800, 6809); (6992, 7001); (7088, 7097);
   (7232, 7241); (7248, 7257); (8304, 8304); (8308, 8313); (8320, 8329);
   (9312, 9320); (9332, 9340); (9352, 9360); (9450, 9450); (9461, 9469);
   (9471, 9471); (10102, 10110); (10112, 10120); (10122, 10130);
   (42528, 42537); (43216, 43225); (43264, 43273); (43472, 43481);
   (43504, 43513); (43600, 43609); (44016, 44025); (65296, 65305);
   (66720, 66729); (68160, 68163); (68912, 68921); (69216, 69224);
   (69714, 69722); (69734, 69743); (69872, 69881); (69942, 69951);
   (70096, 70105); (70384, 70393); (70736, 70745); (70864, 70873);
   (71248, 71257); (71360, 71369); (71472, 71481); (71904, 71913);
   (72016, 72025); (72784, 72793); (73040, 73049); (73120, 73129);
   (92768, 92777); (92864, 92873); (93008, 93017); (120782, 120831);
   (123200, 123209); (123632, 123641); (125264, 125273);
   (127232, 127242); (130032, 130041)].

Definition is_digit (cp : Z) : bool :=
  existsb (fun r => (fst r <=? cp) && (cp <=? snd r)) digit_ranges.

(** [s.isdigit()]: every character is a digit and there is one. *)
Definition isdigit (s : string) : bool :=
  match code_points s with
  | [] => false
  | cps => forallb is_digit cps
  end.

(** [len(s)]: the number of characters. *)
Definition len (s : string) : Z := Z.of_nat (List.length (code_points s)).

(** [s.lstrip()]: the white space at the head is dropped, character
    by character. *)
Fixpoint lstrip (s : string) : string :=
  match s with
  | EmptyString => EmptyString
  | String a r1 =>
      if is_space a then lstrip r1
      else
        match r1 with
        | String b r2 =>
            if is_space2 a b then lstrip r2
            else
              match r2 with
              | String c r3 => if is_space3 a b c then lstrip r3 else s
              | EmptyString => s
              end
        | EmptyString => s
        end
  end.

(** A string of white space only (the empty string included). *)
Definition blank (s : string) : bool :=
  match lstrip s with
  | EmptyString => true
  | _ => false
  end.

(** [s.rstrip()]: the string is cut where what follows is white space
    only.  In UTF-8 that is never inside a character: a continuation
    byte does not start a white-space character. *)
Fixpoint rstrip (s : string) : string :=
  match s with
  | EmptyString => EmptyString
  | String c r => if blank s then EmptyString else String c (rstrip r)
  end.

Definition strip (s : string) : string := rstrip (lstrip s).

(** [s.split(sep)] for a one-character separator: never the empty
    list. *)
Fixpoint split (sep : ascii) (s : string) : list string :=
  match s with
  | EmptyString => [EmptyString]
  | String c r =>
      if Ascii.eqb c sep then EmptyString :: split sep r
      else match split sep r with
           | [] => [String c EmptyString]
           | h :: t => String c h :: t
           end
  end.

Definition startswith (s p : string) : bool := String.prefix p s.

(** [a <= b] and [a < b] on strings. *)
Definition le (a b : string) : bool := String.leb a b.
Definition lt (a b : string) : bool := String.ltb a b.

(** Truthiness of a string. *)
Definition truthy (s : string) : bool :=
  match s with EmptyString => false | _ => true end.

(** [x or d] for an optional string. *)
Definition or_default (x : option string) (d : string) : string :=
  match x with
  | Some s => if truthy s then s else d
  | None => d
  end.

Definition upper_char (c : ascii) : ascii :=
  let n := ascii_code c in
  if (97 <=? n) && (n <=? 122) then ascii_of_N (Z.to_N (n - 32)) else c.

Fixpoint upper (s : string) : string :=
  match s with
  | EmptyString => EmptyString
  | String c r => String (upper_char c) (upper r)
  end.

(** [repr] of a list of strings that hold no quote: [['a', 'b']]. *)
Definition repr_list (l : list string) : string :=
  "[" ++ String.concat ", " (map (fun s => "'" ++ s ++ "'") l) ++ "]".

End PyStr.

(* ===================================================================== *)
(** ** Exceptions and outcomes *)
(* ===================================================================== *)

(** Modelled from the spec: the error vocabulary of
    [src/data_source_interface.py], which is not among the sources.
    [NoDataFoundError] is its NotFound, [LoginError] its AuthFailure and
    [DataSourceError] its SourceFailure; the two former derive from the
    latter, as the order of the [except] clauses in [base.py]
    (most specific first) presupposes.  The other classes are Python's
    own.  All of them derive from [Exception]; what only derives from
    [BaseException] (an interrupt, an exit) is not an error of the
    program and is left out. *)
Inductive exc_class :=
| ExceptionCls
| DataSourceError
| LoginError
| NoDataFoundError
| ValueError
| KeyError
| TypeError
| OverflowError
| ReError.

Definition exc_class_eqb (a b : exc_class) : bool :=
  match a, b with
  | ExceptionCls, ExceptionCls | DataSourceError, DataSourceError
  | LoginError, LoginError | NoDataFoundError, NoDataFoundError
  | ValueError, ValueError | KeyError, KeyError | TypeError, TypeError
  | OverflowError, OverflowError | ReError, ReError => true
  | _, _ => false
  end.

(** [issubclass c target]. *)
Definition issubclass (c target : exc_class) : bool :=
  match target with
  | ExceptionCls => true
  | DataSourceError =>
      match c with
      | DataSourceError | LoginError | NoDataFoundError => true
      | _ => false
      end
  | _ => exc_class_eqb c target
  end.

(** An exception object: its class and [str(e)]. *)
Record exc := mkExc { exc_cls : exc_class; exc_msg : string }.

Definition isinstance (e : exc) (target : exc_class) : bool :=
  issubclass (exc_cls e) target.

Inductive outcome (A : Type) :=
| Return (a : A)
| Raise (e : exc).
Arguments Return {A} a.
Arguments Raise {A} e.

Definition outcome_map {A B : Type} (f : A -> B) (o : outcome A) : outcome B :=
  match o with
  | Return a => Return (f a)
  | Raise e => Raise e
  end.

(* ===================================================================== *)
(** ** [datetime]: calendar dates *)
(* ===================================================================== *)

(** Only the calendar date of a [datetime] is ever observed by the
    program (through [.year], [.month], [.day], [strftime("%Y-%m-%d")]
    and whole-day [timedelta]s), so a [datetime] is modelled by its
    date.  The arithmetic follows CPython's [datetime] module. *)
Module PyDate.

Record date := mkDate { year : Z; month : Z; day : Z }.

Definition date_eqb (a b : date) : bool :=
  (year a =? year b) && (month a =? month b) && (day a =? day b).

Definition MINYEAR : Z := 1.
Definition MAXYEAR : Z := 9999.

Definition is_leap (y : Z) : bool :=
  (y mod 4 =? 0) && (negb (y mod 100 =? 0) || (y mod 400 =? 0)).

(** [calendar.monthrange(year, month)[1]]; 0 outside 1..12. *)
Definition days_in_month (y m : Z) : Z :=
  match m with
  | 1 | 3 | 5 | 7 | 8 | 10 | 12 => 31
  | 4 | 6 | 9 | 11 => 30
  | 2 => if is_leap y then 29 else 28
  | _ => 0
  end.

Definition valid (d : date) : bool :=
  (MINYEAR <=? year d) && (year d <=? MAXYEAR) &&
  (1 <=? month d) && (month d <=? 12) &&
  (1 <=? day d) && (day d <=? days_in_month (year d) (month d)).

(** The constructor [datetime(y, m, d)], which checks its fields. *)
Definition datetime (y m d : Z) : outcome date :=
  if negb ((MINYEAR <=? y) && (y <=? MAXYEAR)) then
    Raise (mkExc ValueError ("year " ++ PyStr.str_of_int y ++ " is out of range"))
  else if negb ((1 <=? m) && (m <=? 12)) then
    Raise (mkExc ValueError "month must be in 1..12")
  else if negb ((1 <=? d) && (d <=? days_in_month y m)) then
    Raise (mkExc ValueError "day is out of range for month")
  else Return (mkDate y m d).

(** [dt.replace(day=n)]. *)
Definition replace_day (dt : date) (n : Z) : outcome date :=
  datetime (year dt) (month dt) n.

(** Proleptic Gregorian ordinals, 0001-01-01 being day 1. *)
Definition days_before_year (y : Z) : Z :=
  let y' := y - 1 in
  y' * 365 + y' / 4 - y' / 100 + y' / 400.

Definition DAYS_BEFORE_MONTH (m : Z) : Z :=
  match m with
  | 1 => 0 | 2 => 31 | 3 => 59 | 4 => 90 | 5 => 120 | 6 => 151
  | 7 => 181 | 8 => 212 | 9 => 243 | 10 => 273 | 11 => 304 | 12 => 334
  | _ => 0
  end.

Definition DAYS_IN_MONTH (m : Z) : Z :=
  match m with
  | 1 | 3 | 5 | 7 | 8 | 10 | 12 => 31
  | 4 | 6 | 9 | 11 => 30
  | 2 => 28
  | _ => 0
  end.

Definition days_before_month (y m : Z) : Z :=
  DAYS_BEFORE_MONTH m + (if (2 <? m) && is_leap y then 1 else 0).

Definition toordinal (d : date) : Z :=
  days_before_year (year d) + days_before_month (year d) (month d) + day d.

Definition DI400Y : Z := 146097.
Definition DI100Y : Z := 36524.
Definition DI4Y : Z := 1461.
Definition MAXORDINAL : Z := 3652059.

(** [_ord2ymd]. *)
Definition fromordinal (n : Z) : date :=
  let n := n - 1 in
  let n400 := n / DI400Y in
  let n := n mod DI400Y in
  let y := n400 * 400 + 1 in
  let n100 := n / DI100Y in
  let n := n mod DI100Y in
  let n4 := n / DI4Y in
  let n := n mod DI4Y in
  let n1 := n / 365 in
  let n := n mod 365 in
  let y := y + n100 * 100 + n4 * 4 + n1 in
  if (n1 =? 4) || (n100 =? 4) then mkDate (y - 1) 12 31
  else
    let leapyear := (n1 =? 3) && (negb (n4 =? 24) || (n100 =? 3)) in
    let m := Z.shiftr (n + 50) 5 in
    let preceding :=
      DAYS_BEFORE_MONTH m + (if (2 <? m) && leapyear then 1 else 0) in
    let '(m, preceding) :=
      if n <? preceding then
        (m - 1,
         preceding - (DAYS_IN_MONTH (m - 1)
                      + (if (m - 1 =? 2) && leapyear then 1 else 0)))
      else (m, preceding) in
    mkDate y m (n - preceding + 1).

(** [dt + timedelta(days=k)]; [dt - timedelta(days=k)] is
    [add_days dt (-k)]. *)
Definition add_days (dt : date) (k : Z) : outcome date :=
  let o := toordinal dt + k in
  if (0 <? o) && (o <=? MAXORDINAL) then Return (fromordinal o)
  else Raise (mkExc OverflowError "date value out of range").

(** [dt.strftime("%Y-%m-%d")].  The year is printed on four digits, as
    ISO 8601 has it and as every platform does for the years 1000 to
    9999 (below 1000 some C libraries leave out the leading zeros). *)
Definition strftime (d : date) : string :=
  PyStr.fmt_0d 4 (year d) ++ "-" ++ PyStr.fmt_0d 2 (month d)
    ++ "-" ++ PyStr.fmt_0d 2 (day d).

(** *** [datetime.strptime(s, "%Y-%m-%d")]

    The directives stand for the regular expressions
    [%Y = \d\d\d\d], [%m = 1[0-2]|0[1-9]|[1-9]] and
    [%d = 3[01]|[12]\d|0[1-9]|[1-9]| [1-9]]; alternatives are tried
    in that order. *)
Definition digit_val (c : ascii) : Z := PyStr.ascii_code c - 48.

Definition in_range (lo hi : Z) (c : ascii) : bool :=
  (lo <=? digit_val c) && (digit_val c <=? hi).

Definition parse_year (cs : list ascii) : option (Z * list ascii) :=
  match cs with
  | a :: b :: c :: d :: r =>
      if in_range 0 9 a && in_range 0 9 b && in_range 0 9 c && in_range 0 9 d
      then Some (digit_val a * 1000 + digit_val b * 100
                 + digit_val c * 10 + digit_val d, r)
      else None
  | _ => None
  end.

Definition two (p1 p2 : ascii -> bool) (cs : list ascii)
  : list (Z * list ascii) :=
  match cs with
  | a :: b :: r =>
      if p1 a && p2 b then [(digit_val a * 10 + digit_val b, r)] else []
  | _ => []
  end.

Definition one (p : ascii -> bool) (cs : list ascii)
  : list (Z * list ascii) :=
  match cs with
  | a :: r => if p a then [(digit_val a, r)] else []
  | _ => []
  end.

Definition blank_one (cs : list ascii) : list (Z * list ascii) :=
  match cs with
  | a :: b :: r =>
      if Ascii.eqb a " " && in_range 1 9 b then [(digit_val b, r)] else []
  | _ => []
  end.

Definition month_alts (cs : list ascii) : list (Z * list ascii) :=
  (two (in_range 1 1) (in_range 0 2) cs
   ++ two (in_range 0 0) (in_range 1 9) cs
   ++ one (in_range 1 9) cs)%list.

Definition day_alts (cs : list ascii) : list (Z * list ascii) :=
  (two (in_range 3 3) (in_range 0 1) cs
   ++ two (in_range 1 2) (in_range 0 9) cs
   ++ two (in_range 0 0) (in_range 1 9) cs
   ++ one (in_range 1 9) cs
   ++ blank_one cs)%list.

Definition expect_dash (cs : list ascii) : option (list ascii) :=
  match cs with
  | c :: r => if Ascii.eqb c "-" then Some r else None
  | [] => None
  end.

(** The first way, in the order of the alternatives, to match
    [-%m-%d] at the head of the input. *)
Fixpoint first_month_day (ms : list (Z * list ascii))
  : option (Z * Z * list ascii) :=
  match ms with
  | [] => None
  | (m, r) :: ms' =>
      match expect_dash r with
      | Some r' =>
          match day_alts r' with
          | (d, r'') :: _ => Some (m, d, r'')
          | [] => first_month_day ms'
          end
      | None => first_month_day ms'
      end
  end.

Definition regex_match (s : string) : option (Z * Z * Z * list ascii) :=
  match parse_year (list_ascii_of_string s) with
  | Some (y, r) =>
      match expect_dash r with
      | Some r' =>
          match first_month_day (month_alts r') with
          | Some (m, d, rest) => Some (y, m, d, rest)
          | None => None
          end
      | None => None
      end
  | None => None
  end.

(** [repr] of a string: between single quotes, or between double
    quotes when the string holds a single quote and no double quote;
    the quote in use and the backslash are escaped, TAB, LF and CR are
    written [\t], [\n], [\r], every other control character of ASCII
    as [\xhh].  Exact on ASCII; of the characters beyond, Python
    escapes those that do not print, which stay as they are here. *)
Definition hex_digit (n : Z) : ascii :=
  if n <? 10 then ascii_of_N (Z.to_N (48 + n)) else ascii_of_N (Z.to_N (87 + n)).

Definition escape_char (quote c : ascii) : string :=
  let n := PyStr.ascii_code c in
  if Ascii.eqb c quote || (n =? 92) then String "\" (String c EmptyString)
  else if n =? 9 then "\t"
  else if n =? 10 then "\n"
  else if n =? 13 then "\r"
  else if (n <? 32) || (n =? 127) then
    String "\" (String "x" (String (hex_digit (n / 16))
                               (String (hex_digit (n mod 16)) EmptyString)))
  else String c EmptyString.

Fixpoint escape (quote : ascii) (s : string) : string :=
  match s with
  | EmptyString => EmptyString
  | String c r => escape_char quote c ++ escape quote r
  end.

Fixpoint holds (c : ascii) (s : string) : bool :=
  match s with
  | EmptyString => false
  | String a r => Ascii.eqb a c || holds c r
  end.

Definition repr (s : string) : string :=
  let quote :=
    if holds "'" s && negb (holds "034" s) then "034"%char else "'"%char in
  String quote (escape quote s ++ String quote EmptyString).

Definition strptime (s : string) : outcome date :=
  match regex_match s with
  | None =>
      Raise (mkExc ValueError
               ("time data " ++ repr s ++ " does not match format "
                ++ repr "%Y-%m-%d"))
  | Some (y, m, d, rest) =>
      match rest with
      | [] => datetime y m d
      | _ :: _ =>
          Raise (mkExc ValueError
                   ("unconverted data remains: " ++ string_of_list_ascii rest))
      end
  end.

(** An ISO date string: the rendering of a valid date. *)
Definition iso_date_string (s : string) : Prop :=
  exists d, valid d = true /\ s = strftime d.

(** The same, decided by parsing and printing back. *)
Definition is_iso_date (s : string) : bool :=
  match strptime s with
  | Return d => String.eqb (strftime d) s
  | Raise _ => false
  end.

End PyDate.

(* ===================================================================== *)
(** ** Tabular results *)
(* ===================================================================== *)

(** A [pandas.DataFrame] as the program uses it: ordered column labels
    and ordered rows, every cell a string (the providers deliver strings,
    and every cell the program reads is compared with a string or
    printed).  Column labels are unique and every row has one cell per
    column, as the data model requires; a label is looked up at its
    first position. *)
Module Pandas.

Record DataFrame := mkDF { columns : list string; rows : list (list string) }.

(** [df.empty]: an axis of length 0. *)
Definition empty (df : DataFrame) : bool :=
  match columns df, rows df with
  | [], _ | _, [] => true
  | _, _ => false
  end.

(** [name in df.columns]. *)
Definition has_column (df : DataFrame) (name : string) : bool :=
  existsb (String.eqb name) (columns df).

Fixpoint index_of (name : string) (cols : list string) : option nat :=
  match cols with
  | [] => None
  | c :: r =>
      if String.eqb name c then Some O
      else match index_of name r with
           | Some k => Some (S k)
           | None => None
           end
  end.

(** [df.columns[0]] and [df.columns[-1]] of a frame that has columns. *)
Definition first_column (df : DataFrame) : string := hd "" (columns df).
Definition last_column (df : DataFrame) : string := last (columns df) "".

(** The position of a label; [df[name]] raises [KeyError(name)], whose
    [str] is the [repr] of the label, when there is none. *)
Definition locate (df : DataFrame) (name : string) : outcome nat :=
  match index_of name (columns df) with
  | Some k => Return k
  | None => Raise (mkExc KeyError ("'" ++ name ++ "'"))
  end.

Definition cell (k : nat) (row : list string) : string := nth k row "".

(** [df[name].tolist()]. *)
Definition column_values (df : DataFrame) (name : string)
  : outcome (list string) :=
  match locate df name with
  | Return k => Return (map (cell k) (rows df))
  | Raise e => Raise e
  end.

(** [df[mask]] for a row-wise mask. *)
Definition select (df : DataFrame) (mask : list string -> bool) : DataFrame :=
  mkDF (columns df) (filter mask (rows df)).

(** [df[df[name] == v]]. *)
Definition where_eq (df : DataFrame) (name v : string) : outcome DataFrame :=
  match locate df name with
  | Return k => Return (select df (fun r => String.eqb (cell k r) v))
  | Raise e => Raise e
  end.

(** [df[(df[a] == v) & (df[b] < bound)]] and its mirror with [>]. *)
Definition mask_eq_lt (ka kb : nat) (v bound : string) (r : list string) : bool :=
  String.eqb (cell ka r) v && PyStr.lt (cell kb r) bound.

Definition mask_eq_gt (ka kb : nat) (v bound : string) (r : list string) : bool :=
  String.eqb (cell ka r) v && PyStr.lt bound (cell kb r).

(** [df.sort_values(by=name)]: ascending on the cells of one column.
    Rows with equal keys keep their order here; the program only
    reads the key of the first or last row, which does not depend on
    how ties are arranged. *)
Fixpoint insert_by (k : nat) (r : list string) (l : list (list string))
  : list (list string) :=
  match l with
  | [] => [r]
  | h :: t =>
      if PyStr.le (cell k r) (cell k h) then r :: l
      else h :: insert_by k r t
  end.

Definition sort_rows (k : nat) (l : list (list string)) : list (list string) :=
  fold_right (insert_by k) [] l.

Definition sort_values (df : DataFrame) (name : string) : outcome DataFrame :=
  match locate df name with
  | Return k => Return (mkDF (columns df) (sort_rows k (rows df)))
  | Raise e => Raise e
  end.

(** [df.iloc[0][name]] and [df.iloc[-1][name]] of a frame with rows
    ([IndexError] does not arise: every use is guarded by [empty]). *)
Definition first_cell (df : DataFrame) (name : string) : outcome string :=
  match locate df name with
  | Return k => Return (cell k (hd [] (rows df)))
  | Raise e => Raise e
  end.

Definition last_cell (df : DataFrame) (name : string) : outcome string :=
  match locate df name with
  | Return k => Return (cell k (last (rows df) []))
  | Raise e => Raise e
  end.

(** [df.shape[0]] and [len(df)]. *)
Definition nrows (df : DataFrame) : Z := Z.of_nat (List.length (rows df)).

(** The double quote. *)
Definition DQ : string := String "034"%char EmptyString.

(** [df[labels]] for a list of labels: the columns at those labels, in
    the order of the list.  Labels that are missing raise [KeyError],
    whose [str] is the [repr] of pandas' message. *)
Definition missing_labels (df : DataFrame) (labels : list string) : list string :=
  filter (fun l => negb (has_column df l)) labels.

Definition project (df : DataFrame) (labels : list string) : outcome DataFrame :=
  match missing_labels df labels with
  | [] =>
      Return (mkDF labels
                (map (fun r =>
                        map (fun l => match index_of l (columns df) with
                                      | Some k => cell k r
                                      | None => ""
                                      end) labels)
                     (rows df)))
  | missing =>
      if Nat.eqb (List.length missing) (List.length labels) then
        Raise (mkExc KeyError
                 (DQ ++ "None of [Index(" ++ PyStr.repr_list labels
                  ++ ", dtype='object')] are in the [columns]" ++ DQ))
      else
        Raise (mkExc KeyError
                 (DQ ++ PyStr.repr_list missing ++ " not in index" ++ DQ))
  end.





(** [df.insert(0, name, value)]: a new first column with one value;
    [ValueError] when the label is taken. *)
Definition insert_first (df : DataFrame) (name value : string) : outcome DataFrame :=
  if has_column df name then
    Raise (mkExc ValueError ("cannot insert " ++ name ++ ", already exists"))
  else Return (mkDF (name :: columns df) (map (cons value) (rows df))).

(** [df[df[name].str.startswith(prefix)]]. *)
Definition where_startswith (df : DataFrame) (name prefix : string)
  : outcome DataFrame :=
  match locate df name with
  | Return k => Return (select df (fun r => PyStr.startswith (cell k r) prefix))
  | Raise e => Raise e
  end.

(** [pd.DataFrame()]. *)
Definition no_frame : DataFrame := mkDF [] [].

End Pandas.
Export Pandas(DataFrame, mkDF).

(* ===================================================================== *)
(** ** The world outside: clock, providers, renderer *)
(* ===================================================================== *)

(** An argument value as it is passed to a provider or put in the
    metadata of a rendered table. *)
Inductive value :=
| VStr (s : string)
| VInt (z : Z)
| VNone
| VDict (kv : list (string * string)).

Definition value_of_opt (o : option string) : value :=
  match o with
  | Some s => VStr s
  | None => VNone
  end.

(** Keyword arguments and query metadata: a [dict] with string keys, in
    insertion order. *)
Definition meta := list (string * value).

(** What one invocation does to the outside, in order. *)
Inductive event :=
| EvNow
| EvCall (op : string) (kwargs : meta)
| EvRender (df : option DataFrame) (format : string) (max_rows : Z) (m : meta).

Definition world := list event.

(** The collaborators of the tool layer.  Each answer may depend on
    everything that happened before (the trace), so a provider may fail
    once and succeed later, and the clock may advance between two
    readings. *)
Record env := mkEnv {
  (** [datetime.now()] *)
  clock : world -> PyDate.date;
  (** the methods of [active_data_source], keyed by name;
      a method may return [None] *)
  data_source : world -> string -> meta -> outcome (option DataFrame);
  (** the functions of the [akshare] package, keyed by name *)
  akshare : world -> string -> meta -> outcome DataFrame;
  (** [format_table_output(df, format=, max_rows=, meta=)] of
      [src/formatting/markdown_formatter.py] *)
  renderer : world -> option DataFrame -> string -> Z -> meta -> outcome string;
  (** [Series.str.lower().str.contains(kw, na=False)] as a row filter of
      the column ["code"] *)
  code_contains : DataFrame -> string -> outcome DataFrame
}.

(** The monad of tool code: the trace so far goes in, an outcome and the
    extended trace come out. *)
Definition M (A : Type) : Type := world -> outcome A * world.

Definition ret {A} (a : A) : M A := fun w => (Return a, w).
Definition raise {A} (e : exc) : M A := fun w => (Raise e, w).

Definition bind {A B} (m : M A) (k : A -> M B) : M B :=
  fun w =>
    match m w with
    | (Return a, w') => k a w'
    | (Raise e, w') => (Raise e, w')
    end.

(** [try: m  except Exception as e: h e]. *)
Definition try_except {A} (m : M A) (h : exc -> M A) : M A :=
  fun w =>
    match m w with
    | (Return a, w') => (Return a, w')
    | (Raise e, w') => h e w'
    end.

Definition lift {A} (o : outcome A) : M A := fun w => (o, w).

Declare Scope py_scope.
Delimit Scope py_scope with py.
Notation "x <- m ;; k" := (bind m (fun x => k))
  (at level 61, m at next level, right associativity) : py_scope.
Local Open Scope py_scope.

Section Collaborators.
Variable E : env.

Definition now : M PyDate.date :=
  fun w => (Return (clock E w), (w ++ [EvNow])%list).

Definition call_data_source (op : string) (kwargs : meta)
  : M (option DataFrame) :=
  fun w => (data_source E w op kwargs, (w ++ [EvCall op kwargs])%list).

Definition call_akshare (op : string) (kwargs : meta) : M DataFrame :=
  fun w => (akshare E w op kwargs, (w ++ [EvCall op kwargs])%list).

Definition format_table_output (df : option DataFrame) (format : string)
    (max_rows : Z) (m : meta) : M string :=
  fun w => (renderer E w df format max_rows m,
            (w ++ [EvRender df format max_rows m])%list).
End Collaborators.

(** The result of a run that starts from nothing. *)
Definition result_of {A} (m : M A) : outcome A := fst (m []).

(** An argument with a default: [None] stands for "not passed". *)
Definition dflt {A} (d : A) (o : option A) : A :=
  match o with
  | Some a => a
  | None => d
  end.

(** [len(s)]. *)
Definition len (s : string) : Z := PyStr.len s.

(* ===================================================================== *)
(** ** [src/tools/base.py] *)
(* ===================================================================== *)

Module Base.

(** The chain of [except] clauses that closes every helper of the
    module, in the order of the source: the first clause whose class
    the exception is an instance of answers. *)
Definition except_chain (e : exc) : string :=
  if isinstance e NoDataFoundError then
    "Error: " ++ exc_msg e
  else if isinstance e LoginError then
    "Error: Could not connect to data source. " ++ exc_msg e
  else if isinstance e DataSourceError then
    "Error: An error occurred while fetching data. " ++ exc_msg e
  else if isinstance e ValueError then
    "Error: Invalid input parameter. " ++ exc_msg e
  else
    "Error: An unexpected error occurred: " ++ exc_msg e.

Section WithEnv.
Variable E : env.

(** [data_source_method] is the name of the bound method of the data
    source. *)
Definition call_financial_data_tool
    (tool_name data_source_method data_type_name code year : string)
    (quarter : Z) (limit : option Z) (format : option string) : M string :=
  let limit := dflt 250 limit in
  let format := dflt "markdown" format in
  try_except
    (if negb (PyStr.isdigit year) || negb (len year =? 4) then
       ret ("Error: Invalid year '" ++ year
            ++ "'. Please provide a 4-digit year.")
     else if negb ((1 <=? quarter) && (quarter <=? 4)) then
       ret ("Error: Invalid quarter '" ++ PyStr.str_of_int quarter
            ++ "'. Must be between 1 and 4.")
     else
       df <- call_data_source E data_source_method
               [("code", VStr code); ("year", VStr year);
                ("quarter", VInt quarter)] ;;
       format_table_output E df format limit
         [("code", VStr code); ("year", VStr year);
          ("quarter", VInt quarter); ("dataset", VStr data_type_name)])
    (fun e => ret (except_chain e)).

Definition call_macro_data_tool
    (tool_name data_source_method data_type_name : string)
    (start_date end_date : option string)
    (limit : option Z) (format : option string)
    (kwargs : list (string * string)) : M string :=
  let limit := dflt 250 limit in
  let format := dflt "markdown" format in
  try_except
    (df <- call_data_source E data_source_method
             ([("start_date", value_of_opt start_date);
               ("end_date", value_of_opt end_date)]
              ++ map (fun kv => (fst kv, VStr (snd kv))) kwargs)%list ;;
     format_table_output E df format limit
       ([("dataset", VStr data_type_name);
         ("start_date", value_of_opt start_date);
         ("end_date", value_of_opt end_date)]
        ++ match kwargs with
           | [] => []
           | _ => [("extra", VDict kwargs)]
           end)%list)
    (fun e => ret (except_chain e)).

Definition call_index_constituent_tool
    (tool_name data_source_method index_name : string)
    (date : option string)
    (limit : option Z) (format : option string) : M string :=
  let limit := dflt 250 limit in
  let format := dflt "markdown" format in
  try_except
    (df <- call_data_source E data_source_method
             [("date", value_of_opt date)] ;;
     format_table_output E df format limit
       [("index", VStr index_name);
        ("as_of", VStr (PyStr.or_default date "latest"))])
    (fun e => ret (except_chain e)).

End WithEnv.
End Base.

(* ===================================================================== *)
(** ** [src/tools/market_overview.py] *)
(* ===================================================================== *)

Module MarketOverview.
Section WithEnv.
Variable E : env.

Definition get_trade_dates (start_date end_date : option string)
    (limit : option Z) (format : option string) : M string :=
  let limit := dflt 250 limit in
  let format := dflt "markdown" format in
  try_except
    (df <- call_data_source E "get_trade_dates"
             [("start_date", value_of_opt start_date);
              ("end_date", value_of_opt end_date)] ;;
     format_table_output E df format limit
       [("start_date", VStr (PyStr.or_default start_date "default"));
        ("end_date", VStr (PyStr.or_default end_date "default"))])
    (fun e => ret (Base.except_chain e)).

Definition get_all_stock (date : option string)
    (limit : option Z) (format : option string) : M string :=
  let limit := dflt 250 limit in
  let format := dflt "markdown" format in
  try_except
    (df <- call_data_source E "get_all_stock"
             [("date", value_of_opt date)] ;;
     format_table_output E df format limit
       [("as_of", VStr (PyStr.or_default date "default"))])
    (fun e => ret (Base.except_chain e)).

(** [df is None or df.empty]. *)
Definition none_or_empty (df : option DataFrame) : bool :=
  match df with
  | None => true
  | Some f => Pandas.empty f
  end.

Definition unexpected (e : exc) : string :=
  "Error: An unexpected error occurred: " ++ exc_msg e.

Definition search_stocks (keyword : string) (date : option string)
    (limit : option Z) (format : option string) : M string :=
  let limit := dflt 50 limit in
  let format := dflt "markdown" format in
  try_except
    (if negb (PyStr.truthy keyword) || negb (PyStr.truthy (PyStr.strip keyword))
     then ret "Error: 'keyword' is required (substring of code)."
     else
       df <- call_data_source E "get_all_stock"
               [("date", value_of_opt date)] ;;
       match df with
       | Some f =>
           if Pandas.empty f then ret "(No data available to display)"
           else
             let kw := PyStr.lower (PyStr.strip keyword) in
             filtered <- lift (code_contains E f kw) ;;
             format_table_output E (Some filtered) format limit
               [("keyword", VStr keyword);
                ("as_of", VStr (PyStr.or_default date "current"))]
       | None => ret "(No data available to display)"
       end)
    (fun e => ret (unexpected e)).

Definition get_suspensions (date : option string)
    (limit : option Z) (format : option string) : M string :=
  let limit := dflt 250 limit in
  let format := dflt "markdown" format in
  try_except
    (df <- call_data_source E "get_all_stock"
             [("date", value_of_opt date)] ;;
     match df with
     | Some f =>
         if Pandas.empty f then ret "(No data available to display)"
         else if negb (Pandas.has_column f "tradeStatus") then
           ret "Error: 'tradeStatus' column not present in data source response."
         else
           suspended <- lift (Pandas.where_eq f "tradeStatus" "0") ;;
           format_table_output E (Some suspended) format limit
             [("as_of", VStr (PyStr.or_default date "current"));
              ("total_suspended", VInt (Pandas.nrows suspended))]
     | None => ret "(No data available to display)"
     end)
    (fun e => ret (unexpected e)).

End WithEnv.
End MarketOverview.

(* ===================================================================== *)
(** ** [src/tools/indices.py] *)
(* ===================================================================== *)

Module Indices.
Section WithEnv.
Variable E : env.

Definition get_stock_industry (code date : option string)
    (limit : option Z) (format : option string) : M string :=
  let limit := dflt 250 limit in
  let format := dflt "markdown" format in
  try_except
    (df <- call_data_source E "get_stock_industry"
             [("code", value_of_opt code); ("date", value_of_opt date)] ;;
     format_table_output E df format limit
       [("code", VStr (PyStr.or_default code "all"));
        ("as_of", VStr (PyStr.or_default date "latest"))])
    (fun e => ret (MarketOverview.unexpected e)).

Definition get_sz50_stocks (date : option string)
    (limit : option Z) (format : option string) : M string :=
  let limit := dflt 250 limit in
  let format := dflt "markdown" format in
  Base.call_index_constituent_tool E "get_sz50_stocks" "get_sz50_stocks"
    "SZSE 50" date (Some limit) (Some format).

Definition get_hs300_stocks (date : option string)
    (limit : option Z) (format : option string) : M string :=
  let limit := dflt 250 limit in
  let format := dflt "markdown" format in
  Base.call_index_constituent_tool E "get_hs300_stocks" "get_hs300_stocks"
    "CSI 300" date (Some limit) (Some format).

Definition get_zz500_stocks (date : option string)
    (limit : option Z) (format : option string) : M string :=
  let limit := dflt 250 limit in
  let format := dflt "markdown" format in
  Base.call_index_constituent_tool E "get_zz500_stocks" "get_zz500_stocks"
    "CSI 500" date (Some limit) (Some format).

Definition get_index_constituents (index : string) (date : option string)
    (limit : option Z) (format : option string) : M string :=
  let limit := dflt 250 limit in
  let format := dflt "markdown" format in
  try_except
    (let key := PyStr.lower (PyStr.strip index) in
     if negb (existsb (String.eqb key) ["hs300"; "sz50"; "zz500"]) then
       ret "Error: Invalid index. Valid options are 'hs300', 'sz50', 'zz500'."
     else
       df <- (if String.eqb key "hs300" then
                call_data_source E "get_hs300_stocks" [("date", value_of_opt date)]
              else if String.eqb key "sz50" then
                call_data_source E "get_sz50_stocks" [("date", value_of_opt date)]
              else
                call_data_source E "get_zz500_stocks" [("date", value_of_opt date)]) ;;
       format_table_output E df format limit
         [("index", VStr key);
          ("as_of", VStr (PyStr.or_default date "latest"))])
    (fun e => ret (MarketOverview.unexpected e)).

(** ["industry" if "industry" in df.columns else df.columns[-1]]. *)
Definition industry_column (f : DataFrame) : string :=
  if Pandas.has_column f "industry" then "industry" else Pandas.last_column f.

Definition get_industry_members (industry : string) (date : option string)
    (limit : option Z) (format : option string) : M string :=
  let limit := dflt 250 limit in
  let format := dflt "markdown" format in
  try_except
    (if negb (PyStr.truthy industry) || negb (PyStr.truthy (PyStr.strip industry))
     then ret "Error: 'industry' is required. Call list_industries() to discover available values."
     else
       df <- call_data_source E "get_stock_industry"
               [("code", VNone); ("date", value_of_opt date)] ;;
       match df with
       | Some f =>
           if Pandas.empty f then ret "(No data available to display)"
           else
             filtered <- lift (Pandas.where_eq f (industry_column f) industry) ;;
             format_table_output E (Some filtered) format limit
               [("industry", VStr industry);
                ("as_of", VStr (PyStr.or_default date "latest"))]
       | None => ret "(No data available to display)"
       end)
    (fun e => ret (MarketOverview.unexpected e)).


End WithEnv.
End Indices.

(* ===================================================================== *)
(** ** [src/tools/date_utils.py] *)
(* ===================================================================== *)

Module DateUtils.

(** One step of the loop of [get_latest_trading_date]:
    [if dstr <= today and (latest is None or dstr > latest)]. *)
Definition scan_step (today : string) (latest : option string) (dstr : string)
  : option string :=
  if PyStr.le dstr today
     && match latest with
        | None => true
        | Some l => PyStr.lt l dstr
        end
  then Some dstr
  else latest.

Definition scan_latest (today : string) (days : list string) : option string :=
  fold_left (scan_step today) days None.

(** The label of a timeframe, from the start, middle and end dates. *)
Definition date_range_label (start_date middle_date end_date : PyDate.date)
  : string :=
  let sy := PyStr.str_of_int (PyDate.year start_date) in
  let sm := PyStr.str_of_int (PyDate.month start_date) in
  let mm := PyStr.str_of_int (PyDate.month middle_date) in
  let ey := PyStr.str_of_int (PyDate.year end_date) in
  let em := PyStr.str_of_int (PyDate.month end_date) in
  if negb (PyDate.year start_date =? PyDate.year end_date) then
    sy ++ "年" ++ sm ++ "月-" ++ ey ++ "年" ++ em ++ "月"
  else if negb (PyDate.month middle_date =? PyDate.month start_date)
          && negb (PyDate.month middle_date =? PyDate.month end_date) then
    sy ++ "年" ++ sm ++ "月-" ++ mm ++ "月-" ++ em ++ "月"
  else if negb (PyDate.month start_date =? PyDate.month end_date) then
    sy ++ "年" ++ sm ++ "月-" ++ em ++ "月"
  else
    sy ++ "年" ++ sm ++ "月".

(** The start and middle dates for a period keyword. *)
Definition period_start (period : string) (now : PyDate.date)
  : outcome (PyDate.date * PyDate.date) :=
  let y := PyDate.year now in
  let m := PyDate.month now in
  let same (o : outcome PyDate.date) := outcome_map (fun d => (d, d)) o in
  let both (a b : outcome PyDate.date) :=
    match a with
    | Return s => outcome_map (fun d => (s, d)) b
    | Raise e => Raise e
    end in
  let with_middle (a : outcome PyDate.date)
                  (f : PyDate.date -> outcome PyDate.date) :=
    match a with
    | Return s => outcome_map (fun d => (s, d)) (f s)
    | Raise e => Raise e
    end in
  if String.eqb period "recent" then
    if PyDate.day now <? 15 then
      if m =? 1 then
        both (PyDate.datetime (y - 1) 11 1) (PyDate.datetime (y - 1) 12 1)
      else if m =? 2 then
        same (PyDate.datetime y 1 1)
      else
        both (PyDate.datetime y (m - 2) 1) (PyDate.datetime y (m - 1) 1)
    else
      if m =? 1 then same (PyDate.datetime (y - 1) 12 1)
      else same (PyDate.datetime y (m - 1) 1)
  else if String.eqb period "quarter" then
    if m <=? 3 then same (PyDate.datetime (y - 1) (m + 9) 1)
    else same (PyDate.datetime y (m - 3) 1)
  else if String.eqb period "half_year" then
    with_middle
      (if m <=? 6 then PyDate.datetime (y - 1) (m + 6) 1
       else PyDate.datetime y (m - 6) 1)
      (fun s =>
         if PyDate.month s <=? 9 then
           PyDate.datetime (PyDate.year s) (PyDate.month s + 3) 1
         else PyDate.datetime (PyDate.year s + 1) (PyDate.month s - 9) 1)
  else if String.eqb period "year" then
    with_middle
      (PyDate.datetime (y - 1) m 1)
      (fun s =>
         if PyDate.month s <=? 6 then
           PyDate.datetime (PyDate.year s) (PyDate.month s + 6) 1
         else PyDate.datetime (PyDate.year s + 1) (PyDate.month s - 6) 1)
  else
    if m =? 1 then same (PyDate.datetime (y - 1) 12 1)
    else same (PyDate.datetime y (m - 1) 1).

Definition end_iso_date (end_date : PyDate.date) : string :=
  let end_day :=
    Z.min (PyDate.days_in_month (PyDate.year end_date) (PyDate.month end_date))
          (PyDate.day end_date) in
  PyStr.str_of_int (PyDate.year end_date) ++ "-"
    ++ PyStr.fmt_0d 2 (PyDate.month end_date) ++ "-" ++ PyStr.fmt_0d 2 end_day.

Definition start_iso_date (start_date : PyDate.date) : string :=
  PyStr.str_of_int (PyDate.year start_date) ++ "-"
    ++ PyStr.fmt_0d 2 (PyDate.month start_date) ++ "-01".

Definition error_string (e : exc) : string := "Error: " ++ exc_msg e.

(** The flag and day columns of a calendar frame. *)
Definition flag_col (f : DataFrame) : string :=
  if Pandas.has_column f "is_trading_day" then "is_trading_day"
  else Pandas.last_column f.

Definition day_col (f : DataFrame) : string :=
  if Pandas.has_column f "calendar_date" then "calendar_date"
  else Pandas.first_column f.

(** [df[df['is_trading_day'] == '1']['calendar_date'].tolist()]. *)
Definition valid_trading_days (f : DataFrame) : outcome (list string) :=
match Pandas.where_eq f "is_trading_day" "1" with
| Return trading => Pandas.column_values trading "calendar_date"
| Raise e => Raise e
end.

Section WithEnv.
Variable E : env.

Definition get_latest_trading_date : M string :=
  try_except
    (n0 <- now E ;;
     let today := PyDate.strftime n0 in
     n1 <- now E ;;
     d1 <- lift (PyDate.replace_day n1 1) ;;
     let start_date := PyDate.strftime d1 in
     n2 <- now E ;;
     d2 <- lift (PyDate.replace_day n2 28) ;;
     let end_date := PyDate.strftime d2 in
     df <- call_data_source E "get_trade_dates"
             [("start_date", VStr start_date); ("end_date", VStr end_date)] ;;
     match df with
     | None =>
         raise (mkExc TypeError "'NoneType' object is not subscriptable")
     | Some f =>
         valid_trading_days <- lift (valid_trading_days f) ;;
         match scan_latest today valid_trading_days with
         | Some latest =>
             if PyStr.truthy latest then ret latest else ret today
         | None => ret today
         end
     end)
    (fun e => n <- now E ;; ret (PyDate.strftime n)).

Definition get_market_analysis_timeframe (period : option string) : M string :=
  let period := dflt "recent" period in
  n <- now E ;;
  let end_date := n in
  sm <- lift (period_start period n) ;;
  let '(start_date, middle_date) := sm in
  ret (date_range_label start_date middle_date end_date
       ++ " (ISO: " ++ start_iso_date start_date
       ++ " to " ++ end_iso_date end_date ++ ")").

Definition is_trading_day (date : string) : M string :=
  try_except
    (df <- call_data_source E "get_trade_dates"
             [("start_date", VStr date); ("end_date", VStr date)] ;;
     match df with
     | None => ret "No"
     | Some f =>
         if Pandas.empty f then ret "No"
         else
           val <- lift (Pandas.first_cell f (flag_col f)) ;;
           ret (if String.eqb val "1" then "Yes" else "No")
     end)
    (fun e => ret (error_string e)).

Definition previous_trading_day (date : string) : M string :=
  try_except
    (d <- lift (PyDate.strptime date) ;;
     s <- lift (PyDate.add_days d (-30)) ;;
     let start := PyDate.strftime s in
     let end_ := date in
     df <- call_data_source E "get_trade_dates"
             [("start_date", VStr start); ("end_date", VStr end_)] ;;
     match df with
     | None => ret date
     | Some f =>
         if Pandas.empty f then ret date
         else
           kf <- lift (Pandas.locate f (flag_col f)) ;;
           kd <- lift (Pandas.locate f (day_col f)) ;;
           candidates <- lift (Pandas.sort_values
                                 (Pandas.select f (Pandas.mask_eq_lt kf kd "1" date))
                                 (day_col f)) ;;
           if Pandas.empty candidates then ret date
           else lift (Pandas.last_cell candidates (day_col f))
     end)
    (fun e => ret (error_string e)).

Definition next_trading_day (date : string) : M string :=
  try_except
    (d <- lift (PyDate.strptime date) ;;
     let start := date in
     e <- lift (PyDate.add_days d 30) ;;
     let end_ := PyDate.strftime e in
     df <- call_data_source E "get_trade_dates"
             [("start_date", VStr start); ("end_date", VStr end_)] ;;
     match df with
     | None => ret date
     | Some f =>
         if Pandas.empty f then ret date
         else
           kf <- lift (Pandas.locate f (flag_col f)) ;;
           kd <- lift (Pandas.locate f (day_col f)) ;;
           candidates <- lift (Pandas.sort_values
                                 (Pandas.select f (Pandas.mask_eq_gt kf kd "1" date))
                                 (day_col f)) ;;
           if Pandas.empty candidates then ret date
           else lift (Pandas.first_cell candidates (day_col f))
     end)
    (fun e => ret (error_string e)).

End WithEnv.
End DateUtils.

(* ===================================================================== *)
(** ** [src/etf_data_source_interface.py] and
       [src/akshare_etf_data_source.py] *)
(* ===================================================================== *)

(** The line feed. *)
Definition LF : string := String "010"%char EmptyString.

(** The bundle [get_etf_analysis] returns: a [dict] with exactly these
    three keys. *)
Record analysis_data := mkAnalysis {
  basic_info : DataFrame;
  recent_performance : DataFrame;
  holdings : DataFrame
}.

(** The abstract base class [ETFDataSource] (the methods the tools
    below call). *)
Class ETFDataSource := {
  get_etf_basic_info : string -> M DataFrame;
  get_etf_historical_data : string -> string -> string -> option string -> M DataFrame;
  get_etf_holdings : string -> option string -> M DataFrame;
  get_etf_analysis : string -> M analysis_data
}.

Module AKShareETFDataSource.
Section WithEnv.
Variable E : env.

(** [except NoDataFoundError: raise]
    [except Exception as e: raise DataSourceError(prefix + str(e))]. *)
Definition reraise_not_found {A} (prefix : string) (e : exc) : M A :=
  if isinstance e NoDataFoundError then raise e
  else raise (mkExc DataSourceError (prefix ++ exc_msg e)).

(** The same with [except ValueError: raise] in between. *)
Definition reraise_not_found_or_value {A} (prefix : string) (e : exc) : M A :=
  if isinstance e NoDataFoundError then raise e
  else if isinstance e ValueError then raise e
  else raise (mkExc DataSourceError (prefix ++ exc_msg e)).

Definition get_etf_basic_info (etf_code : string) : M DataFrame :=
  try_except
    (etf_info <- call_akshare E "fund_etf_spot_em" [] ;;
     etf_data <- lift (Pandas.where_eq etf_info "代码" etf_code) ;;
     if Pandas.empty etf_data then
       raise (mkExc NoDataFoundError
                ("未找到ETF代码 " ++ etf_code ++ " 的基本信息"))
     else ret etf_data)
    (reraise_not_found "获取ETF基本信息失败: ").

Definition hist_em (etf_code period start_date end_date : string) : M DataFrame :=
  call_akshare E "fund_etf_hist_em"
    [("symbol", VStr etf_code); ("period", VStr period);
     ("start_date", VStr start_date); ("end_date", VStr end_date)].

Definition get_etf_historical_data (etf_code start_date end_date : string)
    (frequency : option string) : M DataFrame :=
  let frequency := dflt "d" frequency in
  try_except
    (data <- (if String.eqb frequency "d" then
                hist_em etf_code "daily" start_date end_date
              else if String.eqb frequency "w" then
                hist_em etf_code "weekly" start_date end_date
              else if String.eqb frequency "m" then
                hist_em etf_code "monthly" start_date end_date
              else
                raise (mkExc ValueError ("不支持的频率: " ++ frequency))) ;;
     if Pandas.empty data then
       raise (mkExc NoDataFoundError
                ("未找到ETF " ++ etf_code ++ " 的历史数据"))
     else ret data)
    (reraise_not_found_or_value "获取ETF历史数据失败: ").

Definition get_etf_holdings (etf_code : string) (date : option string)
  : M DataFrame :=
  try_except
    (holdings <- call_akshare E "fund_etf_holdings_em"
                   [("symbol", VStr etf_code)] ;;
     if Pandas.empty holdings then
       raise (mkExc NoDataFoundError
                ("未找到ETF " ++ etf_code ++ " 的持仓明细"))
     else ret holdings)
    (reraise_not_found "获取ETF持仓明细失败: ").

Definition analysis_failed (e : exc) : exc :=
  mkExc DataSourceError ("获取ETF分析数据失败: " ++ exc_msg e).

Definition get_etf_analysis (etf_code : string) : M analysis_data :=
  try_except
    (basic_info <- get_etf_basic_info etf_code ;;
     n1 <- now E ;;
     let end_date := PyDate.strftime n1 in
     n2 <- now E ;;
     d <- lift (PyDate.add_days n2 (-30)) ;;
     let start_date := PyDate.strftime d in
     recent_performance <-
       get_etf_historical_data etf_code start_date end_date None ;;
     holdings <- get_etf_holdings etf_code None ;;
     ret (mkAnalysis basic_info recent_performance holdings))
    (fun e => raise (analysis_failed e)).

Definition spot_of_market (prefix : string) : M DataFrame :=
  etf_list <- call_akshare E "fund_etf_spot_em" [] ;;
  lift (Pandas.where_startswith etf_list "代码" prefix).

Definition get_etf_list (market : option string) : M DataFrame :=
  let market := dflt "all" market in
  try_except
    (etf_list <- (if String.eqb market "all" then
                    call_akshare E "fund_etf_spot_em" []
                  else if String.eqb market "sh" then spot_of_market "51"
                  else if String.eqb market "sz" then spot_of_market "15"
                  else raise (mkExc ValueError ("不支持的市场: " ++ market))) ;;
     if Pandas.empty etf_list then
       raise (mkExc NoDataFoundError ("未找到" ++ market ++ "市场的ETF列表"))
     else ret etf_list)
    (reraise_not_found_or_value "获取ETF列表失败: ").

Definition get_etf_net_value (etf_code start_date end_date : string)
  : M DataFrame :=
  try_except
    (net_value <- hist_em etf_code "daily" start_date end_date ;;
     if Pandas.empty net_value then
       raise (mkExc NoDataFoundError
                ("未找到ETF " ++ etf_code ++ " 的净值数据"))
     else ret net_value)
    (reraise_not_found "获取ETF净值数据失败: ").

End WithEnv.

(** The class implements the interface. *)
#[export] Instance source (E : env) : ETFDataSource := {
get_etf_basic_info := get_etf_basic_info E;
get_etf_historical_data := get_etf_historical_data E;
get_etf_holdings := get_etf_holdings E;
get_etf_analysis := get_etf_analysis E
}.
End AKShareETFDataSource.

(* ===================================================================== *)
(** ** [src/tools/etf_analysis.py]: [compare_etfs] *)
(* ===================================================================== *)

Module EtfAnalysis.

(** A [dict] keyed by strings: insertion order, a later assignment to a
    key replaces the value at the key's place. *)
Fixpoint dict_set {V} (k : string) (v : V) (d : list (string * V))
  : list (string * V) :=
  match d with
  | [] => [(k, v)]
  | (k', v') :: r =>
      if String.eqb k k' then (k', v) :: r
      else (k', v') :: dict_set k v r
  end.

Definition report_header : string :=
  "# ETF比较分析" ++ LF ++ LF
  ++ "## 免责声明" ++ LF
  ++ "本报告基于公开数据生成，仅供参考，不构成投资建议。" ++ LF ++ LF.

Definition table_header : string :=
  "## 基本信息比较" ++ LF
  ++ "| ETF代码 | 名称 | 最新价 | 涨跌幅 | 成交量 |" ++ LF
  ++ "|---------|------|--------|--------|--------|" ++ LF.

Definition report_footer : string :=
  LF ++ "## 比较结论" ++ LF
  ++ "- 以上数据仅供参考，建议结合具体投资需求进行选择" ++ LF
  ++ "- 不同ETF的跟踪指数和投资策略可能存在差异" ++ LF
  ++ "- 投资决策应基于个人风险承受能力和投资目标" ++ LF.

Definition too_few : string := "错误: 至少需要2个ETF代码进行比较".

(** [data[name].iloc[0] if name in data.columns else 'N/A']. *)
Definition field (data : DataFrame) (name : string) : outcome string :=
  if Pandas.has_column data name then Pandas.first_cell data name
  else Return "N/A".

Definition failed_row (code : string) : string :=
  "| " ++ code ++ " | 数据获取失败 | N/A | N/A | N/A |" ++ LF.

Definition data_row (code name price change volume : string) : string :=
  "| " ++ code ++ " | " ++ name ++ " | " ++ price ++ " | " ++ change
  ++ "% | " ++ volume ++ " |" ++ LF.

(** One line of the table, for an entry of [etf_data]. *)
Definition table_row (entry : string * option DataFrame) : outcome string :=
  let '(code, data) := entry in
  match data with
  | Some f =>
      if negb (Pandas.empty f) then
        match field f "名称", field f "最新价", field f "涨跌幅", field f "成交量" with
        | Return name, Return price, Return change, Return volume =>
            Return (data_row code name price change volume)
        | Raise e, _, _, _ | _, Raise e, _, _
        | _, _, Raise e, _ | _, _, _, Raise e => Raise e
        end
      else Return (failed_row code)
  | None => Return (failed_row code)
  end.

Fixpoint table_rows (items : list (string * option DataFrame)) (report : string)
  : outcome string :=
  match items with
  | [] => Return report
  | it :: r =>
      match table_row it with
      | Return line => table_rows r (report ++ line)
      | Raise e => Raise e
      end
  end.

Section WithSource.
Context {active_etf_data_source : ETFDataSource}.

(** The first loop: one fetch per code, a failure recorded as
    [None]. *)
Fixpoint fetch_each (codes : list string) (etf_data : list (string * option DataFrame))
  : M (list (string * option DataFrame)) :=
  match codes with
  | [] => ret etf_data
  | code :: r =>
      v <- try_except
             (basic_info <- get_etf_basic_info code ;; ret (Some basic_info))
             (fun e => ret None) ;;
      fetch_each r (dict_set code v etf_data)
  end.

Definition compare_etfs (etf_codes : string) (comparison_type : option string)
  : M string :=
  let comparison_type := dflt "performance" comparison_type in
  try_except
    (let codes := map PyStr.strip (PyStr.split "," etf_codes) in
     if Z.of_nat (List.length codes) <? 2 then ret too_few
     else
       let report := report_header in
       etf_data <- fetch_each codes [] ;;
       let report := report ++ table_header in
       report <- lift (table_rows etf_data report) ;;
       ret (report ++ report_footer))
    (fun e => ret ("错误: 发生意外错误: " ++ exc_msg e)).

End WithSource.
End EtfAnalysis.

(* ===================================================================== *)
(** ** [re]: the regular expressions of [helpers.py] *)
(* ===================================================================== *)

Module Re.

(** The interpreter the server runs on.  Up to Python 3.10 an inline
    global flag such as [(?i)] in the middle of a pattern is accepted
    (with a [DeprecationWarning]) and applies to the whole pattern; from
    Python 3.11 on compiling such a pattern raises [re.error]. *)
Inductive python := Py310 | Py311.

(** Parsed patterns.  [GlobalFlagI pos] is an inline [(?i)] whose
    opening parenthesis stands at offset [pos] of the pattern text. *)
Inductive regex :=
| Lit (c : ascii)
| Digit
| Seq (a b : regex)
| Alt (a b : regex)
| Opt (a : regex)
| Rep (n : nat) (a : regex)
| Group (a : regex)
| GlobalFlagI (pos : Z).

(** Does the pattern hold an inline [(?i)]? *)
Fixpoint has_flag_i (r : regex) : bool :=
  match r with
  | Lit _ | Digit => false
  | Seq a b | Alt a b => has_flag_i a || has_flag_i b
  | Opt a | Rep _ a | Group a => has_flag_i a
  | GlobalFlagI _ => true
  end.

(** The offset of the first inline flag that does not open the
    pattern.  [first] tells whether nothing precedes [r]. *)
Fixpoint misplaced_flag (first : bool) (r : regex) : option Z :=
  match r with
  | Lit _ | Digit => None
  | Seq a b =>
      match misplaced_flag first a with
      | Some p => Some p
      | None =>
          misplaced_flag (first && match a with GlobalFlagI _ => true | _ => false end) b
      end
  | Alt a b =>
      match misplaced_flag false a with
      | Some p => Some p
      | None => misplaced_flag false b
      end
  | Opt a | Rep _ a | Group a => misplaced_flag false a
  | GlobalFlagI pos => if first then None else Some pos
  end.

(** [re.compile]: the pattern and whether it ignores case. *)
Definition compile (v : python) (r : regex) : outcome (regex * bool) :=
  match misplaced_flag true r, v with
  | Some pos, Py311 =>
      Raise (mkExc ReError
               ("global flags not at the start of the expression at position "
                ++ PyStr.str_of_int pos))
  | _, _ => Return (r, has_flag_i r)
  end.

Definition char_eq (ignorecase : bool) (a b : ascii) : bool :=
  if ignorecase then Ascii.eqb (PyStr.lower_char a) (PyStr.lower_char b)
  else Ascii.eqb a b.

(** The text consumed between an input and what is left of it. *)
Definition consumed (input rest : list ascii) : string :=
  string_of_list_ascii (firstn (List.length input - List.length rest) input).

(** Backtracking matcher: every way to match a prefix of the input, in
    the order Python tries them, each with the groups it captured (in
    the order the groups close) and the input left. *)
Fixpoint matches (ic : bool) (r : regex) (input : list ascii)
  : list (list string * list ascii) :=
  match r with
  | Lit c =>
      match input with
      | a :: rest => if char_eq ic a c then [([], rest)] else []
      | [] => []
      end
  | Digit =>
      match input with
      | a :: rest => if PyStr.is_ascii_digit a then [([], rest)] else []
      | [] => []
      end
  | Seq a b =>
      flat_map
        (fun m1 =>
           map (fun m2 => ((fst m1 ++ fst m2)%list, snd m2))
               (matches ic b (snd m1)))
        (matches ic a input)
  | Alt a b => (matches ic a input ++ matches ic b input)%list
  | Opt a => (matches ic a input ++ [([], input)])%list
  | Rep n a =>
      (fix rep (k : nat) (inp : list ascii) : list (list string * list ascii) :=
         match k with
         | O => [([], inp)]
         | S k' =>
             flat_map
               (fun m1 =>
                  map (fun m2 => ((fst m1 ++ fst m2)%list, snd m2))
                      (rep k' (snd m1)))
               (matches ic a inp)
         end) n input
  | Group a =>
      map (fun m => ((fst m ++ [consumed input (snd m)])%list, snd m))
          (matches ic a input)
  | GlobalFlagI _ => [([], input)]
  end.

(** [re.fullmatch(pattern, s)]: the groups of the first match that
    consumes the whole string, or [None]. *)
Definition fullmatch (v : python) (r : regex) (s : string)
  : outcome (option (list string)) :=
  match compile v r with
  | Return (r', ic) =>
      Return
        (match filter (fun m => match snd m with [] => true | _ => false end)
                      (matches ic r' (list_ascii_of_string s)) with
         | m :: _ => Some (fst m)
         | [] => None
         end)
  | Raise e => Raise e
  end.

(** [m.group(k)], [k >= 1]. *)
Definition group (m : list string) (k : nat) : string := nth (k - 1) m "".

End Re.

(* ===================================================================== *)
(** ** [src/tools/helpers.py]: [normalize_stock_code] *)
(* ===================================================================== *)

Module Helpers.
Import Re.

Definition six_digits : regex := Group (Rep 6 Digit).
Definition exchange : regex :=
  Group (Alt (Seq (Lit "s") (Lit "h")) (Seq (Lit "s") (Lit "z"))).
Definition opt_dot : regex := Opt (Lit ".").

(** [r"(?i)(sh|sz)[\.]?(\d{6})"] *)
Definition pattern_prefixed : regex :=
  Seq (GlobalFlagI 0) (Seq exchange (Seq opt_dot six_digits)).

(** [r"(\d{6})[\.]?(?i)(sh|sz)"]: the flag stands at offset 12. *)
Definition pattern_suffixed : regex :=
  Seq six_digits (Seq opt_dot (Seq (GlobalFlagI 12) exchange)).

(** [r"(\d{6})"] *)
Definition pattern_bare : regex := six_digits.

Definition unsupported : string :=
  "Error: Unsupported code format. Examples: 'sh.600000', '600000', '000001.SZ'.".

(** The body of the [try] block. *)
Definition normalize_body (v : python) (code : string) : outcome string :=
  let raw := PyStr.strip code in
  if negb (PyStr.truthy raw) then Return "Error: 'code' is required."
  else
    match fullmatch v pattern_prefixed raw with
    | Raise e => Raise e
    | Return (Some m) =>
        let ex := PyStr.lower (group m 1) in
        let num := group m 2 in
        Return (ex ++ "." ++ num)
    | Return None =>
        match fullmatch v pattern_suffixed raw with
        | Raise e => Raise e
        | Return (Some m2) =>
            let num := group m2 1 in
            let ex := PyStr.lower (group m2 2) in
            Return (ex ++ "." ++ num)
        | Return None =>
            match fullmatch v pattern_bare raw with
            | Raise e => Raise e
            | Return (Some m3) =>
                let num := group m3 1 in
                let ex := if PyStr.startswith num "6" then "sh" else "sz" in
                Return (ex ++ "." ++ num)
            | Return None => Return unsupported
            end
        end
    end.

Definition normalize_stock_code (v : python) (code : string) : string :=
  match normalize_body v code with
  | Return s => s
  | Raise e => "Error: " ++ exc_msg e
  end.

(** *** [list_tool_constants] *)

Definition freq : list (string * string) :=
  [("d", "daily"); ("w", "weekly"); ("m", "monthly");
   ("5", "5 minutes"); ("15", "15 minutes"); ("30", "30 minutes");
   ("60", "60 minutes")].

Definition adjust : list (string * string) :=
  [("1", "forward adjusted"); ("2", "backward adjusted"); ("3", "unadjusted")].

Definition year_type : list (string * string) :=
  [("report", "announcement year"); ("operate", "ex-dividend year")].

Definition index : list (string * string) :=
  [("hs300", "CSI 300"); ("sz50", "SSE 50"); ("zz500", "CSI 500")].

Definition as_md (title : string) (rows : list (string * string)) : string :=
  match rows with
  | [] => ""
  | _ =>
      "### " ++ title ++ LF ++ LF ++ "| value | meaning |" ++ LF ++ "|---|---|" ++ LF
      ++ String.concat LF
           (map (fun vm => "| " ++ fst vm ++ " | " ++ snd vm ++ " |") rows)
      ++ LF
  end.

(** [k in ("", name)]. *)
Definition selects (k name : string) : bool :=
  String.eqb k "" || String.eqb k name.

Definition invalid_kind : string :=
  "Error: Invalid kind. Use one of 'frequency', 'adjust_flag', 'year_type', 'index'.".

Definition list_tool_constants (kind : option string) : string :=
  let k := PyStr.lower (PyStr.strip (PyStr.or_default kind "")) in
  let sections :=
    ((if selects k "frequency" then [as_md "frequency" freq] else [])
     ++ (if selects k "adjust_flag" then [as_md "adjust_flag" adjust] else [])
     ++ (if selects k "year_type" then [as_md "year_type" year_type] else [])
     ++ (if selects k "index" then [as_md "index" index] else []))%list in
  let out := String.concat LF (filter PyStr.truthy sections) in
  if negb (PyStr.truthy out) then invalid_kind else out.

End Helpers.

(* ===================================================================== *)
(** ** The catalogue of tool operations that take a [limit] *)
(* ===================================================================== *)

(** One constructor per operation of [base.py], [market_overview.py]
    and [indices.py] whose signature has a [limit] parameter, with the
    arguments of the call; [None] for [limit] or [format] means that the
    caller left the argument out. *)
Inductive tool_call :=
| CallFinancialDataTool (tool_name data_source_method data_type_name code year : string)
    (quarter : Z) (limit : option Z) (format : option string)
| CallMacroDataTool (tool_name data_source_method data_type_name : string)
    (start_date end_date : option string) (limit : option Z)
    (format : option string) (kwargs : list (string * string))
| CallIndexConstituentTool (tool_name data_source_method index_name : string)
    (date : option string) (limit : option Z) (format : option string)
| GetTradeDates (start_date end_date : option string)
    (limit : option Z) (format : option string)
| GetAllStock (date : option string) (limit : option Z) (format : option string)
| SearchStocks (keyword : string) (date : option string)
    (limit : option Z) (format : option string)
| GetSuspensions (date : option string) (limit : option Z) (format : option string)
| GetStockIndustry (code date : option string)
    (limit : option Z) (format : option string)
| GetSz50Stocks (date : option string) (limit : option Z) (format : option string)
| GetHs300Stocks (date : option string) (limit : option Z) (format : option string)
| GetZz500Stocks (date : option string) (limit : option Z) (format : option string)
| GetIndexConstituents (index : string) (date : option string)
    (limit : option Z) (format : option string)
| GetIndustryMembers (industry : string) (date : option string)
    (limit : option Z) (format : option string).

Definition run_tool (E : env) (c : tool_call) : M string :=
  match c with
  | CallFinancialDataTool t m d code year q limit format =>
      Base.call_financial_data_tool E t m d code year q limit format
  | CallMacroDataTool t m d s e limit format kw =>
      Base.call_macro_data_tool E t m d s e limit format kw
  | CallIndexConstituentTool t m i date limit format =>
      Base.call_index_constituent_tool E t m i date limit format
  | GetTradeDates s e limit format => MarketOverview.get_trade_dates E s e limit format
  | GetAllStock date limit format => MarketOverview.get_all_stock E date limit format
  | SearchStocks k date limit format => MarketOverview.search_stocks E k date limit format
  | GetSuspensions date limit format => MarketOverview.get_suspensions E date limit format
  | GetStockIndustry code date limit format =>
      Indices.get_stock_industry E code date limit format
  | GetSz50Stocks date limit format => Indices.get_sz50_stocks E date limit format
  | GetHs300Stocks date limit format => Indices.get_hs300_stocks E date limit format
  | GetZz500Stocks date limit format => Indices.get_zz500_stocks E date limit format
  | GetIndexConstituents i date limit format =>
      Indices.get_index_constituents E i date limit format
  | GetIndustryMembers i date limit format =>
      Indices.get_industry_members E i date limit format
  end.

(** The [limit] argument of a call. *)
Definition limit_argument (c : tool_call) : option Z :=
  match c with
  | CallFinancialDataTool _ _ _ _ _ _ limit _
  | CallMacroDataTool _ _ _ _ _ limit _ _
  | CallIndexConstituentTool _ _ _ _ limit _
  | GetTradeDates _ _ limit _
  | GetAllStock _ limit _
  | SearchStocks _ _ limit _
  | GetSuspensions _ limit _
  | GetStockIndustry _ _ limit _
  | GetSz50Stocks _ limit _
  | GetHs300Stocks _ limit _
  | GetZz500Stocks _ limit _
  | GetIndexConstituents _ _ limit _
  | GetIndustryMembers _ _ limit _ => limit
  end.

Definition is_search_stocks (c : tool_call) : bool :=
  match c with
  | SearchStocks _ _ _ _ => true
  | _ => false
  end.

(** The row cap a call asks for: its [limit], or the default that the
    theorems below establish. *)
Definition effective_limit (c : tool_call) : Z :=
  match limit_argument c with
  | Some n => n
  | None => if is_search_stocks c then 50 else 250
  end.

(** Events that are not a rendering with another row cap than [n]. *)
Definition caps_at (n : Z) (ev : event) : Prop :=
  match ev with
  | EvRender _ _ k _ => k = n
  | _ => True
  end.

(** A data source that answers every query with the frame [f], on
    which the pattern search of [search_stocks] returns a frame. *)
Definition serves (E : env) (f : DataFrame) : Prop :=
  (forall w op kwargs, data_source E w op kwargs = Return (Some f))
  /\ (forall kw, exists g, code_contains E f kw = Return g).

(** Events that are no call to a provider. *)
Definition no_call (ev : event) : Prop :=
  match ev with
  | EvCall _ _ => False
  | _ => True
  end.

(** [m] only adds events that satisfy [P] to the trace. *)
Definition adds_only {A} (P : event -> Prop) (m : M A) : Prop :=
  forall w, exists l, snd (m w) = (w ++ l)%list /\ Forall P l.

(** [m] ends without raising. *)
Definition never_raises {A} (m : M A) : Prop :=
  forall w, exists a, fst (m w) = Return a.

(** The keyword arguments and the metadata of a financial-data call. *)
Definition financial_kwargs (code year : string) (quarter : Z) : meta :=
  [("code", VStr code); ("year", VStr year); ("quarter", VInt quarter)].

Definition financial_meta (data_type_name code year : string) (quarter : Z) : meta :=
  [("code", VStr code); ("year", VStr year); ("quarter", VInt quarter);
   ("dataset", VStr data_type_name)].

(** A year written as four decimal digits. *)
Definition four_digit_numeral (year : string) : Prop :=
  exists a b c d,
    year = String a (String b (String c (String d EmptyString)))
    /\ PyStr.is_ascii_digit a = true /\ PyStr.is_ascii_digit b = true
    /\ PyStr.is_ascii_digit c = true /\ PyStr.is_ascii_digit d = true.

(** A year of four characters, each of them a digit: the digits [0] to
    [9] or digits beyond ASCII, such as the full-width and the
    superscript ones. *)
Definition four_digit_characters (year : string) : Prop :=
  exists c1 c2 c3 c4,
    PyStr.code_points year = [c1; c2; c3; c4]
    /\ PyStr.is_digit c1 = true /\ PyStr.is_digit c2 = true
    /\ PyStr.is_digit c3 = true /\ PyStr.is_digit c4 = true.

(** The arguments of a call pass the checks that the operation makes
    before it asks for data: the year and the quarter of a report, a
    keyword or an industry that is not blank, the name of one of the
    three indices. *)
Definition accepted (c : tool_call) : Prop :=
  match c with
  | CallFinancialDataTool _ _ _ _ year quarter _ _ =>
      four_digit_characters year /\ 1 <= quarter <= 4
  | SearchStocks keyword _ _ _ => PyStr.strip keyword <> ""
  | GetIndexConstituents index _ _ _ =>
      In (PyStr.lower (PyStr.strip index)) ["hs300"; "sz50"; "zz500"]
  | GetIndustryMembers industry _ _ _ => PyStr.strip industry <> ""
  | _ => True
  end.

(** ** Vocabulary of the order of dates *)

(** Chronological order of two dates. *)
Definition date_compare (a b : PyDate.date) : comparison :=
  match Z.compare (PyDate.year a) (PyDate.year b) with
  | Eq =>
      match Z.compare (PyDate.month a) (PyDate.month b) with
      | Eq => Z.compare (PyDate.day a) (PyDate.day b)
      | c => c
      end
  | c => c
  end.

Definition date_le (a b : PyDate.date) : Prop := date_compare a b <> Gt.

(** The integers [lo], [lo + 1], ..., [lo + n - 1]. *)
Definition zrange (lo : Z) (n : nat) : list Z :=
  map (fun k => lo + Z.of_nat k) (seq 0 n).

(** On a range, the padded numerals have the given width and grow with
    the number they print. *)
Definition numerals_ordered (width : nat) (lo : Z) (n : nat) : bool :=
  forallb
    (fun z =>
       Nat.eqb (String.length (PyStr.fmt_0d width z)) width
       && Nat.eqb (String.length (PyStr.fmt_0d width (z + 1))) width
       && String.ltb (PyStr.fmt_0d width z) (PyStr.fmt_0d width (z + 1)))
    (zrange lo n).

(** ** Vocabulary of the calendar properties *)


(** [s] is the greatest (resp. least) string of [l], in the order in
    which the program compares dates. *)
Definition greatest_of (s : string) (l : list string) : Prop :=
  In s l /\ forall x, In x l -> PyStr.le x s = true.


(** The query of [get_latest_trading_date]: the first of the month of
    [today] through its day 28. *)
Definition month_window (today : PyDate.date) : meta :=
  [("start_date",
    VStr (PyDate.strftime (PyDate.mkDate (PyDate.year today) (PyDate.month today) 1)));
   ("end_date",
    VStr (PyDate.strftime (PyDate.mkDate (PyDate.year today) (PyDate.month today) 28)))].


(** The dates that a calendar frame flags as trading days, read from
    its columns [is_trading_day] and [calendar_date], in the order of
    the frame; none when the frame lacks one of the two columns. *)
Definition flagged_days (f : DataFrame) : option (list string) :=
  match Pandas.index_of "is_trading_day" (Pandas.columns f),
        Pandas.index_of "calendar_date" (Pandas.columns f) with
  | Some kf, Some kd =>
      Some (map (Pandas.cell kd)
                (filter (fun r => String.eqb (Pandas.cell kf r) "1") (Pandas.rows f)))
  | _, _ => None
  end.



(** The 30-day windows of [previous_trading_day] and [next_trading_day]. *)
Definition lookback_window (date : string) (d : PyDate.date) : outcome meta :=
  outcome_map
    (fun s => [("start_date", VStr (PyDate.strftime s)); ("end_date", VStr date)])
    (PyDate.add_days d (-30)).

Definition lookahead_window (date : string) (d : PyDate.date) : outcome meta :=
  outcome_map
    (fun e => [("start_date", VStr date); ("end_date", VStr (PyDate.strftime e))])
    (PyDate.add_days d 30).

(** *** Sample collaborators *)

(** A clock that reads the same date throughout an invocation. *)
Definition steady_clock (today : PyDate.date) : world -> PyDate.date :=
  fun _ => today.

(** A renderer that answers with the row cap it was given. *)
Definition cap_renderer : world -> option DataFrame -> string -> Z -> meta -> outcome string :=
  fun _ _ _ n _ => Return ("table of at most " ++ PyStr.str_of_int n ++ " rows").

(** An environment from a clock and a data source; [akshare] is not
    reachable, and the substring filter keeps every row. *)
Definition calendar_env (clk : world -> PyDate.date)
    (ds : world -> string -> meta -> outcome (option DataFrame)) : env :=
  mkEnv clk ds
    (fun _ _ _ => Raise (mkExc ExceptionCls "akshare is not available"))
    cap_renderer
    (fun f _ => Return f).

Definition calendar_2025_01 : DataFrame :=
  mkDF ["calendar_date"; "is_trading_day"]
       [["2025-01-01"; "0"]; ["2025-01-02"; "1"]; ["2025-01-03"; "1"];
        ["2025-01-04"; "0"]; ["2025-01-05"; "0"]; ["2025-01-06"; "1"];
        ["2025-01-07"; "1"]; ["2025-01-08"; "1"]; ["2025-01-09"; "1"];
        ["2025-01-10"; "1"]; ["2025-01-11"; "0"]; ["2025-01-12"; "0"];
        ["2025-01-13"; "1"]].

Definition env_2025_01_10 : env :=
  calendar_env (steady_clock (PyDate.mkDate 2025 1 10))
               (fun _ _ _ => Return (Some calendar_2025_01)).

(** A data source whose every call fails. *)
Definition env_down : env :=
  calendar_env (steady_clock (PyDate.mkDate 2025 1 10))
               (fun _ _ _ => Raise (mkExc DataSourceError "connection reset")).

Definition stock_list : DataFrame :=
  mkDF ["code"; "tradeStatus"; "code_name"]
       [["sh.600000"; "1"; "浦发银行"]; ["sh.600004"; "0"; "白云机场"]].

Definition env_stocks : env :=
  calendar_env (steady_clock (PyDate.mkDate 2025 1 10))
               (fun _ _ _ => Return (Some stock_list)).

(** An ETF provider: the spot table lists two funds, the history has
    two days, and the holdings table is what is given. *)
Definition spot_table : DataFrame :=
  mkDF ["代码"; "名称"; "最新价"; "涨跌幅"; "成交量"]
       [["510300"; "沪深300ETF"; "3.985"; "0.52"; "1234567"];
        ["159919"; "300ETF"; "4.102"; "-0.31"; "7654321"]].

Definition history_table : DataFrame :=
  mkDF ["日期"; "收盘"] [["2024-12-11"; "3.90"]; ["2025-01-10"; "3.98"]].

Definition etf_env (holdings_table : DataFrame) : env :=
  mkEnv (steady_clock (PyDate.mkDate 2025 1 10))
    (fun _ _ _ => Return None)
    (fun _ op _ =>
       if String.eqb op "fund_etf_spot_em" then Return spot_table
       else if String.eqb op "fund_etf_hist_em" then Return history_table
       else Return holdings_table)
    cap_renderer
    (fun f _ => Return f).

(** The holdings table comes back empty. *)
Definition env_no_holdings : env := etf_env (mkDF ["股票代码"; "持仓占比"] []).

Definition env_with_holdings : env :=
  etf_env (mkDF ["股票代码"; "持仓占比"] [["600519"; "5.1"]]).

(** ** Vocabulary of the ETF comparison *)

(** What the successive fetches of [compare_etfs] answer, in order,
    when the loop starts in the world [w]. *)
Fixpoint fetch_log (E : env) (codes : list string) (w : world)
  : list (string * outcome DataFrame) :=
  match codes with
  | [] => []
  | code :: r =>
      let '(o, w') := AKShareETFDataSource.get_etf_basic_info E code w in
      (code, o) :: fetch_log E r w'
  end.

(** The answer to the last fetch of a code. *)
Fixpoint last_fetch (code : string) (log : list (string * outcome DataFrame))
  : option (outcome DataFrame) :=
  match log with
  | [] => None
  | (c, o) :: r =>
      match last_fetch code r with
      | Some o' => Some o'
      | None => if String.eqb c code then Some o else None
      end
  end.

(** The value of a column in the first record of a frame, ["N/A"] when
    the frame has no such column. *)
Definition field_or_na (f : DataFrame) (name : string) : string :=
  match Pandas.index_of name (Pandas.columns f) with
  | Some k => Pandas.cell k (hd [] (Pandas.rows f))
  | None => "N/A"
  end.

(** The table line of a fund whose basic info arrived: code, name,
    latest price, change in per cent and volume. *)
Definition fund_row (code : string) (f : DataFrame) : string :=
  "| " ++ code ++ " | " ++ field_or_na f "名称" ++ " | " ++ field_or_na f "最新价"
  ++ " | " ++ field_or_na f "涨跌幅" ++ "% | " ++ field_or_na f "成交量" ++ " |" ++ LF.

(** The table line of a fund whose basic info did not arrive. *)
Definition failed_line (code : string) : string :=
  "| " ++ code ++ " | 数据获取失败 | N/A | N/A | N/A |" ++ LF.

(** The lines of a text, put end to end. *)
Definition join (lines : list string) : string := fold_right String.append "" lines.

(** What the first loop stores for an answer. *)
Definition stored (o : outcome DataFrame) : option DataFrame :=
  match o with
  | Return f => Some f
  | Raise _ => None
  end.

(** The assignment [etf_data[code] = ...] for one answer. *)
Definition store_step (d : list (string * option DataFrame))
    (e : string * outcome DataFrame) : list (string * option DataFrame) :=
  EtfAnalysis.dict_set (fst e) (stored (snd e)) d.

(** The line of an entry of [etf_data]. *)
Definition row_text (entry : string * option DataFrame) : string :=
  match snd entry with
  | Some f =>
      if Pandas.empty f then failed_line (fst entry)
      else fund_row (fst entry) f
  | None => failed_line (fst entry)
  end.

(** The codes of a list, each once, in the order of first occurrence. *)
Definition distinct (codes : list string) : list string :=
  fold_left (fun seen c => if existsb (String.eqb c) seen then seen else (seen ++ [c])%list)
    codes [].

(** The table line of a code, from the answer to its last fetch. *)
Definition table_line (log : list (string * outcome DataFrame)) (code : string)
  : string :=
  match last_fetch code log with
  | Some (Return f) => fund_row code f
  | _ => failed_line code
  end.

(** The entry of [etf_data] for a code. *)
Definition entry_of (log : list (string * outcome DataFrame)) (code : string)
  : string * option DataFrame :=
  (code, match last_fetch code log with Some o => stored o | None => None end).

(** The text of the comparison report around the lines of its table. *)
Definition comparison_report (lines : list string) : string :=
  "# ETF比较分析" ++ LF ++ LF
  ++ "## 免责声明" ++ LF
  ++ "本报告基于公开数据生成，仅供参考，不构成投资建议。" ++ LF ++ LF
  ++ "## 基本信息比较" ++ LF
  ++ "| ETF代码 | 名称 | 最新价 | 涨跌幅 | 成交量 |" ++ LF
  ++ "|---------|------|--------|--------|--------|" ++ LF
  ++ join lines
  ++ LF ++ "## 比较结论" ++ LF
  ++ "- 以上数据仅供参考，建议结合具体投资需求进行选择" ++ LF
  ++ "- 不同ETF的跟踪指数和投资策略可能存在差异" ++ LF
  ++ "- 投资决策应基于个人风险承受能力和投资目标" ++ LF.

(** A provider whose spot table is unreachable at the first call. *)
Definition env_flaky : env :=
  mkEnv (steady_clock (PyDate.mkDate 2025 1 10))
    (fun _ _ _ => Return None)
    (fun w _ _ =>
       match w with
       | [] => Raise (mkExc ExceptionCls "timed out")
       | _ => Return spot_table
       end)
    cap_renderer
    (fun f _ => Return f).

(* ===================================================================== *)
(** ** The plain renderer *)
(* ===================================================================== *)

(** [format_df_to_markdown(df)] of [src/formatting/markdown_formatter.py],
    the renderer of the ETF and real-time tools: a function of the frame
    that may raise.  It is a collaborator beside those of [env]. *)
Record md_env := mkMdEnv {
  tools_env :> env;
  markdown_of : DataFrame -> outcome string
}.

Definition format_df_to_markdown (E : md_env) (df : DataFrame) : M string :=
  lift (markdown_of E df).

(* ===================================================================== *)
(** ** [src/tools/etf_market.py] *)
(* ===================================================================== *)

Module EtfMarket.

(** The chain of [except] clauses of the ETF tools. *)
Definition except_chain (e : exc) : string :=
  if isinstance e NoDataFoundError then
    "错误: " ++ exc_msg e
  else if isinstance e LoginError then
    "错误: 无法连接到数据源. " ++ exc_msg e
  else if isinstance e DataSourceError then
    "错误: 获取数据时发生错误. " ++ exc_msg e
  else
    "错误: 发生意外错误: " ++ exc_msg e.

Definition valid_freqs : list string := ["d"; "w"; "m"].

Section WithSource.
Variable E : md_env.
Context {active_etf_data_source : ETFDataSource}.

Definition get_etf_basic_info (etf_code : string) : M string :=
  try_except
    (df <- get_etf_basic_info etf_code ;;
     format_df_to_markdown E df)
    (fun e => ret (except_chain e)).

Definition get_etf_historical_data (etf_code start_date end_date : string)
    (frequency : option string) : M string :=
  let frequency := dflt "d" frequency in
  try_except
    (if negb (existsb (String.eqb frequency) valid_freqs) then
       ret ("错误: 无效的频率 '" ++ frequency ++ "'. 有效选项: "
            ++ PyStr.repr_list valid_freqs)
     else
       df <- get_etf_historical_data etf_code start_date end_date
               (Some frequency) ;;
       format_df_to_markdown E df)
    (fun e => ret (except_chain e)).

End WithSource.
End EtfMarket.

(* ===================================================================== *)
(** ** [src/tools/etf_holdings.py]: [get_etf_holdings] *)
(* ===================================================================== *)

Module EtfHoldings.
Section WithSource.
Variable E : md_env.
Context {active_etf_data_source : ETFDataSource}.

Definition get_etf_holdings (etf_code : string) (date : option string) : M string :=
  try_except
    (df <- get_etf_holdings etf_code date ;;
     format_df_to_markdown E df)
    (fun e => ret (EtfMarket.except_chain e)).

End WithSource.
End EtfHoldings.

(* ===================================================================== *)
(** ** [src/tools/realtime.py] *)
(* ===================================================================== *)

Module Realtime.

(** [_normalize_code]. *)
Definition normalize_code (code : string) : string :=
  if negb (PyStr.truthy code) then code
  else PyStr.upper (PyStr.strip code).

Definition no_quote : string :=
  "未获取到实时数据。可能原因：代码不存在、非交易时段或数据延迟。"
  ++ "（AKShare 实时并非严格实时，仅尽力返回最新可得数据）".

Definition preferred_cols : list string :=
  ["数据源"; "代码"; "名称"; "最新价"; "涨跌幅"; "涨跌额"; "今开"; "昨收";
   "最高"; "最低"; "成交量"; "成交额"; "更新时间"; "日期"].

Section WithEnv.
Variable E : md_env.

(** One channel of [_fetch_realtime_for_equity_or_etf]: the body of a
    [try] block, which returns the tagged rows when the table has some
    for the code. *)
Definition channel (op norm : string) : M (option DataFrame) :=
  table <- call_akshare E op [] ;;
  if negb (Pandas.empty table) then
    matched <- lift (Pandas.where_eq table "代码" norm) ;;
    if negb (Pandas.empty matched) then
      tagged <- lift (Pandas.insert_first matched "数据源" ("AKShare-" ++ op)) ;;
      ret (Some tagged)
    else ret None
  else ret None.

(** A [try] block whose handler only logs. *)
Definition attempt (m : M (option DataFrame)) : M (option DataFrame) :=
  try_except m (fun e => ret None).

(** [_fetch_realtime_for_equity_or_etf]. *)
Definition fetch_realtime_for_equity_or_etf (code : string) : M DataFrame :=
  let norm := normalize_code code in
  etf <- attempt (channel "fund_etf_spot_em" norm) ;;
  match etf with
  | Some matched => ret matched
  | None =>
      stock <- attempt (channel "stock_zh_a_spot_em" norm) ;;
      match stock with
      | Some matched => ret matched
      | None => ret Pandas.no_frame
      end
  end.

Definition get_realtime_quote (code : string) : M string :=
  let norm_code := normalize_code code in
  if negb (PyStr.truthy norm_code) then ret "错误: 请输入有效的股票或ETF代码"
  else
    try_except
      (df <- fetch_realtime_for_equity_or_etf norm_code ;;
       if Pandas.empty df then ret no_quote
       else
         let cols := filter (Pandas.has_column df) preferred_cols in
         df <- (match cols with
                | [] => ret df
                | _ => lift (Pandas.project df cols)
                end) ;;
         format_df_to_markdown E df)
      (fun e => ret ("错误: 获取实时行情失败: " ++ exc_msg e)).

End WithEnv.
End Realtime.

(** ** Vocabulary of the further properties *)

(** Whole months from the month of [start] to the month of [now]. *)
Definition months_back (now start : PyDate.date) : Z :=
  12 * (PyDate.year now - PyDate.year start)
  + (PyDate.month now - PyDate.month start).

(** How far back a period reaches: a quarter, half a year, a year; for
    ["recent"] two months before the 15th, February excepted, and one
    month otherwise; one month for any other keyword. *)
Definition period_length (period : string) (now : PyDate.date) : Z :=
  if String.eqb period "recent" then
    if (PyDate.day now <? 15) && negb (PyDate.month now =? 2) then 2 else 1
  else if String.eqb period "quarter" then 3
  else if String.eqb period "half_year" then 6
  else if String.eqb period "year" then 12
  else 1.

(** Where the middle date lies, in months after the start. *)
Definition middle_offset (period : string) (now : PyDate.date) : Z :=
  if String.eqb period "recent" then
    if (PyDate.day now <? 15) && negb (PyDate.month now =? 2) then 1 else 0
  else if String.eqb period "half_year" then 3
  else if String.eqb period "year" then 6
  else 0.


(** The keyword arguments and the metadata of a macro-data call. *)
Definition macro_kwargs (start_date end_date : option string)
    (kwargs : list (string * string)) : meta :=
  ([("start_date", value_of_opt start_date); ("end_date", value_of_opt end_date)]
   ++ map (fun kv => (fst kv, VStr (snd kv))) kwargs)%list.

Definition macro_meta_base (data_type_name : string)
    (start_date end_date : option string) : meta :=
  [("dataset", VStr data_type_name); ("start_date", value_of_opt start_date);
   ("end_date", value_of_opt end_date)].

(** A data source that has no data. *)
Definition env_no_data : env :=
  calendar_env (steady_clock (PyDate.mkDate 2025 1 10))
               (fun _ _ _ => Raise (mkExc NoDataFoundError "No data found for sh.600000")).

(** Whether the padded numeral of a year is its plain numeral. *)
Definition year_is_unpadded (y : Z) : bool :=
  String.eqb (PyStr.fmt_0d 4 y) (PyStr.str_of_int y).

(** The names of the three index operations of the data source. *)
Definition index_method (key : string) : string := "get_" ++ key ++ "_stocks".


(** The [period] that [akshare] is asked for a frequency token. *)
Definition period_of (frequency : string) : option string :=
  if String.eqb frequency "d" then Some "daily"
  else if String.eqb frequency "w" then Some "weekly"
  else if String.eqb frequency "m" then Some "monthly"
  else None.

(** The provider calls of the AKShare source. *)
Definition spot_call : event := EvCall "fund_etf_spot_em" [].

Definition hist_call (etf_code period start_date end_date : string) : event :=
  EvCall "fund_etf_hist_em"
    [("symbol", VStr etf_code); ("period", VStr period);
     ("start_date", VStr start_date); ("end_date", VStr end_date)].

Definition holdings_call (etf_code : string) : event :=
  EvCall "fund_etf_holdings_em" [("symbol", VStr etf_code)].

(** The code prefix of the funds of a market. *)
Definition market_prefix (market : string) : option string :=
  if String.eqb market "sh" then Some "51"
  else if String.eqb market "sz" then Some "15"
  else None.

(** A provider that cannot be reached. *)
Definition env_unreachable : env :=
  mkEnv (steady_clock (PyDate.mkDate 2025 1 10))
    (fun _ _ _ => Return None)
    (fun _ _ _ => Raise (mkExc ExceptionCls "timed out"))
    cap_renderer
    (fun f _ => Return f).

(** What an ETF tool answers once it holds a frame: the rendering, or
    the error string of what the renderer raised. *)
Definition rendered (E : md_env) (df : DataFrame) : outcome string :=
  match markdown_of E df with
  | Return s => Return s
  | Raise e => Return (EtfMarket.except_chain e)
  end.

(** A plain renderer that names the columns and counts the rows. *)
Definition count_renderer (df : DataFrame) : outcome string :=
  Return (String.concat "|" (Pandas.columns df) ++ ": "
          ++ PyStr.str_of_int (Pandas.nrows df) ++ " rows").

Definition with_count_renderer (E : env) : md_env := mkMdEnv E count_renderer.

(** ** Vocabulary of the real-time quote *)

Definition stock_call : event := EvCall "stock_zh_a_spot_em" [].

(** The rows of a provider table for a code, and those rows tagged
    with the channel they came from. *)
Definition quote_hits (table : DataFrame) (k : nat) (norm : string)
  : list (list string) :=
  filter (fun r => String.eqb (Pandas.cell k r) norm) (Pandas.rows table).

Definition tagged (op : string) (table : DataFrame) (hits : list (list string))
  : DataFrame :=
  mkDF ("数据源" :: Pandas.columns table) (map (cons ("AKShare-" ++ op)) hits).

(** The columns of a frame that the quote shows. *)
Definition shown_columns (df : DataFrame) : list string :=
  filter (Pandas.has_column df) Realtime.preferred_cols.

(** The answer of the quote tool once it holds the frame to show. *)
Definition quote_answer (E : md_env) (shown : DataFrame) : outcome string :=
  match markdown_of E shown with
  | Return s => Return s
  | Raise e => Return ("错误: 获取实时行情失败: " ++ exc_msg e)
  end.

(** Two provider tables: the fund [510300] is listed in both. *)
Definition stock_spot_table : DataFrame :=
  mkDF ["代码"; "名称"; "最新价"; "市盈率"]
       [["600519"; "贵州茅台"; "1500.00"; "25.1"];
        ["510300"; "同名条目"; "1.00"; "0"]].

Definition env_quotes : env :=
  mkEnv (steady_clock (PyDate.mkDate 2025 1 10))
    (fun _ _ _ => Return None)
    (fun _ op _ =>
       if String.eqb op "fund_etf_spot_em" then Return spot_table
       else if String.eqb op "stock_zh_a_spot_em" then Return stock_spot_table
       else Raise (mkExc ExceptionCls "unknown operation"))
    cap_renderer
    (fun f _ => Return f).

(** The fund table cannot be fetched, the stock table can. *)
Definition env_stock_only : env :=
  mkEnv (steady_clock (PyDate.mkDate 2025 1 10))
    (fun _ _ _ => Return None)
    (fun _ op _ =>
       if String.eqb op "stock_zh_a_spot_em" then Return stock_spot_table
       else Raise (mkExc ExceptionCls "timed out"))
    cap_renderer
    (fun f _ => Return f).

(** ** Vocabulary of the industry list *)





(** The kinds that [list_tool_constants] knows, the empty one standing
    for all of them. *)
Definition known_kinds : list string :=
  [""; "frequency"; "adjust_flag"; "year_type"; "index"].

(** A code in the form the data source takes: the exchange, a dot, six
    digits. *)
Definition baostock_code (s : string) : Prop :=
  exists ex num,
    s = ex ++ "." ++ num /\ (ex = "sh" \/ ex = "sz")
    /\ String.length num = 6%nat /\ PyStr.ascii_digits num = true.

(* ===================================================================== *)
(** * Properties *)
(* ===================================================================== *)

(** ** Generic facts *)

Lemma prefix_app (p x : string) : String.prefix p (p ++ x) = true.
Proof.
  induction p as [|c p IH]; simpl.
  - destruct x; reflexivity.
  - destruct (ascii_dec c c) as [_|n]; [exact IH | now elim n].
Qed.

Lemma except_chain_is_error (e : exc) :
  PyStr.startswith (Base.except_chain e) "Error: " = true.
Proof.
  unfold Base.except_chain, PyStr.startswith.
  repeat match goal with
         | |- context [if ?b then _ else _] => destruct b
         end;
    match goal with
    | |- String.prefix _ (_ ++ _) = true => apply (prefix_app "Error: ")
    end.
Qed.

(** ** The invocation pipeline ([base.py]) *)

(** C2. Whatever the arguments and whatever the data source and the
    renderer do (return or raise any exception), [call_financial_data_tool]
    returns a string and raises nothing: the string either starts with
    ["Error: "], or it is the table the renderer produced for the frame
    the data source returned. *)
Theorem call_financial_data_tool_returns_string
    (E : env) (tool_name method data_type_name code year : string)
    (quarter : Z) (limit : option Z) (format : option string) (w : world) :
  exists s,
    fst (Base.call_financial_data_tool E tool_name method data_type_name
           code year quarter limit format w) = Return s
    /\ (PyStr.startswith s "Error: " = true
        \/ exists df,
             data_source E w method (financial_kwargs code year quarter) = Return df
             /\ renderer E (w ++ [EvCall method (financial_kwargs code year quarter)])%list
                  df (dflt "markdown" format) (dflt 250 limit)
                  (financial_meta data_type_name code year quarter) = Return s).
Proof.
  unfold Base.call_financial_data_tool, try_except, bind, ret,
    call_data_source, format_table_output, financial_kwargs, financial_meta.
  destruct (negb (PyStr.isdigit year) || negb (len year =? 4)).
  { eexists; split; [reflexivity | left; apply (prefix_app "Error: ")]. }
  destruct (negb ((1 <=? quarter) && (quarter <=? 4))).
  { eexists; split; [reflexivity | left; apply (prefix_app "Error: ")]. }
  destruct (data_source E w method _) as [df|e] eqn:Hds; cbn.
  - match goal with
    | |- context [renderer E ?w' ?d ?f ?n ?m] =>
        destruct (renderer E w' d f n m) as [s|e] eqn:Hr
    end; cbn.
    + exists s; split; [reflexivity | right; exists df; split; [reflexivity | exact Hr]].
    + eexists; split; [reflexivity | left; apply except_chain_is_error].
  - eexists; split; [reflexivity | left; apply except_chain_is_error].
Qed.

Lemma ascii_digit_is_digit (a : ascii) :
  PyStr.is_ascii_digit a = true ->
  (PyStr.ascii_code a <? 192) = true /\ PyStr.is_digit (PyStr.ascii_code a) = true.
Proof.
  unfold PyStr.is_ascii_digit. intro H. apply andb_prop in H. destruct H as [H1 H2].
  apply Z.leb_le in H1, H2. split; [apply Z.ltb_lt; lia |].
  unfold PyStr.is_digit, PyStr.digit_ranges. cbn [existsb fst snd].
  replace (48 <=? PyStr.ascii_code a) with true by (symmetry; apply Z.leb_le; lia).
  replace (PyStr.ascii_code a <=? 57) with true by (symmetry; apply Z.leb_le; lia).
  reflexivity.
Qed.

(** Four decimal digits are four digit characters. *)
Lemma numeral_is_digit_characters (year : string) :
  four_digit_numeral year -> four_digit_characters year.
Proof.
  intros (a & b & c & d & -> & Ha & Hb & Hc & Hd).
  destruct (ascii_digit_is_digit a Ha) as [La Da].
  destruct (ascii_digit_is_digit b Hb) as [Lb Db].
  destruct (ascii_digit_is_digit c Hc) as [Lc Dc].
  destruct (ascii_digit_is_digit d Hd) as [Ld Dd].
  exists (PyStr.ascii_code a), (PyStr.ascii_code b),
         (PyStr.ascii_code c), (PyStr.ascii_code d).
  cbn [PyStr.code_points]. cbv zeta. rewrite La, Lb, Lc, Ld. auto.
Qed.




(** The check of the year, [year.isdigit()] and [len(year) == 4], passes
    exactly the years of four digit characters. *)
Lemma four_digit_characters_checked (year : string) :
  four_digit_characters year <-> PyStr.isdigit year = true /\ len year = 4.
Proof.
  unfold four_digit_characters, PyStr.isdigit, len, PyStr.len. split.
  - intros (c1 & c2 & c3 & c4 & -> & H1 & H2 & H3 & H4).
    cbn [forallb List.length]. rewrite H1, H2, H3, H4. split; reflexivity.
  - intros [Hd Hl].
    destruct (PyStr.code_points year) as [|c1 [|c2 [|c3 [|c4 [|c5 r]]]]];
      cbn [List.length] in Hl; try lia.
    cbn [forallb] in Hd.
    repeat (apply andb_prop in Hd; destruct Hd as [? Hd]).
    exists c1, c2, c3, c4. auto.
Qed.

Lemma four_digit_numeral_checked (year : string) :
  four_digit_numeral year -> PyStr.isdigit year = true /\ len year = 4.
Proof.
  intro H. apply four_digit_characters_checked.
  now apply numeral_is_digit_characters.
Qed.



(** ** What an operation adds to the trace *)

Section AddsOnly.
Variable P : event -> Prop.

Lemma adds_only_ret {A} (a : A) : adds_only P (ret a).
Proof. intro w; exists []; split; [symmetry; apply app_nil_r | constructor]. Qed.

Lemma adds_only_raise {A} (e : exc) : adds_only P (@raise A e).
Proof. intro w; exists []; split; [symmetry; apply app_nil_r | constructor]. Qed.

Lemma adds_only_lift {A} (o : outcome A) : adds_only P (lift o).
Proof. intro w; exists []; split; [symmetry; apply app_nil_r | constructor]. Qed.

Lemma adds_only_bind {A B} (m : M A) (k : A -> M B) :
  adds_only P m -> (forall a, adds_only P (k a)) -> adds_only P (bind m k).
Proof.
  intros Hm Hk w. unfold bind.
  destruct (Hm w) as [l1 [E1 F1]].
  destruct (m w) as [[a|e] w1]; cbn in *; subst w1.
  - destruct (Hk a (w ++ l1)%list) as [l2 [E2 F2]].
    exists (l1 ++ l2)%list. rewrite E2, app_assoc. split; [reflexivity |].
    apply Forall_app; split; assumption.
  - exists l1; split; [reflexivity | assumption].
Qed.

Lemma adds_only_try {A} (m : M A) (h : exc -> M A) :
  adds_only P m -> (forall e, adds_only P (h e)) -> adds_only P (try_except m h).
Proof.
  intros Hm Hh w. unfold try_except.
  destruct (Hm w) as [l1 [E1 F1]].
  destruct (m w) as [[a|e] w1]; cbn in *; subst w1.
  - exists l1; split; [reflexivity | assumption].
  - destruct (Hh e (w ++ l1)%list) as [l2 [E2 F2]].
    exists (l1 ++ l2)%list. rewrite E2, app_assoc. split; [reflexivity |].
    apply Forall_app; split; assumption.
Qed.

Lemma adds_only_event {A} (f : world -> outcome A) (ev : event) :
  P ev -> adds_only P (fun w => (f w, (w ++ [ev])%list)).
Proof. intros H w; exists [ev]; split; [reflexivity | repeat constructor; exact H]. Qed.

End AddsOnly.

Ltac adds_only_step :=
  match goal with
  | |- adds_only _ (try_except _ _) => apply adds_only_try; [| intro]
  | |- adds_only _ (bind _ _) => apply adds_only_bind; [| intro]
  | |- adds_only _ (ret _) => apply adds_only_ret
  | |- adds_only _ (raise _) => apply adds_only_raise
  | |- adds_only _ (lift _) => apply adds_only_lift
  | |- adds_only _ (call_data_source ?E ?op ?kw) =>
      apply (adds_only_event _ (fun w => data_source E w op kw)); exact I
  | |- adds_only _ (call_akshare ?E ?op ?kw) =>
      apply (adds_only_event _ (fun w => akshare E w op kw)); exact I
  | |- adds_only _ (now ?E) =>
      apply (adds_only_event _ (fun w => Return (clock E w))); exact I
  | |- adds_only _ (format_table_output ?E ?df ?f ?n ?m) =>
      apply (adds_only_event _ (fun w => renderer E w df f n m)); reflexivity
  | |- adds_only _ (if ?b then _ else _) => destruct b
  | |- adds_only _ (match ?x with _ => _ end) => destruct x
  end.

(** ** The order on strings *)

Lemma compare_as_OT (a b : string) :
  String.compare a b = String_as_OT.compare a b.
Proof.
  revert b; induction a as [|c a IH]; destruct b as [|c' b]; simpl; try reflexivity.
  all: unfold Ascii.compare, Ascii_as_OT.compare.
  all: change N_as_OT.compare with N.compare.
  all: destruct (N.compare (N_of_ascii c) (N_of_ascii c')); auto.
Qed.

Lemma compare_refl (a : string) : String.compare a a = Eq.
Proof.
  pose proof (String.compare_antisym a a) as A.
  destruct (String.compare a a); [reflexivity | |]; discriminate A.
Qed.

Lemma compare_lt_trans (a b c : string) :
  String.compare a b = Lt -> String.compare b c = Lt -> String.compare a c = Lt.
Proof.
  rewrite !compare_as_OT.
  exact (@RelationClasses.StrictOrder_Transitive _ _ String_as_OT.lt_strorder a b c).
Qed.

Lemma le_refl (a : string) : PyStr.le a a = true.
Proof. unfold PyStr.le, String.leb. now rewrite compare_refl. Qed.

Lemma le_trans (a b c : string) :
  PyStr.le a b = true -> PyStr.le b c = true -> PyStr.le a c = true.
Proof.
  unfold PyStr.le, String.leb.
  destruct (String.compare a b) eqn:Hab; try discriminate;
    destruct (String.compare b c) eqn:Hbc; try discriminate; intros _ _.
  - apply String.compare_eq_iff in Hab; subst. now rewrite Hbc.
  - apply String.compare_eq_iff in Hab; subst. now rewrite Hbc.
  - apply String.compare_eq_iff in Hbc; subst. now rewrite Hab.
  - now rewrite (compare_lt_trans _ _ _ Hab Hbc).
Qed.

Lemma lt_not_le (a b : string) : PyStr.lt a b = negb (PyStr.le b a).
Proof.
  unfold PyStr.lt, PyStr.le, String.ltb, String.leb.
  rewrite (String.compare_antisym b a).
  destruct (String.compare a b); reflexivity.
Qed.

Lemma lt_le (a b : string) : PyStr.lt a b = true -> PyStr.le a b = true.
Proof.
  unfold PyStr.lt, PyStr.le, String.ltb, String.leb.
  destruct (String.compare a b); congruence.
Qed.

Lemma le_total (a b : string) : PyStr.le a b = true \/ PyStr.le b a = true.
Proof. apply String.leb_total. Qed.

(** ** The scan of [get_latest_trading_date] *)

Lemma scan_invariant (today : string) (days : list string) (acc : option string) :
  (forall a, acc = Some a -> PyStr.le a today = true) ->
  match fold_left (DateUtils.scan_step today) days acc with
  | None => acc = None /\ forall d, In d days -> PyStr.le d today = false
  | Some m =>
      PyStr.le m today = true
      /\ (In m days \/ acc = Some m)
      /\ (forall d, In d days -> PyStr.le d today = true -> PyStr.le d m = true)
      /\ (forall a, acc = Some a -> PyStr.le a m = true)
  end.
Proof.
  revert acc; induction days as [|d days IH]; intros acc Hacc; simpl.
  - destruct acc as [a|].
    + split; [auto | split; [auto | split]].
      * intros ? [].
      * intros a' [= <-]. apply le_refl.
    + split; [reflexivity | intros ? []].
  - specialize (IH (DateUtils.scan_step today acc d)).
    unfold DateUtils.scan_step in *.
    destruct (PyStr.le d today) eqn:Hd; cbn [andb] in *.
    + destruct acc as [a|].
      * rewrite lt_not_le in *.
        destruct (PyStr.le d a) eqn:Hda; cbn [negb] in *.
        -- specialize (IH Hacc).
           destruct (fold_left _ days (Some a)) as [m|].
           ++ destruct IH as (H1 & H2 & H3 & H4). repeat split; auto.
              ** destruct H2; auto.
              ** intros x [<-|Hx] Hx'; [| auto].
                 eapply le_trans; [exact Hda | auto].
           ++ destruct IH as [IH _]; discriminate.
        -- assert (Hacc' : forall x, Some d = Some x -> PyStr.le x today = true)
             by (intros x [= <-]; exact Hd).
           specialize (IH Hacc').
           destruct (fold_left _ days (Some d)) as [m|].
           ++ destruct IH as (H1 & H2 & H3 & H4). repeat split; auto.
              ** destruct H2 as [H2|[= <-]]; auto.
              ** intros x [<-|Hx] Hx'; auto.
              ** intros x [= <-].
                 eapply le_trans; [| apply H4; reflexivity].
                 destruct (le_total a d); congruence.
           ++ destruct IH as [IH _]; discriminate.
      * assert (Hacc' : forall x, Some d = Some x -> PyStr.le x today = true)
          by (intros x [= <-]; exact Hd).
        specialize (IH Hacc').
        destruct (fold_left _ days (Some d)) as [m|].
        -- destruct IH as (H1 & H2 & H3 & H4). repeat split; auto.
           ++ destruct H2 as [H2|[= <-]]; auto.
           ++ intros x [<-|Hx] Hx'; auto.
           ++ intros ? [=].
        -- destruct IH as [IH _]; discriminate.
    + specialize (IH Hacc).
      destruct (fold_left _ days acc) as [m|].
      * destruct IH as (H1 & H2 & H3 & H4). repeat split; auto.
        -- destruct H2; auto.
        -- intros x [<-|Hx] Hx'; [congruence | auto].
      * destruct IH as [IH1 IH2]. split; auto.
        intros x [<-|Hx]; auto.
Qed.

Lemma scan_latest_none (today : string) (days : list string) :
  DateUtils.scan_latest today days = None ->
  forall d, In d days -> PyStr.le d today = false.
Proof.
  unfold DateUtils.scan_latest; intro H.
  pose proof (scan_invariant today days None) as S.
  rewrite H in S. apply S. intros ? [=].
Qed.

Lemma scan_latest_some (today : string) (days : list string) (m : string) :
  DateUtils.scan_latest today days = Some m ->
  greatest_of m (filter (fun d => PyStr.le d today) days).
Proof.
  unfold DateUtils.scan_latest; intro H.
  pose proof (scan_invariant today days None) as S.
  rewrite H in S. destruct S as (H1 & H2 & H3 & _); [intros ? [=] |].
  destruct H2 as [H2|[=]].
  split.
  - apply filter_In; auto.
  - intros x Hx. apply filter_In in Hx. destruct Hx; auto.
Qed.

(** ** Dates *)

Lemma days_in_month_ge_28 (y m : Z) :
  1 <= m <= 12 -> 28 <= PyDate.days_in_month y m.
Proof.
  intro H.
  assert (C : m = 1 \/ m = 2 \/ m = 3 \/ m = 4 \/ m = 5 \/ m = 6 \/ m = 7
              \/ m = 8 \/ m = 9 \/ m = 10 \/ m = 11 \/ m = 12) by lia.
  unfold PyDate.days_in_month.
  repeat (destruct C as [->|C]; [try lia; destruct (PyDate.is_leap y); lia |]).
  subst; lia.
Qed.

Lemma datetime_ok (y m d : Z) :
  1 <= y <= 9999 -> 1 <= m <= 12 -> 1 <= d <= 28 ->
  PyDate.datetime y m d = Return (PyDate.mkDate y m d).
Proof.
  intros Hy Hm Hd. unfold PyDate.datetime, PyDate.MINYEAR, PyDate.MAXYEAR.
  pose proof (days_in_month_ge_28 y m Hm).
  replace (1 <=? y) with true by (symmetry; apply Z.leb_le; lia).
  replace (y <=? 9999) with true by (symmetry; apply Z.leb_le; lia).
  replace (1 <=? m) with true by (symmetry; apply Z.leb_le; lia).
  replace (m <=? 12) with true by (symmetry; apply Z.leb_le; lia).
  replace (1 <=? d) with true by (symmetry; apply Z.leb_le; lia).
  replace (d <=? PyDate.days_in_month y m) with true
    by (symmetry; apply Z.leb_le; lia).
  reflexivity.
Qed.

Lemma valid_ranges (d : PyDate.date) :
  PyDate.valid d = true ->
  1 <= PyDate.year d <= 9999 /\ 1 <= PyDate.month d <= 12
  /\ 1 <= PyDate.day d <= PyDate.days_in_month (PyDate.year d) (PyDate.month d).
Proof.
  unfold PyDate.valid, PyDate.MINYEAR, PyDate.MAXYEAR. intro H.
  repeat (apply andb_prop in H; destruct H as [H ?]).
  repeat match goal with
         | H : (_ <=? _) = true |- _ => apply Z.leb_le in H
         end.
  lia.
Qed.

Lemma replace_day_ok (today : PyDate.date) (n : Z) :
  PyDate.valid today = true -> 1 <= n <= 28 ->
  PyDate.replace_day today n
  = Return (PyDate.mkDate (PyDate.year today) (PyDate.month today) n).
Proof.
  intros Hv Hn. destruct (valid_ranges today Hv) as (Hy & Hm & _).
  unfold PyDate.replace_day. now apply datetime_ok.
Qed.

Lemma append_empty (a b : string) : a ++ b = "" -> a = "" /\ b = "".
Proof. destruct a; simpl; [auto | discriminate]. Qed.

Lemma strftime_nonempty (d : PyDate.date) : PyDate.strftime d <> "".
Proof.
  unfold PyDate.strftime. intro H.
  apply append_empty in H. destruct H as [_ H]. discriminate H.
Qed.

Lemma iso_nonempty (s : string) : PyDate.iso_date_string s -> s <> "".
Proof. intros [d [_ ->]]. apply strftime_nonempty. Qed.

Lemma truthy_nonempty (s : string) : PyStr.truthy s = true <-> s <> "".
Proof. destruct s; simpl; split; congruence. Qed.

(** ** ISO date strings are ordered as the dates they print *)

Lemma compare_app (a1 a2 r1 r2 : string) :
  String.length a1 = String.length a2 ->
  String.compare (a1 ++ r1) (a2 ++ r2)
  = match String.compare a1 a2 with
    | Eq => String.compare r1 r2
    | c => c
    end.
Proof.
  revert a2; induction a1 as [|c1 a1 IH]; destruct a2 as [|c2 a2]; simpl;
    try discriminate; [reflexivity |].
  intros [= H]. destruct (Ascii.compare c1 c2); auto.
Qed.

Lemma zrange_in (lo : Z) (n : nat) (z : Z) :
  lo <= z < lo + Z.of_nat n -> In z (zrange lo n).
Proof.
  intro H. unfold zrange. apply in_map_iff.
  exists (Z.to_nat (z - lo)). split; [lia |].
  apply in_seq. lia.
Qed.

Section Numerals.
Variables (width : nat) (lo : Z) (n : nat).
Hypothesis ordered : numerals_ordered width lo n = true.
Hypothesis nonempty : (0 < n)%nat.

Lemma numeral_facts (z : Z) :
  lo <= z < lo + Z.of_nat n ->
  String.length (PyStr.fmt_0d width z) = width
  /\ String.length (PyStr.fmt_0d width (z + 1)) = width
  /\ String.compare (PyStr.fmt_0d width z) (PyStr.fmt_0d width (z + 1)) = Lt.
Proof.
  intro H. unfold numerals_ordered in ordered.
  rewrite forallb_forall in ordered.
  specialize (ordered z (zrange_in lo n z H)).
  apply andb_prop in ordered. destruct ordered as [H12 H3].
  apply andb_prop in H12. destruct H12 as [H1 H2].
  apply Nat.eqb_eq in H1. apply Nat.eqb_eq in H2.
  unfold String.ltb in H3.
  destruct (String.compare _ _); try discriminate. auto.
Qed.

Lemma numeral_length (z : Z) :
  lo <= z <= lo + Z.of_nat n ->
  String.length (PyStr.fmt_0d width z) = width.
Proof.
  intro H. destruct (Z.eq_dec z (lo + Z.of_nat n)) as [->|Hne].
  - destruct (numeral_facts (lo + Z.of_nat n - 1)) as (_ & H2 & _).
    + lia.
    + replace (lo + Z.of_nat n - 1 + 1) with (lo + Z.of_nat n) in H2 by lia.
      exact H2.
  - now destruct (numeral_facts z) as (H1 & _); [lia |].
Qed.

Lemma numeral_lt (a b : Z) :
  lo <= a -> a < b -> b <= lo + Z.of_nat n ->
  String.compare (PyStr.fmt_0d width a) (PyStr.fmt_0d width b) = Lt.
Proof.
  intros Ha Hab Hb.
  replace b with (a + 1 + Z.of_nat (Z.to_nat (b - a - 1))) by lia.
  assert (Hk : a + 1 + Z.of_nat (Z.to_nat (b - a - 1)) <= lo + Z.of_nat n) by lia.
  revert Hk. generalize (Z.to_nat (b - a - 1)) as k.
  induction k as [|k IH]; intro Hk.
  - replace (a + 1 + Z.of_nat 0) with (a + 1) by lia.
    now destruct (numeral_facts a) as (_ & _ & H); [lia |].
  - eapply compare_lt_trans; [apply IH; lia |].
    replace (a + 1 + Z.of_nat (S k)) with (a + 1 + Z.of_nat k + 1) by lia.
    now destruct (numeral_facts (a + 1 + Z.of_nat k)) as (_ & _ & H); [lia |].
Qed.

Lemma numeral_compare (a b : Z) :
  lo <= a <= lo + Z.of_nat n -> lo <= b <= lo + Z.of_nat n ->
  String.compare (PyStr.fmt_0d width a) (PyStr.fmt_0d width b) = Z.compare a b.
Proof.
  intros Ha Hb. destruct (Z.compare_spec a b) as [->|H|H].
  - apply compare_refl.
  - apply numeral_lt; lia.
  - rewrite String.compare_antisym, numeral_lt; [reflexivity | lia ..].
Qed.

End Numerals.

Lemma years_ordered : numerals_ordered 4 1 (Z.to_nat 9998) = true.
Proof. vm_compute. reflexivity. Qed.

Lemma months_days_ordered : numerals_ordered 2 1 (Z.to_nat 30) = true.
Proof. vm_compute. reflexivity. Qed.

Lemma days_in_month_le_31 (y m : Z) : PyDate.days_in_month y m <= 31.
Proof.
  unfold PyDate.days_in_month.
  repeat match goal with
         | |- context [match ?x with _ => _ end] => destruct x
         end; lia.
Qed.

(** Two ISO date strings compare as the dates they print. *)
Lemma strftime_compare (a b : PyDate.date) :
  PyDate.valid a = true -> PyDate.valid b = true ->
  String.compare (PyDate.strftime a) (PyDate.strftime b) = date_compare a b.
Proof.
  intros Ha Hb.
  destruct (valid_ranges a Ha) as (Hya & Hma & Hda).
  destruct (valid_ranges b Hb) as (Hyb & Hmb & Hdb).
  pose proof (days_in_month_le_31 (PyDate.year a) (PyDate.month a)).
  pose proof (days_in_month_le_31 (PyDate.year b) (PyDate.month b)).
  unfold PyDate.strftime, date_compare.
  rewrite compare_app
    by (rewrite !(numeral_length 4 1 (Z.to_nat 9998) years_ordered ltac:(lia)); [reflexivity | lia ..]).
  rewrite (numeral_compare 4 1 (Z.to_nat 9998) years_ordered ltac:(lia)) by lia.
  destruct (Z.compare (PyDate.year a) (PyDate.year b)); try reflexivity.
  rewrite (compare_app "-" "-") by reflexivity. cbn [String.compare Ascii.compare].
  change (N.compare (N_of_ascii "-") (N_of_ascii "-")) with Eq. cbv iota.
  rewrite compare_app
    by (rewrite !(numeral_length 2 1 (Z.to_nat 30) months_days_ordered ltac:(lia)); [reflexivity | lia ..]).
  rewrite (numeral_compare 2 1 (Z.to_nat 30) months_days_ordered ltac:(lia)) by lia.
  destruct (Z.compare (PyDate.month a) (PyDate.month b)); try reflexivity.
  rewrite (compare_app "-" "-") by reflexivity. cbn [String.compare Ascii.compare].
  change (N.compare (N_of_ascii "-") (N_of_ascii "-")) with Eq. cbv iota.
  apply (numeral_compare 2 1 (Z.to_nat 30) months_days_ordered ltac:(lia)); lia.
Qed.

Lemma iso_le_is_chronological (a b : PyDate.date) :
  PyDate.valid a = true -> PyDate.valid b = true ->
  (PyStr.le (PyDate.strftime a) (PyDate.strftime b) = true <-> date_le a b).
Proof.
  intros Ha Hb. unfold PyStr.le, String.leb, date_le.
  rewrite (strftime_compare a b Ha Hb).
  destruct (date_compare a b); split; congruence.
Qed.


(** ** [get_latest_trading_date] *)

Lemma iso_not_after (s : string) (today : PyDate.date) :
  PyDate.valid today = true ->
  PyDate.iso_date_string s ->
  PyStr.le s (PyDate.strftime today) = true ->
  exists d, PyDate.valid d = true /\ s = PyDate.strftime d /\ date_le d today.
Proof.
  intros Hv [d [Hd ->]] Hle. exists d. split; [exact Hd |]. split; [reflexivity |].
  now apply iso_le_is_chronological.
Qed.

(** The run of [get_latest_trading_date], in terms of the list of days
    that the program extracts from the frame. *)
Lemma latest_trading_date_run (E : env) (today : PyDate.date) (w : world) :
  (forall w', clock E w' = today) ->
  PyDate.valid today = true ->
  let t := PyDate.strftime today in
  let w3 := (w ++ [EvNow; EvNow; EvNow])%list in
  let answer := data_source E w3 "get_trade_dates" (month_window today) in
  let run := DateUtils.get_latest_trading_date E w in
  exists s,
    fst run = Return s
    /\ (exists rest,
          snd run = (w3 ++ EvCall "get_trade_dates" (month_window today) :: rest)%list
          /\ Forall no_call rest)
    /\ s <> ""
    /\ PyStr.le s t = true
    /\ (forall f days,
          answer = Return (Some f) ->
          DateUtils.valid_trading_days f = Return days ->
          let upto := filter (fun d => PyStr.le d t) days in
          (upto = [] -> s = t)
          /\ ((forall d, In d days -> d <> "") -> upto <> [] -> greatest_of s upto)
          /\ (Forall PyDate.iso_date_string days ->
                exists d, PyDate.valid d = true /\ s = PyDate.strftime d
                          /\ date_le d today))
    /\ (forall f e,
          answer = Return (Some f) ->
          DateUtils.valid_trading_days f = Raise e -> s = t)
    /\ (answer = Return None -> s = t)
    /\ (forall e, answer = Raise e -> s = t).
Proof.
  intros Hclk Hvalid t w3 answer run.
  assert (Hiso : PyDate.iso_date_string t) by (exists today; auto).
  subst run. unfold DateUtils.get_latest_trading_date.
  unfold try_except, bind, now, lift, ret, raise, call_data_source; cbv beta iota.
  rewrite !Hclk.
  rewrite (replace_day_ok today 1 Hvalid) by lia.
  rewrite (replace_day_ok today 28 Hvalid) by lia.
  replace (((w ++ [EvNow]) ++ [EvNow]) ++ [EvNow])%list with w3
    by (unfold w3; rewrite <- !app_assoc; reflexivity).
  fold (month_window today). fold answer. fold t.
  assert (Hfallback :
    forall tail, Forall no_call tail ->
    exists rest,
      ((w3 ++ [EvCall "get_trade_dates" (month_window today)]) ++ tail)%list
      = (w3 ++ EvCall "get_trade_dates" (month_window today) :: rest)%list
      /\ Forall no_call rest).
  { intros tail Ht. exists tail. rewrite <- app_assoc. split; [reflexivity | exact Ht]. }
  destruct answer as [[f|]|e] eqn:Hans; cbn [fst snd].
  - destruct (DateUtils.valid_trading_days f) as [days|e] eqn:Hdays; cbn [fst snd].
    + destruct (DateUtils.scan_latest t days) as [m|] eqn:Hscan.
      * pose proof (scan_latest_some t days m Hscan) as Hmax.
        destruct (PyStr.truthy m) eqn:Htr; cbn [fst snd].
        -- exists m. split; [reflexivity |].
           split; [rewrite <- (app_nil_r (_ ++ [_])); apply Hfallback; constructor |].
           split; [now apply truthy_nonempty |].
           destruct Hmax as [Hin Hge]. pose proof Hin as Hin'.
           apply filter_In in Hin'. destruct Hin' as [Hin' Hle].
           split; [exact Hle |].
           split; [| split; [| split]]; try congruence.
           intros f' days' [= <-] Hd'; rewrite Hdays in Hd'; injection Hd' as <-.
           split; [intro Hnil; rewrite Hnil in Hin; destruct Hin |].
           split; [intros _ _; split; assumption |].
           intro Hall. rewrite Forall_forall in Hall.
           apply iso_not_after; auto.
        -- exists t. split; [reflexivity |].
           split; [rewrite <- (app_nil_r (_ ++ [_])); apply Hfallback; constructor |].
           split; [apply strftime_nonempty |].
           split; [apply le_refl |].
           split; [| split; [| split]]; try congruence.
           intros f' days' [= <-] Hd'; rewrite Hdays in Hd'; injection Hd' as <-.
           split; [reflexivity |].
           split; [| intros _; apply iso_not_after; auto using le_refl].
           intros Hne _. exfalso.
           destruct Hmax as [Hin _]. apply filter_In in Hin.
           destruct Hin as [Hin _]. apply (Hne m Hin).
           destruct m; [reflexivity | discriminate Htr].
      * exists t. split; [reflexivity |].
        split; [rewrite <- (app_nil_r (_ ++ [_])); apply Hfallback; constructor |].
        split; [apply strftime_nonempty |].
        split; [apply le_refl |].
        split; [| split; [| split]]; try congruence.
        intros f' days' [= <-] Hd'; rewrite Hdays in Hd'; injection Hd' as <-.
        split; [reflexivity |].
        split; [| intros _; apply iso_not_after; auto using le_refl].
        intros _ Hne. exfalso. apply Hne.
        pose proof (scan_latest_none t days Hscan) as Hnone.
        destruct (filter (fun d => PyStr.le d t) days) as [|x l] eqn:Hf; [reflexivity |].
        assert (Hx : In x (filter (fun d => PyStr.le d t) days))
          by (rewrite Hf; left; reflexivity).
        apply filter_In in Hx. destruct Hx as [Hx1 Hx2].
        rewrite (Hnone x Hx1) in Hx2. discriminate.
    + rewrite Hclk. exists t. split; [reflexivity |].
      split; [apply Hfallback; repeat constructor |].
      split; [apply strftime_nonempty |].
      split; [apply le_refl |].
      split; [| split; [| split]]; congruence.
  - rewrite Hclk. exists t. split; [reflexivity |].
    split; [apply Hfallback; repeat constructor |].
    split; [apply strftime_nonempty |].
    split; [apply le_refl |].
    split; [| split; [| split]]; congruence.
  - rewrite Hclk. exists t. split; [reflexivity |].
    split; [apply Hfallback; repeat constructor |].
    split; [apply strftime_nonempty |].
    split; [apply le_refl |].
    split; [| split; [| split]]; congruence.
Qed.

(** What the program extracts from a frame is what the frame flags. *)
Lemma valid_trading_days_flagged (f : DataFrame) :
  match flagged_days f with
  | Some days => DateUtils.valid_trading_days f = Return days
  | None => exists e, DateUtils.valid_trading_days f = Raise e
  end.
Proof.
  unfold flagged_days, DateUtils.valid_trading_days, Pandas.where_eq,
    Pandas.column_values, Pandas.locate, Pandas.select.
  destruct (Pandas.index_of "is_trading_day" (Pandas.columns f)) as [kf|];
    [| eexists; reflexivity].
  cbn [Pandas.columns Pandas.rows].
  destruct (Pandas.index_of "calendar_date" (Pandas.columns f)) as [kd|];
    [reflexivity | eexists; reflexivity].
Qed.

(** C5. In an invocation during which the clock reads the date [today],
    [get_latest_trading_date] asks the calendar for exactly one window,
    the first of the month of [today] through its day 28, and returns a
    string that is not empty and not after [today]: the greatest entry
    flagged as a trading day that is not after [today] if there is one,
    and [today] itself if there is none, if the provider returned no
    frame or a frame without the two columns, or if the query raised.
    It never raises.  With ISO dates in the calendar the result is the
    ISO string of a date that is not after [today]. *)
Theorem latest_trading_date_spec (E : env) (today : PyDate.date) (w : world) :
  (forall w', clock E w' = today) ->
  PyDate.valid today = true ->
  let t := PyDate.strftime today in
  let w3 := (w ++ [EvNow; EvNow; EvNow])%list in
  let answer := data_source E w3 "get_trade_dates" (month_window today) in
  let run := DateUtils.get_latest_trading_date E w in
  exists s,
    fst run = Return s
    /\ (exists rest,
          snd run = (w3 ++ EvCall "get_trade_dates" (month_window today) :: rest)%list
          /\ Forall no_call rest)
    /\ s <> ""
    /\ PyStr.le s t = true
    /\ (forall f,
          answer = Return (Some f) ->
          match flagged_days f with
          | Some days =>
              let upto := filter (fun d => PyStr.le d t) days in
              (upto = [] -> s = t)
              /\ ((forall d, In d days -> d <> "") -> upto <> [] -> greatest_of s upto)
              /\ (Forall PyDate.iso_date_string days ->
                    exists d, PyDate.valid d = true /\ s = PyDate.strftime d
                              /\ date_le d today)
          | None => s = t
          end)
    /\ (answer = Return None -> s = t)
    /\ (forall e, answer = Raise e -> s = t).
Proof.
  intros Hclk Hvalid. cbv zeta.
  destruct (latest_trading_date_run E today w Hclk Hvalid)
    as (s & Hs & Htrace & Hne & Hle & Hdays & Hbad & Hnone & Hraise).
  exists s. split; [exact Hs |]. split; [exact Htrace |].
  split; [exact Hne |]. split; [exact Hle |].
  split; [| split; [exact Hnone | exact Hraise]].
  intros f Hf. pose proof (valid_trading_days_flagged f) as Hfl.
  destruct (flagged_days f) as [days|].
  - exact (Hdays f days Hf Hfl).
  - destruct Hfl as [e He]. exact (Hbad f e Hf He).
Qed.

Lemma latest_trading_date_spec_witness :
  (forall w', clock env_2025_01_10 w' = PyDate.mkDate 2025 1 10)
  /\ PyDate.valid (PyDate.mkDate 2025 1 10) = true
  /\ flagged_days calendar_2025_01
     = Some ["2025-01-02"; "2025-01-03"; "2025-01-06"; "2025-01-07";
             "2025-01-08"; "2025-01-09"; "2025-01-10"; "2025-01-13"]
  /\ result_of (DateUtils.get_latest_trading_date env_2025_01_10)
     = Return "2025-01-10".
Proof.
  split; [intros; reflexivity |]. split; [reflexivity |]. split; [reflexivity |].
  destruct (latest_trading_date_spec env_2025_01_10 (PyDate.mkDate 2025 1 10) [])
    as [s (H1 & _ & _ & _ & Hf & _)]; [intros; reflexivity | reflexivity |].
  unfold result_of. rewrite H1. f_equal.
  specialize (Hf calendar_2025_01 eq_refl).
  change (flagged_days calendar_2025_01)
    with (Some ["2025-01-02"; "2025-01-03"; "2025-01-06"; "2025-01-07";
                "2025-01-08"; "2025-01-09"; "2025-01-10"; "2025-01-13"]) in Hf.
  cbv zeta in Hf. destruct Hf as (_ & Hg & _).
  destruct Hg as [Hin Hmax].
  - intros d Hd. cbn in Hd. intuition (subst; discriminate).
  - vm_compute. discriminate.
  - specialize (Hmax "2025-01-10").
    vm_compute in Hin.
    repeat (destruct Hin as [<-|Hin]); try contradiction;
      try reflexivity; exfalso;
      (assert (Hc : false = true);
       [apply Hmax; vm_compute; tauto | discriminate Hc]).
Defined.

(** ** [get_market_analysis_timeframe] *)

(** C8. When the clock reads 2025-01-10, the timeframe for the period
    ["recent"] (also when the period is left out) starts on 2024-11-01,
    ends on 2025-01-10 and is labelled ["2024年11月-2025年1月"]. *)
Theorem timeframe_recent_on_2025_01_10
    (E : env) (w : world) (period : option string) :
  clock E w = PyDate.mkDate 2025 1 10 ->
  dflt "recent" period = "recent" ->
  exists start_date middle_date,
    DateUtils.period_start "recent" (clock E w) = Return (start_date, middle_date)
    /\ DateUtils.start_iso_date start_date = "2024-11-01"
    /\ DateUtils.end_iso_date (clock E w) = "2025-01-10"
    /\ DateUtils.date_range_label start_date middle_date (clock E w)
       = "2024年11月-2025年1月"
    /\ fst (DateUtils.get_market_analysis_timeframe E period w)
       = Return "2024年11月-2025年1月 (ISO: 2024-11-01 to 2025-01-10)".
Proof.
  intros Hclk Hp.
  exists (PyDate.mkDate 2024 11 1), (PyDate.mkDate 2024 12 1).
  unfold DateUtils.get_market_analysis_timeframe, bind, now, lift, ret.
  rewrite Hp, Hclk. cbv beta iota.
  repeat split; vm_compute; reflexivity.
Qed.

Lemma timeframe_recent_on_2025_01_10_witness :
  clock env_2025_01_10 [] = PyDate.mkDate 2025 1 10
  /\ dflt "recent" None = "recent"
  /\ result_of (DateUtils.get_market_analysis_timeframe env_2025_01_10 None)
     = Return "2024年11月-2025年1月 (ISO: 2024-11-01 to 2025-01-10)".
Proof.
  split; [reflexivity |]. split; [reflexivity |].
  destruct (timeframe_recent_on_2025_01_10 env_2025_01_10 [] None eq_refl eq_refl)
    as (s & m & _ & _ & _ & _ & H).
  exact H.
Defined.

(** ** Frames: columns and sorting *)

Lemma index_of_member (name : string) (cols : list string) :
  existsb (String.eqb name) cols = true ->
  exists k, Pandas.index_of name cols = Some k.
Proof.
  induction cols as [|c cols IH]; simpl; [discriminate |].
  destruct (String.eqb name c); simpl; [eauto |].
  intro H. destruct (IH H) as [k ->]. eauto.
Qed.

Lemma index_of_last (cols : list string) :
  cols <> [] -> exists k, Pandas.index_of (last cols "") cols = Some k.
Proof.
  intro H. apply index_of_member.
  apply existsb_exists. exists (last cols ""). split; [| apply String.eqb_refl].
  destruct (exists_last H) as [l [x ->]]. rewrite last_last.
  apply in_or_app; right; left; reflexivity.
Qed.




Section Sorting.
Variable k : nat.








End Sorting.




Lemma empty_false (f : DataFrame) :
  Pandas.empty f = false -> Pandas.columns f <> [] /\ Pandas.rows f <> [].
Proof.
  unfold Pandas.empty. destruct (Pandas.columns f), (Pandas.rows f);
    intro H; try discriminate; split; discriminate.
Qed.






(** ** [previous_trading_day] and [next_trading_day] *)

Lemma datetime_valid (y m d : Z) (x : PyDate.date) :
  PyDate.datetime y m d = Return x -> PyDate.valid x = true.
Proof.
  unfold PyDate.datetime, PyDate.valid.
  destruct ((PyDate.MINYEAR <=? y) && (y <=? PyDate.MAXYEAR)) eqn:Hy; cbn [negb];
    [| discriminate].
  destruct ((1 <=? m) && (m <=? 12)) eqn:Hm; cbn [negb]; [| discriminate].
  destruct ((1 <=? d) && (d <=? PyDate.days_in_month y m)) eqn:Hd; cbn [negb];
    [| discriminate].
  intros [= <-]. cbn [PyDate.year PyDate.month PyDate.day].
  apply andb_prop in Hy, Hm, Hd.
  destruct Hy as [-> ->], Hm as [-> ->], Hd as [-> ->]. reflexivity.
Qed.




(** ** Failures of the calendar query *)

Lemma period_start_total (period : string) (now : PyDate.date) :
  PyDate.valid now = true -> 2 <= PyDate.year now ->
  exists p, DateUtils.period_start period now = Return p.
Proof.
  intros Hv Hy. destruct (valid_ranges now Hv) as (Hy' & Hm & _).
  unfold DateUtils.period_start. cbv zeta.
  repeat match goal with
         | |- context [if String.eqb ?a ?b then _ else _] => destruct (String.eqb a b)
         | |- context [if ?a <? ?b then _ else _] => destruct (Z.ltb_spec a b)
         | |- context [if ?a <=? ?b then _ else _] => destruct (Z.leb_spec a b)
         | |- context [if ?a =? ?b then _ else _] => destruct (Z.eqb_spec a b)
         | |- context [PyDate.datetime ?y ?m 1] =>
             rewrite (datetime_ok y m 1) by (cbn [PyDate.year PyDate.month] in *; lia)
         | _ => progress cbn [outcome_map PyDate.year PyDate.month] in *
         end; eauto.
Qed.

Lemma try_ret_never_raises {A} (m : M A) (h : exc -> A) :
  never_raises (try_except m (fun e => ret (h e))).
Proof.
  intro w. unfold try_except, ret.
  destruct (m w) as [[a|e] w']; cbn [fst]; eauto.
Qed.

(** C4, as amended. When the trading-calendar query raises an exception
    [e], [is_trading_day], [previous_trading_day] and [next_trading_day]
    each return the string ["Error: "] followed by the message of [e].
    No calendar operation raises: the three above and
    [get_latest_trading_date] always return a string, and so does
    [get_market_analysis_timeframe] for every current date from year 2
    on. *)
Theorem calendar_failures_become_error_strings
    (E : env) (date : string) (w : world) :
  (forall e,
     data_source E w "get_trade_dates"
       [("start_date", VStr date); ("end_date", VStr date)] = Raise e ->
     fst (DateUtils.is_trading_day E date w) = Return ("Error: " ++ exc_msg e))
  /\ (forall d win e,
        PyDate.strptime date = Return d ->
        lookback_window date d = Return win ->
        data_source E w "get_trade_dates" win = Raise e ->
        fst (DateUtils.previous_trading_day E date w)
        = Return ("Error: " ++ exc_msg e))
  /\ (forall d win e,
        PyDate.strptime date = Return d ->
        lookahead_window date d = Return win ->
        data_source E w "get_trade_dates" win = Raise e ->
        fst (DateUtils.next_trading_day E date w)
        = Return ("Error: " ++ exc_msg e))
  /\ (exists s, fst (DateUtils.is_trading_day E date w) = Return s)
  /\ (exists s, fst (DateUtils.previous_trading_day E date w) = Return s)
  /\ (exists s, fst (DateUtils.next_trading_day E date w) = Return s)
  /\ (exists s, fst (DateUtils.get_latest_trading_date E w) = Return s)
  /\ (forall period,
        PyDate.valid (clock E w) = true -> 2 <= PyDate.year (clock E w) ->
        exists s, fst (DateUtils.get_market_analysis_timeframe E period w) = Return s).
Proof.
  repeat match goal with |- _ /\ _ => split end.
  - intros e He.
    unfold DateUtils.is_trading_day, try_except, bind, call_data_source, ret.
    rewrite He. reflexivity.
  - intros d win e Hp Hwin He. unfold lookback_window in Hwin.
    destruct (PyDate.add_days d (-30)) as [s|] eqn:Hadd; [| discriminate].
    cbn [outcome_map] in Hwin. injection Hwin as <-.
    unfold DateUtils.previous_trading_day, try_except, bind, lift,
      call_data_source, ret.
    rewrite Hp, Hadd. cbv beta iota. rewrite He. reflexivity.
  - intros d win e Hp Hwin He. unfold lookahead_window in Hwin.
    destruct (PyDate.add_days d 30) as [s|] eqn:Hadd; [| discriminate].
    cbn [outcome_map] in Hwin. injection Hwin as <-.
    unfold DateUtils.next_trading_day, try_except, bind, lift,
      call_data_source, ret.
    rewrite Hp, Hadd. cbv beta iota. rewrite He. reflexivity.
  - apply (try_ret_never_raises _ DateUtils.error_string).
  - apply (try_ret_never_raises _ DateUtils.error_string).
  - apply (try_ret_never_raises _ DateUtils.error_string).
  - unfold DateUtils.get_latest_trading_date, try_except.
    match goal with
    | |- context [match ?m w with _ => _ end] => destruct (m w) as [[a|e] w']
    end; cbn; eauto.
  - intros period Hv Hy.
    unfold DateUtils.get_market_analysis_timeframe, bind, now, lift, ret.
    destruct (period_start_total (dflt "recent" period) _ Hv Hy) as [[s m] ->].
    cbv beta iota. cbn [fst]. eauto.
Qed.

Lemma calendar_failures_become_error_strings_witness :
  data_source env_down [] "get_trade_dates"
    [("start_date", VStr "2025-01-10"); ("end_date", VStr "2025-01-10")]
  = Raise (mkExc DataSourceError "connection reset")
  /\ result_of (DateUtils.is_trading_day env_down "2025-01-10")
     = Return "Error: connection reset"
  /\ result_of (DateUtils.previous_trading_day env_down "2025-01-10")
     = Return "Error: connection reset"
  /\ result_of (DateUtils.next_trading_day env_down "2025-01-10")
     = Return "Error: connection reset".
Proof.
  destruct (calendar_failures_become_error_strings env_down "2025-01-10" [])
    as (H1 & H2 & H3 & _).
  split; [reflexivity |]. split; [| split].
  - exact (H1 _ eq_refl).
  - exact (H2 (PyDate.mkDate 2025 1 10) _ _ eq_refl eq_refl eq_refl).
  - exact (H3 (PyDate.mkDate 2025 1 10) _ _ eq_refl eq_refl eq_refl).
Defined.

(** C4 as stated fails: with a data source that is down,
    [is_trading_day] does not answer ["No"] and the two neighbours do
    not give their input back; each returns an error string. *)
Lemma calendar_failure_is_not_silent :
  (forall w op kw,
      data_source env_down w op kw = Raise (mkExc DataSourceError "connection reset"))
  /\ result_of (DateUtils.is_trading_day env_down "2025-01-10")
     = Return "Error: connection reset"
  /\ result_of (DateUtils.is_trading_day env_down "2025-01-10") <> Return "No"
  /\ result_of (DateUtils.previous_trading_day env_down "2025-01-10")
     <> Return "2025-01-10"
  /\ result_of (DateUtils.next_trading_day env_down "2025-01-10")
     <> Return "2025-01-10".
Proof.
  split; [intros; reflexivity |].
  split; [reflexivity |].
  repeat split; vm_compute; discriminate.
Qed.

(** ** The composite ETF analysis *)

Lemma get_etf_analysis_steps (E : env) (etf_code : string) (w : world) :
  AKShareETFDataSource.get_etf_analysis E etf_code w
  = match AKShareETFDataSource.get_etf_basic_info E etf_code w with
    | (Raise e, w1) => (Raise (AKShareETFDataSource.analysis_failed e), w1)
    | (Return b, w1) =>
        let w2 := (w1 ++ [EvNow; EvNow])%list in
        match PyDate.add_days (clock E (w1 ++ [EvNow])%list) (-30) with
        | Raise e => (Raise (AKShareETFDataSource.analysis_failed e), w2)
        | Return start =>
            match AKShareETFDataSource.get_etf_historical_data E etf_code
                    (PyDate.strftime start) (PyDate.strftime (clock E w1)) None w2 with
            | (Raise e, w3) => (Raise (AKShareETFDataSource.analysis_failed e), w3)
            | (Return p, w3) =>
                match AKShareETFDataSource.get_etf_holdings E etf_code None w3 with
                | (Raise e, w4) =>
                    (Raise (AKShareETFDataSource.analysis_failed e), w4)
                | (Return h, w4) => (Return (mkAnalysis b p h), w4)
                end
            end
        end
    end.
Proof.
  unfold AKShareETFDataSource.get_etf_analysis, try_except.
  unfold bind at 1.
  destruct (AKShareETFDataSource.get_etf_basic_info E etf_code w) as [[b|e1] w1];
    [| reflexivity].
  unfold bind at 1. unfold now at 1. cbv beta iota.
  unfold bind at 1. unfold now at 1. cbv beta iota.
  unfold bind at 1. unfold lift at 1. cbv beta iota zeta.
  rewrite <- app_assoc. cbn [app].
  destruct (PyDate.add_days (clock E (w1 ++ [EvNow])%list) (-30)) as [start|e2];
    [| reflexivity].
  unfold bind at 1.
  destruct (AKShareETFDataSource.get_etf_historical_data E etf_code
              (PyDate.strftime start) (PyDate.strftime (clock E w1)) None
              (w1 ++ [EvNow; EvNow])%list) as [[p|e3] w3]; [| reflexivity].
  unfold bind at 1.
  destruct (AKShareETFDataSource.get_etf_holdings E etf_code None w3)
    as [[h|e4] w4]; reflexivity.
Qed.

(** C1. [get_etf_analysis] runs the three sub-fetches in order: basic
    info, the daily history from 30 days before the current date to the
    current date, and the holdings.  It returns the three frames
    together when all three succeed.  As soon as one of them raises an
    exception [e], of whatever class, the operation raises one
    [DataSourceError] whose message wraps that of [e].  There is no
    third outcome. *)
Theorem get_etf_analysis_all_or_nothing
    (E : env) (etf_code : string) (w : world) :
  let run := AKShareETFDataSource.get_etf_analysis E etf_code w in
  let basic := AKShareETFDataSource.get_etf_basic_info E etf_code w in
  let w1 := snd basic in
  let end_date := PyDate.strftime (clock E w1) in
  let w2 := (w1 ++ [EvNow; EvNow])%list in
  (forall e, exc_cls (AKShareETFDataSource.analysis_failed e) = DataSourceError
             /\ exc_msg (AKShareETFDataSource.analysis_failed e)
                = "获取ETF分析数据失败: " ++ exc_msg e)
  /\ ((exists a, fst run = Return a)
      \/ (exists e, fst run = Raise (AKShareETFDataSource.analysis_failed e)))
  /\ (forall e, fst basic = Raise e ->
                fst run = Raise (AKShareETFDataSource.analysis_failed e))
  /\ (forall b start,
        fst basic = Return b ->
        PyDate.add_days (clock E (w1 ++ [EvNow])%list) (-30) = Return start ->
        let history :=
          AKShareETFDataSource.get_etf_historical_data E etf_code
            (PyDate.strftime start) end_date None w2 in
        (forall e, fst history = Raise e ->
                   fst run = Raise (AKShareETFDataSource.analysis_failed e))
        /\ (forall p,
              fst history = Return p ->
              let hold :=
                AKShareETFDataSource.get_etf_holdings E etf_code None (snd history) in
              (forall e, fst hold = Raise e ->
                         fst run = Raise (AKShareETFDataSource.analysis_failed e))
              /\ (forall h, fst hold = Return h ->
                            fst run = Return (mkAnalysis b p h)))).
Proof.
  cbv zeta. rewrite get_etf_analysis_steps.
  split; [intro; split; reflexivity |].
  destruct (AKShareETFDataSource.get_etf_basic_info E etf_code w) as [[b|e1] w1];
    cbn [fst snd].
  2: { split; [right; eauto |]. split; [congruence | intros; congruence]. }
  destruct (PyDate.add_days (clock E (w1 ++ [EvNow])%list) (-30)) as [start|e2];
    cbv zeta; cbn [fst snd].
  2: { split; [right; eauto |]. split; [congruence | intros; congruence]. }
  destruct (AKShareETFDataSource.get_etf_historical_data E etf_code
              (PyDate.strftime start) (PyDate.strftime (clock E w1)) None
              (w1 ++ [EvNow; EvNow])%list) as [[p|e3] w3] eqn:Hhist; cbn [fst snd].
  2: { split; [right; eauto |]. split; [congruence |].
       intros b' start' [= <-] [= <-]. rewrite Hhist. cbn [fst snd].
       split; congruence. }
  destruct (AKShareETFDataSource.get_etf_holdings E etf_code None w3)
    as [[h|e4] w4] eqn:Hh; cbn [fst snd].
  - split; [left; eauto |]. split; [congruence |].
    intros b' start' [= <-] [= <-]. rewrite Hhist. cbn [fst snd].
    split; [congruence |]. intros p' [= <-]. rewrite Hh. cbn [fst].
    split; congruence.
  - split; [right; eauto |]. split; [congruence |].
    intros b' start' [= <-] [= <-]. rewrite Hhist. cbn [fst snd].
    split; [congruence |]. intros p' [= <-]. rewrite Hh. cbn [fst].
    split; congruence.
Qed.

Lemma get_etf_analysis_all_or_nothing_witness :
  fst (AKShareETFDataSource.get_etf_holdings env_no_holdings "510300" None
         [EvCall "fund_etf_spot_em" []; EvNow; EvNow;
          EvCall "fund_etf_hist_em"
            [("symbol", VStr "510300"); ("period", VStr "daily");
             ("start_date", VStr "2024-12-11"); ("end_date", VStr "2025-01-10")]])
  = Raise (mkExc NoDataFoundError "未找到ETF 510300 的持仓明细")
  /\ result_of (AKShareETFDataSource.get_etf_analysis env_no_holdings "510300")
     = Raise (mkExc DataSourceError
                "获取ETF分析数据失败: 未找到ETF 510300 的持仓明细")
  /\ result_of (AKShareETFDataSource.get_etf_analysis env_with_holdings "510300")
     = Return (mkAnalysis
                 (mkDF ["代码"; "名称"; "最新价"; "涨跌幅"; "成交量"]
                       [["510300"; "沪深300ETF"; "3.985"; "0.52"; "1234567"]])
                 history_table
                 (mkDF ["股票代码"; "持仓占比"] [["600519"; "5.1"]])).
Proof.
  split; [reflexivity |]. split.
  - destruct (get_etf_analysis_all_or_nothing env_no_holdings "510300" [])
      as (_ & _ & _ & H).
    destruct (H _ (PyDate.mkDate 2024 12 11) eq_refl eq_refl) as [_ Hp].
    destruct (Hp _ eq_refl) as [He _].
    exact (He _ eq_refl).
  - destruct (get_etf_analysis_all_or_nothing env_with_holdings "510300" [])
      as (_ & _ & _ & H).
    destruct (H _ (PyDate.mkDate 2024 12 11) eq_refl eq_refl) as [_ Hp].
    destruct (Hp _ eq_refl) as [_ Hh].
    exact (Hh _ eq_refl).
Defined.

(** ** Code normalisation *)

(** On an interpreter up to Python 3.10 the three scenarios come out as
    the documentation of [normalize_stock_code] says. *)
Lemma normalize_stock_code_legacy :
  Helpers.normalize_stock_code Re.Py310 "600000" = "sh.600000"
  /\ Helpers.normalize_stock_code Re.Py310 "000001.SZ" = "sz.000001"
  /\ PyStr.startswith (Helpers.normalize_stock_code Re.Py310 "xx1234") "Error:" = true.
Proof. repeat split; vm_compute; reflexivity. Qed.

(** C9 on Python 3.11 and later.  The second pattern carries its inline
    flag [(?i)] in the middle, which [re] refuses to compile; every input
    that the first pattern does not match therefore ends in the
    catch-all, and the two documented codes come back as error strings. *)
Theorem normalize_stock_code_misplaced_flag :
  Re.compile Re.Py311 Helpers.pattern_suffixed
  = Raise (mkExc ReError
             "global flags not at the start of the expression at position 12")
  /\ Helpers.normalize_stock_code Re.Py311 "600000"
     = "Error: global flags not at the start of the expression at position 12"
  /\ Helpers.normalize_stock_code Re.Py311 "000001.SZ"
     = "Error: global flags not at the start of the expression at position 12"
  /\ PyStr.startswith (Helpers.normalize_stock_code Re.Py311 "xx1234") "Error:" = true
  /\ Helpers.normalize_stock_code Re.Py311 "sh600000" = "sh.600000".
Proof. repeat split; vm_compute; reflexivity. Qed.

(** ** The ETF comparison *)

Lemma append_assoc (a b c : string) : (a ++ b) ++ c = a ++ (b ++ c).
Proof. induction a as [|x a IH]; simpl; [reflexivity | now rewrite IH]. Qed.

Lemma index_of_absent (name : string) (cols : list string) :
  existsb (String.eqb name) cols = false -> Pandas.index_of name cols = None.
Proof.
  induction cols as [|c cols IH]; simpl; [reflexivity |].
  destruct (String.eqb name c); simpl; [discriminate |].
  intro H. now rewrite (IH H).
Qed.

Lemma field_is_total (f : DataFrame) (name : string) :
  EtfAnalysis.field f name = Return (field_or_na f name).
Proof.
  unfold EtfAnalysis.field, field_or_na, Pandas.has_column, Pandas.first_cell,
    Pandas.locate.
  destruct (existsb _ _) eqn:H.
  - destruct (index_of_member _ _ H) as [k ->]. reflexivity.
  - now rewrite (index_of_absent _ _ H).
Qed.

Lemma table_row_is_total (entry : string * option DataFrame) :
  EtfAnalysis.table_row entry = Return (row_text entry).
Proof.
  destruct entry as [code [f|]]; unfold EtfAnalysis.table_row, row_text;
    cbn [fst snd]; [| reflexivity].
  destruct (Pandas.empty f); cbn [negb]; [reflexivity |].
  rewrite !field_is_total. reflexivity.
Qed.

Lemma table_rows_is_total (items : list (string * option DataFrame)) (report : string) :
  EtfAnalysis.table_rows items report = Return (report ++ join (map row_text items)).
Proof.
  revert report; induction items as [|it items IH]; intro report; simpl.
  - f_equal. induction report as [|c r IHr]; simpl; [reflexivity | now rewrite <- IHr].
  - rewrite table_row_is_total, IH, append_assoc. reflexivity.
Qed.

(** A basic info that arrives has a record. *)
Lemma basic_info_has_a_record (E : env) (code : string) (w w' : world) (f : DataFrame) :
  AKShareETFDataSource.get_etf_basic_info E code w = (Return f, w') ->
  Pandas.empty f = false.
Proof.
  unfold AKShareETFDataSource.get_etf_basic_info, try_except, bind,
    call_akshare, lift, ret, raise, AKShareETFDataSource.reraise_not_found.
  destruct (akshare E w "fund_etf_spot_em" []) as [info|e]; cbv beta iota.
  - destruct (Pandas.where_eq info "代码" code) as [data|e]; cbv beta iota.
    + destruct (Pandas.empty data) eqn:He; cbv beta iota.
      * destruct (isinstance _ _); discriminate.
      * intros [= <- _]. exact He.
    + destruct (isinstance _ _); discriminate.
  - destruct (isinstance _ _); discriminate.
Qed.

Lemma dict_set_here {V} (k : string) (v : V) (d : list (string * V)) :
  In (k, v) (EtfAnalysis.dict_set k v d).
Proof.
  induction d as [|[k' v'] d IH]; simpl; [left; reflexivity |].
  destruct (String.eqb_spec k k') as [->|_]; [left; reflexivity | right; exact IH].
Qed.

Lemma dict_set_elsewhere {V} (k k0 : string) (v v0 : V) (d : list (string * V)) :
  k <> k0 -> In (k0, v0) d -> In (k0, v0) (EtfAnalysis.dict_set k v d).
Proof.
  intros Hk. induction d as [|[k' v'] d IH]; simpl; [tauto |].
  destruct (String.eqb_spec k k') as [->|_]; simpl.
  - intros [[= <- <-]|H]; [congruence | right; exact H].
  - intros [H|H]; [left; exact H | right; auto].
Qed.

Lemma last_fetch_is_stored (code : string) (log : list (string * outcome DataFrame))
    (d : list (string * option DataFrame)) :
  match last_fetch code log with
  | Some o => In (code, stored o) (fold_left store_step log d)
  | None => forall v, In (code, v) d -> In (code, v) (fold_left store_step log d)
  end.
Proof.
  revert d; induction log as [|[c o] log IH]; intro d; simpl; [auto |].
  specialize (IH (store_step d (c, o))).
  destruct (last_fetch code log) as [o'|]; [exact IH |].
  destruct (String.eqb_spec c code) as [->|Hc].
  - apply IH. apply dict_set_here.
  - intros v Hv. apply IH. unfold store_step; cbn [fst snd].
    now apply dict_set_elsewhere.
Qed.

Lemma fetched_codes_have_an_answer (E : env) (code : string) (codes : list string)
    (w : world) :
  In code codes -> last_fetch code (fetch_log E codes w) <> None.
Proof.
  revert w; induction codes as [|c codes IH]; intros w; [intros [] |].
  intro Hin. simpl.
  destruct (AKShareETFDataSource.get_etf_basic_info E c w) as [o w'].
  simpl. destruct (last_fetch code (fetch_log E codes w')) eqn:Hl; [discriminate |].
  destruct Hin as [->|Hin]; [rewrite String.eqb_refl; discriminate |].
  exfalso. exact (IH w' Hin Hl).
Qed.

Lemma last_fetch_has_a_record (E : env) (code : string) (codes : list string)
    (w : world) (f : DataFrame) :
  last_fetch code (fetch_log E codes w) = Some (Return f) -> Pandas.empty f = false.
Proof.
  revert w; induction codes as [|c codes IH]; intros w; simpl; [discriminate |].
  destruct (AKShareETFDataSource.get_etf_basic_info E c w) as [o w'] eqn:Hb.
  simpl. destruct (last_fetch code (fetch_log E codes w')) eqn:Hl.
  - intros [= ->]. exact (IH w' Hl).
  - destruct (String.eqb c code); [| discriminate].
    intros [= ->]. exact (basic_info_has_a_record E c w w' f Hb).
Qed.

Lemma fetch_each_stores (E : env) (codes : list string)
    (d : list (string * option DataFrame)) (w : world) :
  fst (EtfAnalysis.fetch_each (active_etf_data_source := AKShareETFDataSource.source E)
         codes d w)
  = Return (fold_left store_step (fetch_log E codes w) d).
Proof.
  revert d w; induction codes as [|c codes IH]; intros d w; [reflexivity |].
  cbn [EtfAnalysis.fetch_each fetch_log].
  unfold bind at 1. unfold try_except at 1. unfold bind at 1.
  cbn [get_etf_basic_info AKShareETFDataSource.source].
  destruct (AKShareETFDataSource.get_etf_basic_info E c w) as [[f|e] w'];
    unfold ret; cbv beta iota; cbn [fold_left]; apply IH.
Qed.

Lemma fetch_log_codes (E : env) (codes : list string) (w : world) :
  map fst (fetch_log E codes w) = codes.
Proof.
  revert w; induction codes as [|c codes IH]; intro w; [reflexivity |].
  cbn [fetch_log].
  destruct (AKShareETFDataSource.get_etf_basic_info E c w) as [o w'].
  cbn [map fst]. now rewrite IH.
Qed.

Lemma last_fetch_snoc (code k : string) (o : outcome DataFrame)
    (log : list (string * outcome DataFrame)) :
  last_fetch code (log ++ [(k, o)])%list
  = if String.eqb k code then Some o else last_fetch code log.
Proof.
  induction log as [|[c1 o1] log IH]; cbn [app last_fetch].
  - destruct (String.eqb k code); reflexivity.
  - rewrite IH. destruct (String.eqb k code); reflexivity.
Qed.

Lemma distinct_snoc (codes : list string) (c : string) :
  distinct (codes ++ [c])%list
  = if existsb (String.eqb c) (distinct codes) then distinct codes
    else (distinct codes ++ [c])%list.
Proof. unfold distinct. rewrite fold_left_app. reflexivity. Qed.

Lemma existsb_eqb_In (c : string) (l : list string) :
  existsb (String.eqb c) l = true <-> In c l.
Proof.
  rewrite existsb_exists. split.
  - intros [x [Hx He]]. apply String.eqb_eq in He. now subst.
  - intro H. exists c. split; [exact H | apply String.eqb_refl].
Qed.

Lemma distinct_NoDup (codes : list string) : NoDup (distinct codes).
Proof.
  induction codes as [|c codes IH] using rev_ind; [constructor |].
  rewrite distinct_snoc.
  destruct (existsb (String.eqb c) (distinct codes)) eqn:He; [exact IH |].
  apply NoDup_app; [exact IH | repeat constructor; intros [] |].
  intros x Hx [<-|[]].
  apply existsb_eqb_In in Hx. congruence.
Qed.

Lemma distinct_keeps (codes : list string) (code : string) :
  In code codes -> In code (distinct codes).
Proof.
  induction codes as [|c codes IH] using rev_ind; [intros [] |].
  rewrite distinct_snoc, in_app_iff.
  intros [H|[<-|[]]].
  - destruct (existsb _ _); [| apply in_or_app; left]; exact (IH H).
  - destruct (existsb (String.eqb c) (distinct codes)) eqn:He.
    + now apply existsb_eqb_In.
    + apply in_or_app; right; left; reflexivity.
Qed.

(** Assigning to a key of a dictionary whose keys are distinct. *)
Lemma dict_set_map {V} (k : string) (v : V) (h : string -> V) (ks : list string) :
  NoDup ks ->
  EtfAnalysis.dict_set k v (map (fun c => (c, h c)) ks)
  = if existsb (String.eqb k) ks
    then map (fun c => (c, if String.eqb k c then v else h c)) ks
    else (map (fun c => (c, h c)) ks ++ [(k, v)])%list.
Proof.
  induction 1 as [|c ks Hc Hks IH]; [reflexivity |].
  cbn [map EtfAnalysis.dict_set existsb].
  destruct (String.eqb_spec k c) as [->|Hk]; cbn [orb].
  - f_equal. apply map_ext_in. intros x Hx.
    destruct (String.eqb_spec c x) as [->|_]; [contradiction | reflexivity].
  - rewrite IH. destruct (existsb (String.eqb k) ks); reflexivity.
Qed.

(** [etf_data] after the first loop: an entry for each distinct code,
    in the order of first occurrence, holding the answer to the last
    fetch of the code. *)
Lemma fetched_entries (log : list (string * outcome DataFrame)) :
  fold_left store_step log []
  = map (entry_of log) (distinct (map fst log)).
Proof.
  induction log as [|[k o] log IH] using rev_ind; [reflexivity |].
  rewrite fold_left_app, map_app. cbn [fold_left map fst]. rewrite distinct_snoc.
  unfold store_step at 1. cbn [fst snd]. rewrite IH.
  unfold entry_of at 1.
  rewrite (dict_set_map k (stored o)
             (fun c => match last_fetch c log with Some o => stored o | None => None end)
             _ (distinct_NoDup _)).
  destruct (existsb (String.eqb k) (distinct (map fst log))) eqn:He.
  - apply map_ext. intro c. unfold entry_of. rewrite last_fetch_snoc.
    destruct (String.eqb k c); reflexivity.
  - rewrite map_app. cbn [map]. f_equal.
    + apply map_ext_in. intros c Hc. unfold entry_of. rewrite last_fetch_snoc.
      destruct (String.eqb_spec k c) as [->|_]; [| reflexivity].
      apply existsb_eqb_In in Hc. congruence.
    + unfold entry_of. rewrite last_fetch_snoc, String.eqb_refl. reflexivity.
Qed.

Lemma entry_line (E : env) (codes : list string) (w : world) (code : string) :
  row_text (entry_of (fetch_log E codes w) code) = table_line (fetch_log E codes w) code.
Proof.
  unfold row_text, entry_of, table_line. cbn [fst snd].
  destruct (last_fetch code (fetch_log E codes w)) as [[f|e]|] eqn:Hl;
    cbn [stored]; [| reflexivity | reflexivity].
  now rewrite (last_fetch_has_a_record E code codes w f Hl).
Qed.

(** C10. In [compare_etfs] over the AKShare source, with at least two
    codes in the comma-separated list, a failing fetch does not end the
    operation: the report is produced, and its table has one line for
    each distinct code, in the order of first occurrence: the line
    [| code | 数据获取失败 | N/A | N/A | N/A |] when the (last) fetch of
    the code raised, and the line of code, name, latest price, change
    and volume of the fund when it returned.  With fewer than two codes
    the answer is the fixed error string and nothing is asked of the
    provider. *)
Theorem compare_etfs_tolerates_failures
    (E : env) (etf_codes : string) (comparison_type : option string) (w : world) :
  let codes := map PyStr.strip (PyStr.split "," etf_codes) in
  let log := fetch_log E codes w in
  let run :=
    EtfAnalysis.compare_etfs (active_etf_data_source := AKShareETFDataSource.source E)
      etf_codes comparison_type w in
  ((List.length codes < 2)%nat ->
     fst run = Return "错误: 至少需要2个ETF代码进行比较" /\ snd run = w)
  /\ ((2 <= List.length codes)%nat ->
        fst run = Return (comparison_report (map (table_line log) (distinct codes)))
        /\ forall code, In code codes ->
             In code (distinct codes)
             /\ exists o,
                  last_fetch code log = Some o
                  /\ table_line log code
                     = match o with
                       | Raise _ => failed_line code
                       | Return f => fund_row code f
                       end).
Proof.
  cbv zeta. unfold EtfAnalysis.compare_etfs, try_except.
  set (codes := map PyStr.strip (PyStr.split "," etf_codes)).
  destruct (Z.ltb_spec (Z.of_nat (List.length codes)) 2) as [Hlt|Hge].
  - split; [intros _; split; reflexivity | intro H; lia].
  - split; [intro H; lia | intros _]. split.
    + unfold bind at 1.
      pose proof (fetch_each_stores E codes [] w) as Hf.
      destruct (EtfAnalysis.fetch_each codes [] w) as [o w'].
      cbn [fst] in Hf. subst o. cbv beta iota.
      unfold bind, lift, ret. rewrite table_rows_is_total. cbv beta iota. cbn [fst].
      rewrite fetched_entries, fetch_log_codes, map_map.
      rewrite (map_ext _ _ (entry_line E codes w)).
      reflexivity.
    + intros code Hin. split; [exact (distinct_keeps codes code Hin) |].
      pose proof (fetched_codes_have_an_answer E code codes w Hin) as Hsome.
      unfold table_line.
      destruct (last_fetch code (fetch_log E codes w)) as [o|]; [| congruence].
      exists o. split; [reflexivity |]. destruct o; reflexivity.
Qed.

Lemma compare_etfs_tolerates_failures_witness :
  (2 <= List.length (map PyStr.strip (PyStr.split "," "510300,　159919 ")))%nat
  /\ result_of (EtfAnalysis.compare_etfs
                  (active_etf_data_source := AKShareETFDataSource.source env_flaky)
                  "510300,　159919 " None)
     = Return (comparison_report
                 ["| 510300 | 数据获取失败 | N/A | N/A | N/A |" ++ LF;
                  "| 159919 | 300ETF | 4.102 | -0.31% | 7654321 |" ++ LF]).
Proof.
  assert (H2 : (2 <= List.length
                       (map PyStr.strip (PyStr.split "," "510300,　159919 ")))%nat)
    by (vm_compute; repeat constructor).
  split; [exact H2 |].
  exact (proj1 (proj2 (compare_etfs_tolerates_failures env_flaky "510300,　159919 "
                         None []) H2)).
Defined.

(** ** Columns and blank arguments *)

Lemma blank_is_not_truthy (s : string) :
  negb (PyStr.truthy s) || negb (PyStr.truthy (PyStr.strip s))
  = negb (PyStr.truthy (PyStr.strip s)).
Proof. destruct s; reflexivity. Qed.


Lemma industry_column_located (f : DataFrame) :
  Pandas.empty f = false ->
  exists k, Pandas.index_of (Indices.industry_column f) (Pandas.columns f) = Some k.
Proof.
  intro He. unfold Indices.industry_column, Pandas.has_column, Pandas.last_column.
  destruct (existsb (String.eqb "industry") (Pandas.columns f)) eqn:Hi.
  - now apply index_of_member.
  - apply index_of_last. exact (proj1 (empty_false _ He)).
Qed.

(** ** The row limit *)

(** With arguments that pass the checks and a data source that
    answers with a frame that has rows and the column [tradeStatus],
    every operation ends with one rendering, asked for the row cap of
    the call. *)
Lemma limit_reaches_the_renderer
    (E : env) (c : tool_call) (f : DataFrame) (w : world) :
  serves E f -> Pandas.empty f = false ->
  Pandas.has_column f "tradeStatus" = true -> accepted c ->
  exists op kwargs df format m,
    snd (run_tool E c w)
    = (w ++ [EvCall op kwargs; EvRender df format (effective_limit c) m])%list.
Proof.
  intros [Hds Hcc] He Hts Hacc.
  assert (Hk : exists k, Pandas.index_of "tradeStatus" (Pandas.columns f) = Some k)
    by (apply index_of_member; exact Hts).
  destruct Hk as [k Hk].
  destruct (industry_column_located f He) as [ki Hki].
  destruct c; unfold effective_limit; cbn [limit_argument is_search_stocks run_tool];
    unfold Base.call_financial_data_tool, Base.call_macro_data_tool,
      MarketOverview.get_trade_dates,
      MarketOverview.get_all_stock, MarketOverview.search_stocks,
      MarketOverview.get_suspensions, Indices.get_stock_industry,
      Indices.get_sz50_stocks, Indices.get_hs300_stocks, Indices.get_zz500_stocks,
      Indices.get_index_constituents, Indices.get_industry_members,
      Base.call_index_constituent_tool;
    cbn [dflt accepted] in *;
    try rewrite blank_is_not_truthy;
    try match goal with
      | H : four_digit_characters _ /\ _ |- _ =>
          let Hy := fresh in let Hq := fresh in
          destruct H as [Hy Hq];
          apply four_digit_characters_checked in Hy; destruct Hy as [-> ->];
          replace (1 <=? quarter) with true by (symmetry; apply Z.leb_le; lia);
          replace (quarter <=? 4) with true by (symmetry; apply Z.leb_le; lia)
      | H : PyStr.strip ?s <> "" |- _ =>
          let t := fresh in
          destruct (PyStr.strip s) eqn:t; [congruence |]
      | H : In _ _ |- _ =>
          cbn [In] in H; destruct H as [H|[H|[H|[]]]]; rewrite <- H
      end;
    cbn [negb orb andb PyStr.truthy Z.eqb Pos.eqb existsb String.eqb Ascii.eqb Bool.eqb];
    unfold try_except, bind, lift, ret, call_data_source, format_table_output,
      Pandas.where_eq, Pandas.locate;
    rewrite ?Hds; cbv beta iota; rewrite ?He, ?Hts, ?Hk, ?Hki; cbn [negb];
    cbv beta iota;
    try match goal with
      | |- context [code_contains E f ?kw] =>
          let g := fresh in let Hg := fresh in
          destruct (Hcc kw) as [g Hg]; rewrite Hg; cbv beta iota
      end;
    match goal with
    | |- context [renderer E ?w' ?d ?fm ?n ?m] => destruct (renderer E w' d fm n m)
    end;
    cbn [snd]; rewrite <- app_assoc; do 5 eexists; reflexivity.
Qed.

(** C7, as amended. Every operation with a [limit] parameter passes its
    limit to the renderer as the row cap, a [limit] left out standing
    for 250, and for 50 in [search_stocks]: no rendering of the
    operation is asked for another cap, and when the arguments pass
    the checks and the data source answers with data, the operation
    does end with a rendering, asked for that cap. *)
Theorem limit_is_the_row_cap (E : env) (c : tool_call) :
  adds_only (caps_at (effective_limit c)) (run_tool E c)
  /\ (forall f w,
        serves E f -> Pandas.empty f = false ->
        Pandas.has_column f "tradeStatus" = true -> accepted c ->
        exists op kwargs df format m,
          snd (run_tool E c w)
          = (w ++ [EvCall op kwargs;
                   EvRender df format (effective_limit c) m])%list).
Proof.
  split; [| intros f w; apply limit_reaches_the_renderer].
  destruct c; unfold effective_limit; cbn [limit_argument is_search_stocks run_tool];
    destruct limit as [n|];
    unfold Base.call_financial_data_tool, Base.call_macro_data_tool,
      Base.call_index_constituent_tool, MarketOverview.get_trade_dates,
      MarketOverview.get_all_stock, MarketOverview.search_stocks,
      MarketOverview.get_suspensions, Indices.get_stock_industry,
      Indices.get_sz50_stocks, Indices.get_hs300_stocks, Indices.get_zz500_stocks,
      Indices.get_index_constituents, Indices.get_industry_members,
      Base.call_index_constituent_tool;
    cbn [dflt]; repeat adds_only_step.
Qed.

Lemma limit_is_the_row_cap_witness :
  serves env_stocks stock_list
  /\ accepted (SearchStocks "600" None None None)
  /\ accepted (GetTradeDates None None (Some 10) None)
  /\ (exists op kwargs df format m,
        snd (run_tool env_stocks (SearchStocks "600" None None None) [])
        = [EvCall op kwargs; EvRender df format 50 m])
  /\ (exists op kwargs df format m,
        snd (run_tool env_stocks (GetTradeDates None None (Some 10) None) [])
        = [EvCall op kwargs; EvRender df format 10 m]).
Proof.
  assert (Hs : serves env_stocks stock_list).
  { split; [reflexivity | intro kw; eexists; reflexivity]. }
  assert (H1 : accepted (SearchStocks "600" None None None))
    by (vm_compute; discriminate).
  assert (H2 : accepted (GetTradeDates None None (Some 10) None)) by exact I.
  split; [exact Hs |]. split; [exact H1 |]. split; [exact H2 |]. split.
  - exact (proj2 (limit_is_the_row_cap env_stocks (SearchStocks "600" None None None))
             stock_list [] Hs eq_refl eq_refl H1).
  - exact (proj2 (limit_is_the_row_cap env_stocks
                    (GetTradeDates None None (Some 10) None))
             stock_list [] Hs eq_refl eq_refl H2).
Defined.

(** The renderings do take place: on a stock list, [get_all_stock]
    without a [limit] asks the renderer for 250 rows, and for 10 when 10
    is passed. *)
Example get_all_stock_row_caps :
  snd (run_tool env_stocks (GetAllStock None None None) [])
  = [EvCall "get_all_stock" [("date", VNone)];
     EvRender (Some stock_list) "markdown" 250 [("as_of", VStr "default")]]
  /\ snd (run_tool env_stocks (GetAllStock None (Some 10) (Some "csv")) [])
     = [EvCall "get_all_stock" [("date", VNone)];
        EvRender (Some stock_list) "csv" 10 [("as_of", VStr "default")]].
Proof. split; reflexivity. Qed.

(** C7 as stated fails: [search_stocks], called without a [limit], asks
    the renderer for 50 rows, not 250. *)
Lemma search_stocks_default_is_not_250 :
  ~ (forall (E : env) (c : tool_call),
       limit_argument c = None -> adds_only (caps_at 250) (run_tool E c)).
Proof.
  intro H.
  destruct (H env_stocks (SearchStocks "600" None None None) eq_refl [])
    as [l [Hl Hf]].
  cbn in Hl. subst l.
  inversion Hf as [|? ? _ Hf']. inversion Hf' as [|? ? Hcap _].
  cbn in Hcap. discriminate Hcap.
Qed.

(* ===================================================================== *)
(** * Further properties *)
(* ===================================================================== *)

(** ** Every catalogued tool answers with a string *)

(** X1. None of the thirteen operations with a [limit] raises, whatever
    the data source and the renderer do: each run ends with a string. *)
Theorem every_tool_returns_a_string (E : env) (c : tool_call) :
  never_raises (run_tool E c).
Proof.
  destruct c; cbn [run_tool];
    unfold Base.call_financial_data_tool, Base.call_macro_data_tool,
      MarketOverview.get_trade_dates, MarketOverview.get_all_stock,
      MarketOverview.search_stocks, MarketOverview.get_suspensions,
      Indices.get_stock_industry, Indices.get_sz50_stocks,
      Indices.get_hs300_stocks, Indices.get_zz500_stocks,
      Indices.get_index_constituents, Indices.get_industry_members,
      Base.call_index_constituent_tool; cbv zeta;
    apply try_ret_never_raises.
Qed.

(** ** Failures of the provider in the pipeline *)

(** X2. When the bound operation raises, [call_financial_data_tool]
    does not call the renderer, and its answer names the most specific
    class of the exception: a [NoDataFoundError] gives its bare message
    and a [LoginError] the connection text, although both are
    [DataSourceError]s; a plain [DataSourceError] and a [ValueError]
    have their own texts, and everything else is "unexpected". *)
Theorem provider_failure_is_classified
    (E : env) (tool_name method data_type_name code year : string)
    (quarter : Z) (limit : option Z) (format : option string) (w : world) (e : exc) :
  four_digit_numeral year -> 1 <= quarter <= 4 ->
  data_source E w method (financial_kwargs code year quarter) = Raise e ->
  Base.call_financial_data_tool E tool_name method data_type_name
    code year quarter limit format w
  = (Return
       (match exc_cls e with
        | NoDataFoundError => "Error: " ++ exc_msg e
        | LoginError => "Error: Could not connect to data source. " ++ exc_msg e
        | DataSourceError => "Error: An error occurred while fetching data. " ++ exc_msg e
        | ValueError => "Error: Invalid input parameter. " ++ exc_msg e
        | _ => "Error: An unexpected error occurred: " ++ exc_msg e
        end),
     (w ++ [EvCall method (financial_kwargs code year quarter)])%list).
Proof.
  intros Hy Hq He. apply four_digit_numeral_checked in Hy. destruct Hy as [Hd Hl].
  unfold Base.call_financial_data_tool, try_except, bind, ret, call_data_source.
  cbv zeta. rewrite Hd, Hl.
  replace (1 <=? quarter) with true by (symmetry; apply Z.leb_le; lia).
  replace (quarter <=? 4) with true by (symmetry; apply Z.leb_le; lia).
  cbn [negb orb andb Z.eqb Pos.eqb]. fold (financial_kwargs code year quarter).
  rewrite He. unfold Base.except_chain, isinstance.
  destruct e as [[] msg]; reflexivity.
Qed.

Lemma provider_failure_is_classified_witness :
  four_digit_numeral "2024" /\ 1 <= 2 <= 4
  /\ Base.call_financial_data_tool env_no_data "get_profit_data" "get_profit_data"
       "Profitability" "sh.600000" "2024" 2 None None []
     = (Return "Error: No data found for sh.600000",
        [EvCall "get_profit_data" (financial_kwargs "sh.600000" "2024" 2)]).
Proof.
  assert (Hy : four_digit_numeral "2024")
    by (exists "2"%char, "0"%char, "2"%char, "4"%char; repeat split).
  assert (Hq : 1 <= 2 <= 4) by lia.
  split; [exact Hy |]. split; [exact Hq |].
  exact (provider_failure_is_classified env_no_data "get_profit_data"
           "get_profit_data" "Profitability" "sh.600000" "2024" 2 None None []
           _ Hy Hq eq_refl).
Defined.

(** ** The two other helpers of [base.py] *)

(** X3. [call_macro_data_tool] makes exactly one call, passing the two
    dates and every extra keyword argument on to the data source.  When
    that returns a frame the frame goes to the renderer with the
    metadata of the query, to which the extra arguments are added under
    ["extra"] only when there are some; when it raises, nothing is
    rendered and the classified error string is the answer. *)
Theorem call_macro_data_tool_spec
    (E : env) (tool_name method data_type_name : string)
    (start_date end_date : option string) (limit : option Z)
    (format : option string) (kwargs : list (string * string)) (w : world) :
  let run := Base.call_macro_data_tool E tool_name method data_type_name
               start_date end_date limit format kwargs w in
  let call := EvCall method (macro_kwargs start_date end_date kwargs) in
  (forall e,
     data_source E w method (macro_kwargs start_date end_date kwargs) = Raise e ->
     run = (Return (Base.except_chain e), (w ++ [call])%list))
  /\ (forall df,
        data_source E w method (macro_kwargs start_date end_date kwargs) = Return df ->
        exists m,
          snd run = (w ++ [call; EvRender df (dflt "markdown" format) (dflt 250 limit) m])%list
          /\ (kwargs = [] -> m = macro_meta_base data_type_name start_date end_date)
          /\ (kwargs <> [] ->
                m = (macro_meta_base data_type_name start_date end_date
                     ++ [("extra", VDict kwargs)])%list)).
Proof.
  cbv zeta.
  unfold Base.call_macro_data_tool, try_except, bind, ret, call_data_source,
    format_table_output.
  fold (macro_kwargs start_date end_date kwargs).
  split.
  - intros e He. rewrite He. reflexivity.
  - intros df Hdf. rewrite Hdf. cbv beta iota.
    eexists. split.
    + match goal with
      | |- context [renderer E ?w' ?d ?f ?n ?m] => destruct (renderer E w' d f n m)
      end; cbn [snd]; rewrite <- app_assoc; reflexivity.
    + split.
      * intros ->. reflexivity.
      * intro Hne. destruct kwargs; [congruence | reflexivity].
Qed.

Lemma call_macro_data_tool_spec_witness :
  exists m,
    snd (Base.call_macro_data_tool env_stocks "get_deposit_rate_data"
           "get_deposit_rate_data" "Deposit Rate" (Some "2024-01-01") None
           None None [("year_type", "report")] [])
    = [EvCall "get_deposit_rate_data"
         [("start_date", VStr "2024-01-01"); ("end_date", VNone);
          ("year_type", VStr "report")];
       EvRender (Some stock_list) "markdown" 250 m]
    /\ m = [("dataset", VStr "Deposit Rate"); ("start_date", VStr "2024-01-01");
            ("end_date", VNone); ("extra", VDict [("year_type", "report")])].
Proof.
  destruct (call_macro_data_tool_spec env_stocks "get_deposit_rate_data"
              "get_deposit_rate_data" "Deposit Rate" (Some "2024-01-01") None
              None None [("year_type", "report")] []) as [_ H].
  destruct (H (Some stock_list) eq_refl) as [m [Ht [_ Hm]]].
  exists m. split; [exact Ht | apply Hm; discriminate].
Defined.

(** X4. [call_index_constituent_tool] makes exactly one call, with the
    date as given ([None] when left out); a frame that arrives is
    rendered with the index name and with ["latest"] standing for a
    missing or empty date, and a failure is answered by the classified
    error string without a rendering. *)
Theorem call_index_constituent_tool_spec
    (E : env) (tool_name method index_name : string) (date : option string)
    (limit : option Z) (format : option string) (w : world) :
  let run := Base.call_index_constituent_tool E tool_name method index_name
               date limit format w in
  let call := EvCall method [("date", value_of_opt date)] in
  (forall e,
     data_source E w method [("date", value_of_opt date)] = Raise e ->
     run = (Return (Base.except_chain e), (w ++ [call])%list))
  /\ (forall df,
        data_source E w method [("date", value_of_opt date)] = Return df ->
        snd run
        = (w ++ [call;
                 EvRender df (dflt "markdown" format) (dflt 250 limit)
                   [("index", VStr index_name);
                    ("as_of", VStr (match date with
                                    | Some (String c r) => String c r
                                    | _ => "latest"
                                    end))]])%list).
Proof.
  cbv zeta.
  unfold Base.call_index_constituent_tool, try_except, bind, ret,
    call_data_source, format_table_output.
  split.
  - intros e He. rewrite He. reflexivity.
  - intros df Hdf. rewrite Hdf. cbv beta iota.
    replace (PyStr.or_default date "latest")
      with (match date with Some (String c r) => String c r | _ => "latest" end)
      by (destruct date as [[|c r]|]; reflexivity).
    match goal with
    | |- context [renderer E ?w' ?d ?f ?n ?m] => destruct (renderer E w' d f n m)
    end; cbn [snd]; rewrite <- app_assoc; reflexivity.
Qed.

Lemma call_index_constituent_tool_spec_witness :
  snd (Base.call_index_constituent_tool env_stocks "get_hs300_stocks"
         "get_hs300_stocks" "CSI 300" (Some "") None (Some "json") [])
  = [EvCall "get_hs300_stocks" [("date", VStr "")];
     EvRender (Some stock_list) "json" 250
       [("index", VStr "CSI 300"); ("as_of", VStr "latest")]].
Proof.
  destruct (call_index_constituent_tool_spec env_stocks "get_hs300_stocks"
              "get_hs300_stocks" "CSI 300" (Some "") None (Some "json") [])
    as [_ H].
  exact (H (Some stock_list) eq_refl).
Defined.

(** ** [is_trading_day] *)



(** ** Dates that do not parse *)

(** X6. For a date written in ASCII: when the date does not parse, or
    lies so close to the first or last representable day that the
    30-day window cannot be computed, [previous_trading_day] and
    [next_trading_day] answer with the message of that failure and do
    not query the calendar.  (Beyond ASCII the parser of the code also
    reads the digits of other scripts, which [PyDate.strptime] does
    not.) *)
Theorem bad_date_is_reported_without_query
    (E : env) (date : string) (w : world) :
  PyStr.is_ascii date = true ->
  (forall e, PyDate.strptime date = Raise e ->
     DateUtils.previous_trading_day E date w = (Return ("Error: " ++ exc_msg e), w)
     /\ DateUtils.next_trading_day E date w = (Return ("Error: " ++ exc_msg e), w))
  /\ (forall d e, PyDate.strptime date = Return d ->
        PyDate.add_days d (-30) = Raise e ->
        DateUtils.previous_trading_day E date w = (Return ("Error: " ++ exc_msg e), w))
  /\ (forall d e, PyDate.strptime date = Return d ->
        PyDate.add_days d 30 = Raise e ->
        DateUtils.next_trading_day E date w = (Return ("Error: " ++ exc_msg e), w)).
Proof.
  intros _.
  unfold DateUtils.previous_trading_day, DateUtils.next_trading_day,
    try_except, bind, lift, ret.
  repeat split.
  - rewrite H. reflexivity.
  - rewrite H. reflexivity.
  - intros d e Hd He. rewrite Hd. cbv beta iota. rewrite He. reflexivity.
  - intros d e Hd He. rewrite Hd. cbv beta iota. rewrite He. reflexivity.
Qed.

Lemma bad_date_is_reported_without_query_witness :
  PyStr.is_ascii "it's 2025" = true
  /\ DateUtils.previous_trading_day env_2025_01_10 "it's 2025" []
     = (Return ("Error: time data " ++ String "034" "it's 2025"
                ++ String "034" " does not match format '%Y-%m-%d'"), [])
  /\ DateUtils.previous_trading_day env_2025_01_10 "2025/01/10" []
     = (Return "Error: time data '2025/01/10' does not match format '%Y-%m-%d'", [])
  /\ DateUtils.next_trading_day env_2025_01_10 "2025-02-30" []
     = (Return "Error: day is out of range for month", [])
  /\ DateUtils.next_trading_day env_2025_01_10 "9999-12-15" []
     = (Return "Error: date value out of range", []).
Proof.
  destruct (bad_date_is_reported_without_query env_2025_01_10 "it's 2025" [] eq_refl)
    as (H0 & _ & _).
  destruct (bad_date_is_reported_without_query env_2025_01_10 "2025/01/10" [] eq_refl)
    as (H1 & _ & _).
  destruct (bad_date_is_reported_without_query env_2025_01_10 "2025-02-30" [] eq_refl)
    as (H2 & _ & _).
  destruct (bad_date_is_reported_without_query env_2025_01_10 "9999-12-15" [] eq_refl)
    as (_ & _ & H3).
  split; [reflexivity |].
  split; [exact (proj1 (H0 _ eq_refl)) |].
  split; [exact (proj1 (H1 _ eq_refl)) |].
  split; [exact (proj2 (H2 _ eq_refl)) |].
  exact (H3 (PyDate.mkDate 9999 12 15) _ eq_refl eq_refl).
Defined.

(** ** The analysis timeframe *)

Lemma valid_first_of_month (y m : Z) :
  1 <= y <= 9999 -> 1 <= m <= 12 -> PyDate.valid (PyDate.mkDate y m 1) = true.
Proof.
  intros Hy Hm. apply (datetime_valid y m 1). apply datetime_ok; lia.
Qed.

(** The start of a period: the first of a month, the length of the
    period back. *)
Lemma period_start_first (period : string) (now : PyDate.date) :
  PyDate.valid now = true -> 2 <= PyDate.year now ->
  exists s m,
    DateUtils.period_start period now = Return (s, m)
    /\ PyDate.valid s = true /\ PyDate.day s = 1
    /\ months_back now s = period_length period now.
Proof.
  intros Hv Hy. destruct (valid_ranges now Hv) as (Hy' & Hm & _).
  unfold DateUtils.period_start, period_length, months_back.
  cbv zeta.
  destruct (String.eqb_spec period "recent") as [->|?];
    [| destruct (String.eqb_spec period "quarter") as [->|?];
       [| destruct (String.eqb_spec period "half_year") as [->|?];
          [| destruct (String.eqb_spec period "year") as [->|?]]]];
    repeat match goal with
           | |- context [String.eqb ?a ?b] =>
               let v := eval vm_compute in (String.eqb a b) in
               change (String.eqb a b) with v
           end;
    cbv iota;
    repeat match goal with
           | |- context [?a <? ?b] => destruct (Z.ltb_spec a b)
           | |- context [?a <=? ?b] => destruct (Z.leb_spec a b)
           | |- context [?a =? ?b] => destruct (Z.eqb_spec a b)
           | |- context [PyDate.datetime ?y ?m 1] =>
               rewrite (datetime_ok y m 1) by (cbn [PyDate.year PyDate.month] in *; lia)
           | _ => progress cbn [outcome_map PyDate.year PyDate.month andb negb] in *
           end;
    try lia;
    do 2 eexists; (split; [reflexivity |]);
    cbn [PyDate.year PyDate.month PyDate.day];
    repeat split; try (apply valid_first_of_month; lia); lia.
Qed.

(** X7. For every current date (from year 2 on) and every period
    keyword, the timeframe starts on the first day of a month: three
    months back for a quarter, six for half a year, twelve for a year.
    For ["recent"] it starts two months back before the 15th and one
    month back from the 15th on, except that in February it starts in
    January on every day; an unknown keyword gives one month.  The
    middle date is the first of the month three (half a year), six (a
    year) or one (["recent"], two months back) months after the start,
    and the start itself otherwise. *)
Theorem period_start_reaches_back (period : string) (now : PyDate.date) :
  PyDate.valid now = true -> 2 <= PyDate.year now ->
  exists s m,
    DateUtils.period_start period now = Return (s, m)
    /\ PyDate.valid s = true /\ PyDate.day s = 1
    /\ months_back now s = period_length period now
    /\ PyDate.valid m = true /\ PyDate.day m = 1
    /\ months_back m s = middle_offset period now.
Proof.
  intros Hv Hy. destruct (valid_ranges now Hv) as (Hy' & Hm & _).
  unfold DateUtils.period_start, period_length, middle_offset, months_back.
  cbv zeta.
  destruct (String.eqb_spec period "recent") as [->|?];
    [| destruct (String.eqb_spec period "quarter") as [->|?];
       [| destruct (String.eqb_spec period "half_year") as [->|?];
          [| destruct (String.eqb_spec period "year") as [->|?]]]];
    repeat match goal with
           | |- context [String.eqb ?a ?b] =>
               let v := eval vm_compute in (String.eqb a b) in
               change (String.eqb a b) with v
           end;
    cbv iota;
    repeat match goal with
           | |- context [?a <? ?b] => destruct (Z.ltb_spec a b)
           | |- context [?a <=? ?b] => destruct (Z.leb_spec a b)
           | |- context [?a =? ?b] => destruct (Z.eqb_spec a b)
           | |- context [PyDate.datetime ?y ?m 1] =>
               rewrite (datetime_ok y m 1) by (cbn [PyDate.year PyDate.month] in *; lia)
           | _ => progress cbn [outcome_map PyDate.year PyDate.month andb negb] in *
           end;
    try lia;
    do 2 eexists; (split; [reflexivity |]);
    cbn [PyDate.year PyDate.month PyDate.day];
    repeat split; try (apply valid_first_of_month; lia); lia.
Qed.

Lemma period_start_reaches_back_witness :
  exists s m,
    DateUtils.period_start "recent" (PyDate.mkDate 2025 2 10) = Return (s, m)
    /\ s = PyDate.mkDate 2025 1 1
    /\ months_back (PyDate.mkDate 2025 2 10) s = 1.
Proof.
  destruct (period_start_reaches_back "recent" (PyDate.mkDate 2025 2 10))
    as (s & m & Hs & _ & _ & Hb & _); [reflexivity | cbn; lia |].
  exists s, m. split; [exact Hs |].
  vm_compute in Hs. injection Hs as <- <-. split; [reflexivity | exact Hb].
Defined.

Lemma unpadded_years :
  forallb year_is_unpadded (zrange 1000 (Z.to_nat 9000)) = true.
Proof. vm_compute. reflexivity. Qed.

Lemma year_needs_no_padding (y : Z) :
  1000 <= y <= 9999 -> PyStr.str_of_int y = PyStr.fmt_0d 4 y.
Proof.
  intro H. symmetry. apply String.eqb_eq.
  change (year_is_unpadded y = true).
  apply (proj1 (forallb_forall year_is_unpadded (zrange 1000 (Z.to_nat 9000)))
               unpadded_years).
  apply zrange_in. lia.
Qed.

(** X8. For a current date from year 1001 on, the machine-readable part
    of the timeframe is the pair of ISO dates of the start and of the
    current day: the clamp of the end day to the length of the month
    never changes it. *)
Theorem timeframe_iso_range (E : env) (period : option string) (w : world) :
  PyDate.valid (clock E w) = true -> 1001 <= PyDate.year (clock E w) ->
  exists s m,
    DateUtils.period_start (dflt "recent" period) (clock E w) = Return (s, m)
    /\ fst (DateUtils.get_market_analysis_timeframe E period w)
       = Return (DateUtils.date_range_label s m (clock E w)
                 ++ " (ISO: " ++ PyDate.strftime s
                 ++ " to " ++ PyDate.strftime (clock E w) ++ ")").
Proof.
  intros Hv Hy.
  destruct (period_start_first (dflt "recent" period) (clock E w) Hv)
    as (s & m & Hs & Hvs & Hds & Hback); [lia |].
  exists s, m. split; [exact Hs |].
  unfold DateUtils.get_market_analysis_timeframe, bind, now, lift, ret.
  rewrite Hs. cbv beta iota. cbn [fst].
  destruct (valid_ranges _ Hv) as (Hy' & Hm & Hd).
  destruct (valid_ranges _ Hvs) as (Hys & Hms & _).
  assert (Hlen : 1 <= period_length (dflt "recent" period) (clock E w) <= 12).
  { unfold period_length.
    repeat match goal with
           | |- context [if ?b then _ else _] => destruct b
           end; lia. }
  unfold months_back in Hback.
  assert (Hsy : 1000 <= PyDate.year s <= 9999) by lia.
  unfold DateUtils.start_iso_date, DateUtils.end_iso_date, PyDate.strftime.
  rewrite Z.min_r by lia.
  rewrite !year_needs_no_padding by lia.
  rewrite Hds. reflexivity.
Qed.

Lemma timeframe_iso_range_witness :
  result_of (DateUtils.get_market_analysis_timeframe env_2025_01_10 (Some "quarter"))
  = Return "2024年10月-2025年1月 (ISO: 2024-10-01 to 2025-01-10)".
Proof.
  destruct (timeframe_iso_range env_2025_01_10 (Some "quarter") [])
    as (s & m & Hs & Hr); [reflexivity | cbn; lia |].
  vm_compute in Hs. injection Hs as <- <-. exact Hr.
Defined.

(** ** Guards and filters of the discovery tools *)

(** X9. [search_stocks] refuses a keyword that is empty or holds only
    white space (that of Unicode included) before anything is asked of
    the data source.  Otherwise it fetches the stock list once; with no
    frame or an empty one it answers with the "no data" sentence and
    renders nothing; with data and a keyword that, trimmed, is written
    in ASCII, it hands the trimmed, lower-cased keyword to the pattern
    search of pandas and renders the frame that the search returns,
    with its row cap, which is 50 when no [limit] is given.  The
    pattern search is the collaborator [code_contains]: which rows it
    keeps is not stated here. *)
Theorem search_stocks_guards
    (E : env) (keyword : string) (date : option string)
    (limit : option Z) (format : option string) (w : world) :
  let run := MarketOverview.search_stocks E keyword date limit format w in
  let call := EvCall "get_all_stock" [("date", value_of_opt date)] in
  (PyStr.strip keyword = "" ->
     run = (Return "Error: 'keyword' is required (substring of code).", w))
  /\ (PyStr.strip keyword <> "" ->
      forall df,
        data_source E w "get_all_stock" [("date", value_of_opt date)] = Return df ->
        (MarketOverview.none_or_empty df = true ->
           run = (Return "(No data available to display)", (w ++ [call])%list))
        /\ (forall f matches,
              PyStr.is_ascii (PyStr.strip keyword) = true ->
              df = Some f -> Pandas.empty f = false ->
              code_contains E f (PyStr.lower (PyStr.strip keyword)) = Return matches ->
              exists m,
                snd run
                = (w ++ [call;
                         EvRender (Some matches) (dflt "markdown" format)
                           (dflt 50 limit) m])%list)).
Proof.
  cbv zeta.
  unfold MarketOverview.search_stocks, try_except. rewrite blank_is_not_truthy.
  split.
  - intros ->. reflexivity.
  - intros Hk df Hdf.
    destruct (PyStr.truthy (PyStr.strip keyword)) eqn:Ht;
      [| destruct (PyStr.strip keyword); [congruence | discriminate]].
    cbn [negb]. unfold bind, lift, ret, call_data_source, format_table_output.
    rewrite Hdf. cbv beta iota. split.
    + destruct df as [f|]; cbn [MarketOverview.none_or_empty];
        [intros ->; reflexivity | reflexivity].
    + intros f matches _ -> Hne Hm. rewrite Hne, Hm. cbv beta iota.
      eexists.
      match goal with
      | |- context [renderer E ?w' ?d ?f ?n ?m] => destruct (renderer E w' d f n m)
      end; cbn [snd]; rewrite <- app_assoc; reflexivity.
Qed.

Lemma search_stocks_guards_witness :
  MarketOverview.search_stocks env_stocks " 　" None None None []
  = (Return "Error: 'keyword' is required (substring of code).", [])
  /\ PyStr.is_ascii (PyStr.strip " SH.6　") = true
  /\ exists m,
       snd (MarketOverview.search_stocks env_stocks " SH.6　" None None None [])
       = [EvCall "get_all_stock" [("date", VNone)];
          EvRender (Some stock_list) "markdown" 50 m].
Proof.
  split.
  - apply (search_stocks_guards env_stocks " 　" None None None []). reflexivity.
  - split; [reflexivity |].
    destruct (search_stocks_guards env_stocks " SH.6　" None None None []) as [_ H].
    destruct (H ltac:(vm_compute; discriminate) (Some stock_list) eq_refl) as [_ H'].
    exact (H' stock_list stock_list eq_refl eq_refl eq_refl eq_refl).
Defined.

(** X10. On a stock list with rows, [get_suspensions] renders exactly
    the rows whose [tradeStatus] is ["0"], in their order, and reports
    their number as [total_suspended]; when the list has no
    [tradeStatus] column it says so and renders nothing. *)
Theorem get_suspensions_filters
    (E : env) (date : option string) (limit : option Z) (format : option string)
    (w : world) (f : DataFrame) :
  let run := MarketOverview.get_suspensions E date limit format w in
  let call := EvCall "get_all_stock" [("date", value_of_opt date)] in
  data_source E w "get_all_stock" [("date", value_of_opt date)] = Return (Some f) ->
  Pandas.empty f = false ->
  (Pandas.has_column f "tradeStatus" = false ->
     run = (Return "Error: 'tradeStatus' column not present in data source response.",
            (w ++ [call])%list))
  /\ (forall k, Pandas.index_of "tradeStatus" (Pandas.columns f) = Some k ->
        let suspended :=
          filter (fun r => String.eqb (Pandas.cell k r) "0") (Pandas.rows f) in
        snd run
        = (w ++ [call;
                 EvRender (Some (mkDF (Pandas.columns f) suspended))
                   (dflt "markdown" format) (dflt 250 limit)
                   [("as_of", VStr (PyStr.or_default date "current"));
                    ("total_suspended", VInt (Z.of_nat (List.length suspended)))]])%list).
Proof.
  cbv zeta. intros Hdf Hne.
  unfold MarketOverview.get_suspensions, try_except, bind, lift, ret,
    call_data_source, format_table_output.
  rewrite Hdf. cbv beta iota. rewrite Hne. split.
  - intros ->. reflexivity.
  - intros k Hk.
    assert (Hc : Pandas.has_column f "tradeStatus" = true).
    { unfold Pandas.has_column.
      destruct (existsb _ _) eqn:Hx; [reflexivity |].
      rewrite (index_of_absent _ _ Hx) in Hk. discriminate. }
    rewrite Hc. cbn [negb].
    unfold Pandas.where_eq, Pandas.locate. rewrite Hk. cbv beta iota.
    unfold Pandas.select, Pandas.nrows. cbn [Pandas.rows Pandas.columns].
    match goal with
    | |- context [renderer E ?w' ?d ?f ?n ?m] => destruct (renderer E w' d f n m)
    end; cbn [snd]; rewrite <- app_assoc; reflexivity.
Qed.

Lemma get_suspensions_filters_witness :
  snd (MarketOverview.get_suspensions env_stocks None None None [])
  = [EvCall "get_all_stock" [("date", VNone)];
     EvRender (Some (mkDF ["code"; "tradeStatus"; "code_name"]
                          [["sh.600004"; "0"; "白云机场"]]))
       "markdown" 250
       [("as_of", VStr "current"); ("total_suspended", VInt 1)]].
Proof.
  destruct (get_suspensions_filters env_stocks None None None [] stock_list
              eq_refl eq_refl) as [_ H].
  exact (H 1%nat eq_refl).
Defined.

(** X11. [get_index_constituents] reads its index name trimmed (of
    the white space of Unicode) and without regard to case.  A name
    other than [hs300], [sz50] and [zz500] is refused before anything
    is asked of the data source; for one of the three, the operation of
    that index, and only it, is called once.  (Python lowers no
    character outside ASCII to a letter of these names, so that
    [PyStr.lower], which is exact on ASCII, decides as the code
    does.) *)
Theorem get_index_constituents_dispatch
    (E : env) (index : string) (date : option string)
    (limit : option Z) (format : option string) (w : world) :
  let run := Indices.get_index_constituents E index date limit format w in
  let key := PyStr.lower (PyStr.strip index) in
  (key <> "hs300" -> key <> "sz50" -> key <> "zz500" ->
     run = (Return "Error: Invalid index. Valid options are 'hs300', 'sz50', 'zz500'.", w))
  /\ (key = "hs300" \/ key = "sz50" \/ key = "zz500" ->
      exists rest,
        snd run = (w ++ EvCall (index_method key) [("date", value_of_opt date)] :: rest)%list
        /\ Forall no_call rest).
Proof.
  cbv zeta.
  unfold Indices.get_index_constituents, try_except, bind, ret,
    call_data_source, format_table_output.
  set (key := PyStr.lower (PyStr.strip index)). split.
  - intros H1 H2 H3. cbn [existsb].
    rewrite (proj2 (String.eqb_neq _ _) H1), (proj2 (String.eqb_neq _ _) H2),
      (proj2 (String.eqb_neq _ _) H3). reflexivity.
  - intros [ Hk | [ Hk | Hk ] ]; rewrite Hk; clear Hk key;
      cbn [existsb negb orb String.eqb Ascii.eqb Bool.eqb andb]; cbv beta iota;
      change (index_method "hs300") with "get_hs300_stocks";
      change (index_method "sz50") with "get_sz50_stocks";
      change (index_method "zz500") with "get_zz500_stocks";
      match goal with
      | |- context [data_source E ?w' ?op ?kw] =>
          destruct (data_source E w' op kw) as [df|e]
      end;
      try match goal with
        | |- context [renderer E ?w' ?d ?f ?n ?m] => destruct (renderer E w' d f n m)
        end; cbn [snd];
      eexists; (split; [rewrite <- ?app_assoc; reflexivity | repeat constructor]).
Qed.

Lemma get_index_constituents_dispatch_witness :
  Indices.get_index_constituents env_stocks "csi300" None None None []
  = (Return "Error: Invalid index. Valid options are 'hs300', 'sz50', 'zz500'.", [])
  /\ exists rest,
       snd (Indices.get_index_constituents env_stocks " HS300 " None None None [])
       = EvCall "get_hs300_stocks" [("date", VNone)] :: rest
       /\ Forall no_call rest.
Proof.
  split.
  - apply (get_index_constituents_dispatch env_stocks "csi300" None None None []);
      vm_compute; discriminate.
  - apply (get_index_constituents_dispatch env_stocks " HS300 " None None None []).
    left. reflexivity.
Defined.



(** ** The AKShare source: errors, results, provider calls *)

Lemma reraise_is_classified {A} (m : M A) (prefix : string) (w : world) (e : exc) :
  fst (try_except m (AKShareETFDataSource.reraise_not_found prefix) w) = Raise e ->
  isinstance e DataSourceError = true.
Proof.
  unfold try_except, AKShareETFDataSource.reraise_not_found, raise.
  destruct (m w) as [[a|e'] w']; cbn [fst]; [discriminate |].
  destruct (isinstance e' NoDataFoundError) eqn:Hn; cbn [fst]; intros [= <-].
  - unfold isinstance in *. destruct (exc_cls e'); try discriminate; reflexivity.
  - reflexivity.
Qed.

Lemma reraise_or_value_is_classified {A} (m : M A) (prefix : string)
    (w : world) (e : exc) :
  fst (try_except m (AKShareETFDataSource.reraise_not_found_or_value prefix) w)
  = Raise e ->
  isinstance e DataSourceError = true \/ exc_cls e = ValueError.
Proof.
  unfold try_except, AKShareETFDataSource.reraise_not_found_or_value, raise.
  destruct (m w) as [[a|e'] w']; cbn [fst]; [discriminate |].
  destruct (isinstance e' NoDataFoundError) eqn:Hn; cbn [fst].
  - intros [= <-]. left.
    unfold isinstance in *. destruct (exc_cls e'); try discriminate; reflexivity.
  - destruct (isinstance e' ValueError) eqn:Hv; cbn [fst]; intros [= <-].
    + right. unfold isinstance in Hv. destruct (exc_cls e'); try discriminate; reflexivity.
    + left. reflexivity.
Qed.

(** X13. Whatever [akshare] raises, an exception that leaves the AKShare
    source is classified: a [DataSourceError] (maybe its subclass
    [NoDataFoundError]) from [get_etf_basic_info], [get_etf_holdings]
    and [get_etf_net_value], that or a [ValueError] from
    [get_etf_historical_data] and [get_etf_list], and a plain
    [DataSourceError] from [get_etf_analysis]. *)
Theorem akshare_errors_are_classified (E : env) (w : world) (e : exc) :
  (forall code,
     fst (AKShareETFDataSource.get_etf_basic_info E code w) = Raise e ->
     isinstance e DataSourceError = true)
  /\ (forall code date,
        fst (AKShareETFDataSource.get_etf_holdings E code date w) = Raise e ->
        isinstance e DataSourceError = true)
  /\ (forall code s d,
        fst (AKShareETFDataSource.get_etf_net_value E code s d w) = Raise e ->
        isinstance e DataSourceError = true)
  /\ (forall code s d frequency,
        fst (AKShareETFDataSource.get_etf_historical_data E code s d frequency w)
        = Raise e ->
        isinstance e DataSourceError = true \/ exc_cls e = ValueError)
  /\ (forall market,
        fst (AKShareETFDataSource.get_etf_list E market w) = Raise e ->
        isinstance e DataSourceError = true \/ exc_cls e = ValueError)
  /\ (forall code,
        fst (AKShareETFDataSource.get_etf_analysis E code w) = Raise e ->
        exc_cls e = DataSourceError).
Proof.
  repeat split.
  - intros code. apply reraise_is_classified.
  - intros code date. apply reraise_is_classified.
  - intros code s d. apply reraise_is_classified.
  - intros code s d frequency. apply reraise_or_value_is_classified.
  - intros market. apply reraise_or_value_is_classified.
  - intros code. unfold AKShareETFDataSource.get_etf_analysis, try_except, raise.
    match goal with
    | |- context [match ?m w with _ => _ end] => destruct (m w) as [[a|e'] w']
    end; cbn [fst]; [discriminate | intros [= <-]; reflexivity].
Qed.

Lemma akshare_errors_are_classified_witness :
  fst (AKShareETFDataSource.get_etf_basic_info env_unreachable "510300" [])
  = Raise (mkExc DataSourceError "获取ETF基本信息失败: timed out")
  /\ isinstance (mkExc DataSourceError "获取ETF基本信息失败: timed out")
       DataSourceError = true.
Proof.
  split; [reflexivity |].
  destruct (akshare_errors_are_classified env_unreachable []
              (mkExc DataSourceError "获取ETF基本信息失败: timed out")) as [H _].
  exact (H "510300" eq_refl).
Defined.

(** X14. When [get_etf_basic_info] returns, the frame holds exactly the
    rows of the spot table whose [代码] is the code asked for, in their
    order, and there is at least one; the spot table was fetched
    once. *)
Theorem basic_info_is_the_rows_of_the_code
    (E : env) (code : string) (w w' : world) (f : DataFrame) :
  AKShareETFDataSource.get_etf_basic_info E code w = (Return f, w') ->
  exists table k,
    akshare E w "fund_etf_spot_em" [] = Return table
    /\ Pandas.index_of "代码" (Pandas.columns table) = Some k
    /\ f = mkDF (Pandas.columns table)
                (filter (fun r => String.eqb (Pandas.cell k r) code) (Pandas.rows table))
    /\ Pandas.rows f <> []
    /\ w' = (w ++ [spot_call])%list.
Proof.
  unfold AKShareETFDataSource.get_etf_basic_info, try_except, bind,
    call_akshare, lift, ret, raise, AKShareETFDataSource.reraise_not_found.
  destruct (akshare E w "fund_etf_spot_em" []) as [table|e] eqn:Ha; cbv beta iota.
  - unfold Pandas.where_eq, Pandas.locate.
    destruct (Pandas.index_of "代码" (Pandas.columns table)) as [k|] eqn:Hk;
      cbv beta iota.
    + destruct (Pandas.empty _) eqn:He; cbv beta iota.
      * destruct (isinstance _ _); discriminate.
      * intros [= <- <-]. exists table, k.
        split; [reflexivity |]. split; [exact Hk |]. split; [reflexivity |].
        split; [exact (proj2 (empty_false _ He)) | reflexivity].
    + destruct (isinstance _ _); discriminate.
  - destruct (isinstance _ _); discriminate.
Qed.

Lemma basic_info_is_the_rows_of_the_code_witness :
  exists table k,
    akshare env_with_holdings [] "fund_etf_spot_em" [] = Return table
    /\ Pandas.index_of "代码" (Pandas.columns table) = Some k
    /\ mkDF ["代码"; "名称"; "最新价"; "涨跌幅"; "成交量"]
            [["159919"; "300ETF"; "4.102"; "-0.31"; "7654321"]]
       = mkDF (Pandas.columns table)
              (filter (fun r => String.eqb (Pandas.cell k r) "159919")
                      (Pandas.rows table)).
Proof.
  destruct (basic_info_is_the_rows_of_the_code env_with_holdings "159919" []
              [spot_call]
              (mkDF ["代码"; "名称"; "最新价"; "涨跌幅"; "成交量"]
                    [["159919"; "300ETF"; "4.102"; "-0.31"; "7654321"]])
              eq_refl) as (table & k & H1 & H2 & H3 & _).
  exists table, k. auto.
Defined.

(** X15. No operation of the AKShare source returns an empty frame: a
    table that comes back without rows (or without columns) is always
    turned into [NoDataFoundError]. *)
Theorem akshare_results_have_rows (E : env) (w : world) (f : DataFrame) :
  (forall code, fst (AKShareETFDataSource.get_etf_basic_info E code w) = Return f ->
                Pandas.empty f = false)
  /\ (forall code date,
        fst (AKShareETFDataSource.get_etf_holdings E code date w) = Return f ->
        Pandas.empty f = false)
  /\ (forall code s d,
        fst (AKShareETFDataSource.get_etf_net_value E code s d w) = Return f ->
        Pandas.empty f = false)
  /\ (forall code s d frequency,
        fst (AKShareETFDataSource.get_etf_historical_data E code s d frequency w)
        = Return f ->
        Pandas.empty f = false)
  /\ (forall market,
        fst (AKShareETFDataSource.get_etf_list E market w) = Return f ->
        Pandas.empty f = false).
Proof.
  assert (G : forall (m : M DataFrame) (msg : string) (h : exc -> M DataFrame),
             (forall e w0, exists e', h e w0 = (Raise e', w0)) ->
             fst (try_except
                    (data <- m ;;
                     if Pandas.empty data then raise (mkExc NoDataFoundError msg)
                     else ret data) h w) = Return f ->
             Pandas.empty f = false).
  { intros m msg h Hh. unfold try_except, bind, raise, ret.
    destruct (m w) as [[data|e] w1].
    - destruct (Pandas.empty data) eqn:He.
      + destruct (Hh (mkExc NoDataFoundError msg) w1) as [e' ->]. discriminate.
      + cbn [fst]. intros [= <-]. exact He.
    - destruct (Hh e w1) as [e' ->]. discriminate. }
  assert (H1 : forall prefix e w0, exists e',
             @AKShareETFDataSource.reraise_not_found DataFrame prefix e w0
             = (Raise e', w0)).
  { intros. unfold AKShareETFDataSource.reraise_not_found, raise.
    destruct (isinstance _ _); eauto. }
  assert (H2 : forall prefix e w0, exists e',
             @AKShareETFDataSource.reraise_not_found_or_value DataFrame prefix e w0
             = (Raise e', w0)).
  { intros. unfold AKShareETFDataSource.reraise_not_found_or_value, raise.
    destruct (isinstance _ _); [eauto |]. destruct (isinstance _ _); eauto. }
  repeat split.
  - intros code Hr.
    destruct (AKShareETFDataSource.get_etf_basic_info E code w) as [o w'] eqn:Hg.
    cbn [fst] in Hr. subst o. exact (basic_info_has_a_record _ _ _ _ _ Hg).
  - intros code date. apply G. apply H1.
  - intros code s d. apply G. apply H1.
  - intros code s d frequency. apply G. apply H2.
  - intros market. apply G. apply H2.
Qed.

Lemma akshare_results_have_rows_witness :
  fst (AKShareETFDataSource.get_etf_holdings env_with_holdings "510300" None [])
  = Return (mkDF ["股票代码"; "持仓占比"] [["600519"; "5.1"]])
  /\ Pandas.empty (mkDF ["股票代码"; "持仓占比"] [["600519"; "5.1"]]) = false.
Proof.
  split; [reflexivity |].
  destruct (akshare_results_have_rows env_with_holdings []
              (mkDF ["股票代码"; "持仓占比"] [["600519"; "5.1"]])) as (_ & H & _).
  exact (H "510300" None eq_refl).
Defined.

(** The one provider call of a history fetch with a valid frequency. *)
Lemma historical_trace
    (E : env) (code s d : string) (frequency : option string) (p : string)
    (w : world) :
  period_of (dflt "d" frequency) = Some p ->
  snd (AKShareETFDataSource.get_etf_historical_data E code s d frequency w)
  = (w ++ [hist_call code p s d])%list.
Proof.
  unfold AKShareETFDataSource.get_etf_historical_data, period_of, try_except,
    bind, AKShareETFDataSource.hist_em, call_akshare, raise, ret,
    AKShareETFDataSource.reraise_not_found_or_value, hist_call.
  destruct (String.eqb (dflt "d" frequency) "d");
    [| destruct (String.eqb (dflt "d" frequency) "w");
       [| destruct (String.eqb (dflt "d" frequency) "m"); [| discriminate]]];
    intros [= <-];
    match goal with
    | |- context [akshare E w ?op ?kw] => destruct (akshare E w op kw) as [t|e]
    end;
    try (destruct (Pandas.empty t));
    repeat match goal with
      | |- context [if ?b then _ else _] => destruct b
      end; reflexivity.
Qed.

(** X16. [get_etf_historical_data] of the AKShare source maps the
    frequency [d], [w], [m] (default [d]) to one provider call for the
    period [daily], [weekly], [monthly]; every other frequency raises
    [ValueError] and the provider is not called. *)
Theorem historical_frequency_selects_period
    (E : env) (code s d : string) (frequency : option string) (w : world) :
  let f := dflt "d" frequency in
  let run := AKShareETFDataSource.get_etf_historical_data E code s d frequency w in
  match period_of f with
  | Some p => snd run = (w ++ [hist_call code p s d])%list
  | None => run = (Raise (mkExc ValueError ("不支持的频率: " ++ f)), w)
  end.
Proof.
  cbv zeta. destruct (period_of (dflt "d" frequency)) as [p|] eqn:Hp.
  - now apply historical_trace.
  - unfold AKShareETFDataSource.get_etf_historical_data, try_except,
      bind, raise, AKShareETFDataSource.reraise_not_found_or_value.
    unfold period_of in Hp.
    destruct (String.eqb (dflt "d" frequency) "d"); [discriminate |].
    destruct (String.eqb (dflt "d" frequency) "w"); [discriminate |].
    destruct (String.eqb (dflt "d" frequency) "m"); [discriminate |].
    reflexivity.
Qed.

(** X17. [get_etf_list] of the AKShare source: the markets are [all]
    (default), [sh] and [sz]; any other raises [ValueError] without a
    provider call.  A returned list is non-empty and is the spot table
    itself for [all], its rows whose [代码] starts with [51] for [sh]
    and with [15] for [sz], in the order of the table. *)
Theorem get_etf_list_filters_by_market
    (E : env) (market : option string) (w : world) :
  let m := dflt "all" market in
  let run := AKShareETFDataSource.get_etf_list E market w in
  (m <> "all" -> market_prefix m = None ->
     run = (Raise (mkExc ValueError ("不支持的市场: " ++ m)), w))
  /\ (forall f, fst run = Return f ->
        exists table,
          akshare E w "fund_etf_spot_em" [] = Return table
          /\ snd run = (w ++ [spot_call])%list
          /\ Pandas.rows f <> []
          /\ match market_prefix m with
             | Some p =>
                 exists k,
                   Pandas.index_of "代码" (Pandas.columns table) = Some k
                   /\ f = mkDF (Pandas.columns table)
                            (filter (fun r => String.prefix p (Pandas.cell k r))
                                    (Pandas.rows table))
             | None => f = table
             end).
Proof.
  cbv zeta.
  unfold AKShareETFDataSource.get_etf_list, AKShareETFDataSource.spot_of_market,
    market_prefix, try_except, bind, call_akshare, lift, raise, ret,
    AKShareETFDataSource.reraise_not_found_or_value, spot_call,
    Pandas.where_startswith, Pandas.locate, PyStr.startswith.
  set (m := dflt "all" market).
  destruct (String.eqb_spec m "all") as [Hall|Hall].
  - split; [intro H; now elim H |].
    rewrite Hall. cbn [String.eqb Ascii.eqb Bool.eqb]. cbv beta iota.
    intros f.
    destruct (akshare E w "fund_etf_spot_em" []) as [table|e]; cbv beta iota.
    + destruct (Pandas.empty table) eqn:He; cbn [fst snd]; [discriminate |].
      intros [= <-]. exists table.
      split; [reflexivity |]. split; [reflexivity |].
      split; [exact (proj2 (empty_false _ He)) | reflexivity].
    + destruct (isinstance e NoDataFoundError); [discriminate |].
      destruct (isinstance e ValueError); discriminate.
  - destruct (String.eqb m "sh"); [| destruct (String.eqb m "sz")].
    3: { split; [intros _ _; reflexivity | intros f; discriminate]. }
    all: split; [intros _; discriminate |]; intros f;
      destruct (akshare E w "fund_etf_spot_em" []) as [table|e]; cbv beta iota;
      [ destruct (Pandas.index_of "代码" (Pandas.columns table)) as [k|] eqn:Hk;
        cbv beta iota;
        [ match goal with
          | |- context [Pandas.empty ?x] => destruct (Pandas.empty x) eqn:He
          end; cbn [fst snd]; [discriminate |];
          intros [= <-]; exists table;
          split; [reflexivity |]; split; [reflexivity |];
          split; [exact (proj2 (empty_false _ He)) |];
          exists k; split; [exact Hk | reflexivity]
        | cbn [fst]; discriminate ]
      | destruct (isinstance e NoDataFoundError); [discriminate |];
        destruct (isinstance e ValueError); discriminate ].
Qed.

Lemma get_etf_list_filters_by_market_witness :
  AKShareETFDataSource.get_etf_list env_with_holdings (Some "hk") []
  = (Raise (mkExc ValueError "不支持的市场: hk"), [])
  /\ exists table,
       akshare env_with_holdings [] "fund_etf_spot_em" [] = Return table
       /\ exists k,
            Pandas.index_of "代码" (Pandas.columns table) = Some k
            /\ mkDF ["代码"; "名称"; "最新价"; "涨跌幅"; "成交量"]
                    [["159919"; "300ETF"; "4.102"; "-0.31"; "7654321"]]
               = mkDF (Pandas.columns table)
                      (filter (fun r => String.prefix "15" (Pandas.cell k r))
                              (Pandas.rows table)).
Proof.
  split.
  - apply (get_etf_list_filters_by_market env_with_holdings (Some "hk") []);
      [discriminate | reflexivity].
  - destruct (proj2 (get_etf_list_filters_by_market env_with_holdings (Some "sz") [])
                _ eq_refl) as (table & Ha & _ & _ & Hm).
    exists table. split; [exact Ha | exact Hm].
Defined.

(** X18. [get_etf_net_value] is the daily price history under another
    name: it makes the provider call of [get_etf_historical_data] with
    the default frequency and returns a frame exactly when that one
    does, the same frame. *)
Theorem net_value_is_daily_history
    (E : env) (code s d : string) (w : world) :
  let nv := AKShareETFDataSource.get_etf_net_value E code s d w in
  let hist := AKShareETFDataSource.get_etf_historical_data E code s d None w in
  snd nv = (w ++ [hist_call code "daily" s d])%list
  /\ snd hist = snd nv
  /\ (forall f, fst nv = Return f <-> fst hist = Return f)
  /\ (forall e, fst nv = Raise e -> exists e', fst hist = Raise e').
Proof.
  cbv zeta.
  unfold AKShareETFDataSource.get_etf_net_value,
    AKShareETFDataSource.get_etf_historical_data, try_except,
    bind, AKShareETFDataSource.hist_em, call_akshare, raise, ret,
    AKShareETFDataSource.reraise_not_found,
    AKShareETFDataSource.reraise_not_found_or_value, hist_call.
  cbn [dflt String.eqb Ascii.eqb Bool.eqb]. cbv beta iota.
  match goal with
  | |- context [akshare E w ?op ?kw] => destruct (akshare E w op kw) as [t|e0]
  end.
  - destruct (Pandas.empty t); cbn [fst snd];
      repeat split; intros; try discriminate; try assumption;
      try (eexists; reflexivity).
  - destruct (isinstance e0 NoDataFoundError); cbn [fst snd];
      [| destruct (isinstance e0 ValueError); cbn [fst snd]];
      repeat split; intros; try discriminate; try assumption;
      try (eexists; reflexivity).
Qed.

Lemma net_value_is_daily_history_witness :
  fst (AKShareETFDataSource.get_etf_net_value env_with_holdings
         "510300" "20241211" "20250110" []) = Return history_table
  /\ fst (AKShareETFDataSource.get_etf_historical_data env_with_holdings
            "510300" "20241211" "20250110" None []) = Return history_table.
Proof.
  split; [reflexivity |].
  apply (net_value_is_daily_history env_with_holdings "510300" "20241211" "20250110" []).
  reflexivity.
Defined.

Lemma basic_info_trace (E : env) (code : string) (w : world) :
  snd (AKShareETFDataSource.get_etf_basic_info E code w) = (w ++ [spot_call])%list.
Proof.
  unfold AKShareETFDataSource.get_etf_basic_info, try_except, bind,
    call_akshare, lift, ret, raise, AKShareETFDataSource.reraise_not_found,
    spot_call.
  destruct (akshare E w "fund_etf_spot_em" []) as [table|e]; cbv beta iota.
  - destruct (Pandas.where_eq table "代码" code) as [data|e]; cbv beta iota.
    + destruct (Pandas.empty data); cbv beta iota;
        [destruct (isinstance _ _) |]; reflexivity.
    + destruct (isinstance _ _); reflexivity.
  - destruct (isinstance _ _); reflexivity.
Qed.

Lemma holdings_trace (E : env) (code : string) (date : option string) (w : world) :
  snd (AKShareETFDataSource.get_etf_holdings E code date w)
  = (w ++ [holdings_call code])%list.
Proof.
  unfold AKShareETFDataSource.get_etf_holdings, try_except, bind,
    call_akshare, lift, ret, raise, AKShareETFDataSource.reraise_not_found,
    holdings_call.
  match goal with
  | |- context [akshare E w ?op ?kw] => destruct (akshare E w op kw) as [t|e]
  end; cbv beta iota.
  - destruct (Pandas.empty t); cbv beta iota;
      [destruct (isinstance _ _) |]; reflexivity.
  - destruct (isinstance _ _); reflexivity.
Qed.

(** X19. [get_etf_analysis] of the AKShare source asks the provider, in
    this order, for the spot table, for the daily history of the thirty
    days that end today, and for the holdings; it stops at the first
    step that fails, so nothing is fetched after a failure. *)
Theorem analysis_fetches_in_order (E : env) (code : string) (w : world) :
  let run := AKShareETFDataSource.get_etf_analysis E code w in
  let w1 := (w ++ [spot_call])%list in
  let w2 := (w1 ++ [EvNow; EvNow])%list in
  match fst (AKShareETFDataSource.get_etf_basic_info E code w) with
  | Raise _ => snd run = w1
  | Return _ =>
      match PyDate.add_days (clock E (w1 ++ [EvNow])%list) (-30) with
      | Raise _ => snd run = w2
      | Return start =>
          let first_day := PyDate.strftime start in
          let last_day := PyDate.strftime (clock E w1) in
          let history := hist_call code "daily" first_day last_day in
          match fst (AKShareETFDataSource.get_etf_historical_data E code
                       first_day last_day None w2) with
          | Raise _ => snd run = (w2 ++ [history])%list
          | Return _ => snd run = (w2 ++ [history; holdings_call code])%list
          end
      end
  end.
Proof.
  cbv zeta. rewrite get_etf_analysis_steps.
  pose proof (basic_info_trace E code w) as Hb.
  destruct (AKShareETFDataSource.get_etf_basic_info E code w) as [[b|e] w1].
  2: { exact Hb. }
  cbn [fst snd] in *. subst w1. cbv zeta.
  destruct (PyDate.add_days _ _) as [start|e]; [| reflexivity].
  pose proof (historical_trace E code (PyDate.strftime start)
                (PyDate.strftime (clock E (w ++ [spot_call])%list)) None "daily"
                ((w ++ [spot_call]) ++ [EvNow; EvNow])%list eq_refl) as Hh.
  destruct (AKShareETFDataSource.get_etf_historical_data E code _ _ None _)
    as [[p|e] w3]; cbn [fst snd] in *; subst w3; [| reflexivity].
  pose proof (holdings_trace E code None
                (((w ++ [spot_call]) ++ [EvNow; EvNow]) ++
                 [hist_call code "daily" (PyDate.strftime start)
                    (PyDate.strftime (clock E (w ++ [spot_call])%list))])%list) as Ho.
  destruct (AKShareETFDataSource.get_etf_holdings E code None _) as [[h|e] w4];
    cbn [fst snd] in *; subst w4; rewrite <- app_assoc; reflexivity.
Qed.

Lemma fetch_each_trace (E : env) (codes : list string)
    (etf_data : list (string * option DataFrame)) (w : world) :
  snd (EtfAnalysis.fetch_each (active_etf_data_source := AKShareETFDataSource.source E)
         codes etf_data w)
  = (w ++ repeat spot_call (List.length codes))%list.
Proof.
  revert etf_data w. induction codes as [|c r IH]; intros etf_data w.
  - cbn. now rewrite app_nil_r.
  - cbn [EtfAnalysis.fetch_each List.length repeat].
    unfold bind at 1. unfold try_except at 1. unfold bind at 1.
    cbn [get_etf_basic_info AKShareETFDataSource.source].
    pose proof (basic_info_trace E c w) as Hb.
    destruct (AKShareETFDataSource.get_etf_basic_info E c w) as [[b|e] w1];
      cbn [fst snd] in Hb; subst w1; unfold ret at 1; cbv beta iota;
      rewrite IH, <- app_assoc; reflexivity.
Qed.

(** X20. [compare_etfs] over the AKShare source downloads the whole spot
    table once for every listed code (a code listed twice is fetched
    twice), and touches nothing else. *)
Theorem compare_etfs_one_fetch_per_code
    (E : env) (etf_codes : string) (comparison_type : option string) (w : world) :
  let codes := map PyStr.strip (PyStr.split "," etf_codes) in
  (2 <= List.length codes)%nat ->
  snd (EtfAnalysis.compare_etfs (active_etf_data_source := AKShareETFDataSource.source E)
         etf_codes comparison_type w)
  = (w ++ repeat spot_call (List.length codes))%list.
Proof.
  cbv zeta. intro Hlen. unfold EtfAnalysis.compare_etfs, try_except.
  set (codes := map PyStr.strip (PyStr.split "," etf_codes)) in *.
  destruct (Z.ltb_spec (Z.of_nat (List.length codes)) 2) as [Hlt|Hge]; [lia |].
  unfold bind at 1.
  pose proof (fetch_each_trace E codes [] w) as Ht.
  destruct (EtfAnalysis.fetch_each codes [] w) as [[etf_data|e] w1];
    cbn [snd] in Ht; subst w1.
  - unfold bind, lift, ret. destruct (EtfAnalysis.table_rows _ _); reflexivity.
  - reflexivity.
Qed.

Lemma compare_etfs_one_fetch_per_code_witness :
  snd (EtfAnalysis.compare_etfs
         (active_etf_data_source := AKShareETFDataSource.source env_with_holdings)
         "510300, 159919 ,510300" None [])
  = [spot_call; spot_call; spot_call].
Proof.
  apply (compare_etfs_one_fetch_per_code env_with_holdings
           "510300, 159919 ,510300" None []).
  vm_compute. lia.
Defined.

(** ** The ETF tools over the AKShare source *)

(** X21. The tool [get_etf_historical_data] checks the frequency before
    it asks anything: for a frequency other than [d], [w], [m] it
    answers with the list of valid options and the source is not
    called; otherwise the provider is called once, for the period that
    belongs to the frequency, and the tool answers with a string. *)
Theorem etf_history_tool_checks_frequency
    (E : md_env) (code s d : string) (frequency : option string) (w : world) :
  let f := dflt "d" frequency in
  let run :=
    EtfMarket.get_etf_historical_data E
      (active_etf_data_source := AKShareETFDataSource.source E)
      code s d frequency w in
  match period_of f with
  | None =>
      run = (Return ("错误: 无效的频率 '" ++ f ++ "'. 有效选项: ['d', 'w', 'm']"), w)
  | Some p =>
      snd run = (w ++ [hist_call code p s d])%list
      /\ exists text, fst run = Return text
  end.
Proof.
  cbv zeta. unfold EtfMarket.get_etf_historical_data, EtfMarket.valid_freqs.
  cbn [existsb get_etf_historical_data AKShareETFDataSource.source].
  pose proof (fun p => historical_trace E code s d
                         (Some (dflt "d" frequency)) p w) as Hh.
  cbn [dflt] in Hh. fold (dflt "d" frequency) in Hh.
  set (f := dflt "d" frequency) in *.
  destruct (period_of f) as [p|] eqn:Hp.
  - specialize (Hh p eq_refl).
    assert (Hvalid : negb (String.eqb f "d" || (String.eqb f "w"
                                                || (String.eqb f "m" || false)))
                     = false).
    { unfold period_of in Hp.
      destruct (String.eqb f "d"); [reflexivity |].
      destruct (String.eqb f "w"); [reflexivity |].
      destruct (String.eqb f "m"); [reflexivity | discriminate]. }
    rewrite Hvalid.
    unfold try_except, bind, format_df_to_markdown, lift, ret.
    destruct (AKShareETFDataSource.get_etf_historical_data E code s d (Some f) w)
      as [[df|e] w1]; cbn [snd] in Hh; subst w1;
      [ destruct (markdown_of E df); (split; [reflexivity | eexists; reflexivity])
      | split; [reflexivity | eexists; reflexivity] ].
  - unfold period_of in Hp.
    destruct (String.eqb f "d"); [discriminate |].
    destruct (String.eqb f "w"); [discriminate |].
    destruct (String.eqb f "m"); [discriminate |].
    reflexivity.
Qed.

(** X22. The tool [get_etf_basic_info] over the AKShare source asks for
    the spot table once.  A provider failure, whatever its class short
    of [NoDataFoundError] (also a [LoginError]), is answered with the
    data-source text around the source's own prefix; a table without a
    row for the code with the plain not-found text; otherwise the rows
    of the code are rendered. *)
Theorem etf_basic_info_tool_answers (E : md_env) (code : string) (w : world) :
  let run :=
    EtfMarket.get_etf_basic_info E
      (active_etf_data_source := AKShareETFDataSource.source E) code w in
  snd run = (w ++ [spot_call])%list
  /\ (forall e, akshare E w "fund_etf_spot_em" [] = Raise e ->
        isinstance e NoDataFoundError = false ->
        fst run = Return ("错误: 获取数据时发生错误. 获取ETF基本信息失败: " ++ exc_msg e))
  /\ (forall table k,
        akshare E w "fund_etf_spot_em" [] = Return table ->
        Pandas.index_of "代码" (Pandas.columns table) = Some k ->
        let data := Pandas.select table (fun r => String.eqb (Pandas.cell k r) code) in
        fst run = if Pandas.empty data
                  then Return ("错误: 未找到ETF代码 " ++ code ++ " 的基本信息")
                  else rendered E data).
Proof.
  cbv zeta. unfold EtfMarket.get_etf_basic_info.
  cbn [get_etf_basic_info AKShareETFDataSource.source].
  unfold try_except at 1. unfold bind at 1.
  pose proof (basic_info_trace E code w) as Ht.
  unfold AKShareETFDataSource.get_etf_basic_info, try_except, bind,
    call_akshare, lift, ret, raise, AKShareETFDataSource.reraise_not_found,
    Pandas.where_eq, Pandas.locate, format_df_to_markdown, rendered in *.
  destruct (akshare E w "fund_etf_spot_em" []) as [table|e]; cbv beta iota in *.
  - destruct (Pandas.index_of "代码" (Pandas.columns table)) as [k|] eqn:Hk;
      cbv beta iota in *.
    + destruct (Pandas.empty _) eqn:He; cbv beta iota in *.
      * cbn in Ht |- *. split; [exact Ht |]. split; [discriminate |].
        intros table' k' [= <-] Hk'. rewrite Hk in Hk'. injection Hk' as <-.
        rewrite He. reflexivity.
      * cbn [fst snd] in Ht |- *. subst.
        split; [destruct (markdown_of E _); reflexivity |].
        split; [discriminate |].
        intros table' k' [= <-] Hk'. rewrite Hk in Hk'. injection Hk' as <-.
        rewrite He. destruct (markdown_of E _); reflexivity.
    + cbn in Ht |- *. split; [exact Ht |]. split; [discriminate |].
      intros table' k' [= <-] Hk'. congruence.
  - destruct (isinstance e NoDataFoundError) eqn:Hn; cbn [fst snd] in Ht |- *.
    + split; [exact Ht |]. split; [| discriminate].
      intros e' [= <-]. congruence.
    + split; [exact Ht |]. split; [| discriminate].
      intros e' [= <-] _. reflexivity.
Qed.

Lemma etf_basic_info_tool_answers_witness :
  fst (EtfMarket.get_etf_basic_info (with_count_renderer env_unreachable)
         (active_etf_data_source := AKShareETFDataSource.source env_unreachable)
         "510300" [])
  = Return "错误: 获取数据时发生错误. 获取ETF基本信息失败: timed out"
  /\ fst (EtfMarket.get_etf_basic_info (with_count_renderer env_with_holdings)
            (active_etf_data_source := AKShareETFDataSource.source env_with_holdings)
            "000000" [])
     = Return "错误: 未找到ETF代码 000000 的基本信息".
Proof.
  split.
  - exact (proj1 (proj2 (etf_basic_info_tool_answers
                           (with_count_renderer env_unreachable) "510300" []))
             (mkExc ExceptionCls "timed out") eq_refl eq_refl).
  - exact (proj2 (proj2 (etf_basic_info_tool_answers
                           (with_count_renderer env_with_holdings) "000000" []))
             spot_table 0%nat eq_refl eq_refl).
Defined.

(** X23. The tool [get_etf_holdings] over the AKShare source asks the
    provider for the holdings of the code once and never passes the
    date on: the answer is the same for every [date].  An empty
    holdings table gives the not-found text, a provider failure the
    data-source text, a table with rows its rendering. *)
Theorem etf_holdings_tool_answers
    (E : md_env) (code : string) (date : option string) (w : world) :
  let tool :=
    EtfHoldings.get_etf_holdings E
      (active_etf_data_source := AKShareETFDataSource.source E) code in
  (forall date', tool date w = tool date' w)
  /\ snd (tool date w) = (w ++ [holdings_call code])%list
  /\ (forall e, akshare E w "fund_etf_holdings_em" [("symbol", VStr code)] = Raise e ->
        isinstance e NoDataFoundError = false ->
        fst (tool date w)
        = Return ("错误: 获取数据时发生错误. 获取ETF持仓明细失败: " ++ exc_msg e))
  /\ (forall table,
        akshare E w "fund_etf_holdings_em" [("symbol", VStr code)] = Return table ->
        fst (tool date w)
        = if Pandas.empty table
          then Return ("错误: 未找到ETF " ++ code ++ " 的持仓明细")
          else rendered E table).
Proof.
  cbv zeta. split; [reflexivity |].
  unfold EtfHoldings.get_etf_holdings.
  cbn [get_etf_holdings AKShareETFDataSource.source].
  unfold AKShareETFDataSource.get_etf_holdings, try_except, bind,
    call_akshare, lift, ret, raise, AKShareETFDataSource.reraise_not_found,
    format_df_to_markdown, rendered, holdings_call.
  destruct (akshare E w "fund_etf_holdings_em" [("symbol", VStr code)])
    as [table|e]; cbv beta iota.
  - destruct (Pandas.empty table) eqn:He; cbv beta iota.
    + cbn. split; [reflexivity |]. split; [discriminate |].
      intros table' [= <-]. rewrite He. reflexivity.
    + cbn [fst snd].
      split; [destruct (markdown_of E _); reflexivity |].
      split; [discriminate |].
      intros table' [= <-]. rewrite He. destruct (markdown_of E _); reflexivity.
  - destruct (isinstance e NoDataFoundError) eqn:Hn; cbn [fst snd].
    + split; [reflexivity |]. split; [| discriminate].
      intros e' [= <-]. congruence.
    + split; [reflexivity |]. split; [| discriminate].
      intros e' [= <-] _. reflexivity.
Qed.

Lemma etf_holdings_tool_answers_witness :
  fst (EtfHoldings.get_etf_holdings (with_count_renderer env_no_holdings)
         (active_etf_data_source := AKShareETFDataSource.source env_no_holdings)
         "510300" (Some "2025-01-10") [])
  = Return "错误: 未找到ETF 510300 的持仓明细"
  /\ fst (EtfHoldings.get_etf_holdings (with_count_renderer env_unreachable)
            (active_etf_data_source := AKShareETFDataSource.source env_unreachable)
            "510300" None [])
     = Return "错误: 获取数据时发生错误. 获取ETF持仓明细失败: timed out".
Proof.
  split.
  - exact (proj2 (proj2 (proj2 (etf_holdings_tool_answers
             (with_count_renderer env_no_holdings) "510300" (Some "2025-01-10") [])))
             (mkDF ["股票代码"; "持仓占比"] []) eq_refl).
  - exact (proj1 (proj2 (proj2 (etf_holdings_tool_answers
             (with_count_renderer env_unreachable) "510300" None [])))
             (mkExc ExceptionCls "timed out") eq_refl eq_refl).
Defined.

(** ** The real-time quote *)

(** *** White space and [strip] *)

Lemma upper_char_high (c : ascii) :
  128 <= PyStr.ascii_code c -> PyStr.upper_char c = c.
Proof.
  unfold PyStr.upper_char. intro H.
  destruct ((97 <=? PyStr.ascii_code c) && (PyStr.ascii_code c <=? 122)) eqn:Hc;
    [| reflexivity].
  apply andb_prop in Hc. destruct Hc as [_ Hc]. apply Z.leb_le in Hc. lia.
Qed.

Lemma upper_char_low (c : ascii) :
  PyStr.ascii_code c < 128 -> PyStr.ascii_code (PyStr.upper_char c) < 128.
Proof.
  destruct c as [b0 b1 b2 b3 b4 b5 b6 b7];
    destruct b0, b1, b2, b3, b4, b5, b6, b7; cbn; lia.
Qed.

Lemma upper_char_space (c : ascii) :
  PyStr.is_space (PyStr.upper_char c) = PyStr.is_space c.
Proof.
  destruct c as [b0 b1 b2 b3 b4 b5 b6 b7];
    destruct b0, b1, b2, b3, b4, b5, b6, b7; reflexivity.
Qed.

Lemma upper_char_idem (c : ascii) :
  PyStr.upper_char (PyStr.upper_char c) = PyStr.upper_char c.
Proof.
  destruct c as [b0 b1 b2 b3 b4 b5 b6 b7];
    destruct b0, b1, b2, b3, b4, b5, b6, b7; reflexivity.
Qed.

Lemma upper_idem (s : string) : PyStr.upper (PyStr.upper s) = PyStr.upper s.
Proof.
  induction s as [|c s IH]; simpl; [reflexivity |].
  now rewrite upper_char_idem, IH.
Qed.

(** A byte of 128 or more is what it was after [upper], and a byte
    below is still below: a test against such a byte is not
    affected. *)
Lemma upper_char_eqb (c : ascii) (k : Z) :
  128 <= k -> (PyStr.ascii_code (PyStr.upper_char c) =? k) = (PyStr.ascii_code c =? k).
Proof.
  intro Hk. destruct (Z_lt_ge_dec (PyStr.ascii_code c) 128) as [Hc|Hc].
  - pose proof (upper_char_low c Hc).
    rewrite (proj2 (Z.eqb_neq _ _)) by lia. rewrite (proj2 (Z.eqb_neq _ _)) by lia.
    reflexivity.
  - rewrite upper_char_high by lia. reflexivity.
Qed.

Lemma upper_char_range (c : ascii) (lo hi : Z) :
  128 <= lo ->
  ((lo <=? PyStr.ascii_code (PyStr.upper_char c))
   && (PyStr.ascii_code (PyStr.upper_char c) <=? hi))
  = ((lo <=? PyStr.ascii_code c) && (PyStr.ascii_code c <=? hi)).
Proof.
  intro Hk. destruct (Z_lt_ge_dec (PyStr.ascii_code c) 128) as [Hc|Hc].
  - pose proof (upper_char_low c Hc).
    rewrite (proj2 (Z.leb_gt lo (PyStr.ascii_code (PyStr.upper_char c)))) by lia.
    rewrite (proj2 (Z.leb_gt lo (PyStr.ascii_code c))) by lia.
    reflexivity.
  - rewrite upper_char_high by lia. reflexivity.
Qed.

Lemma upper_char_space2 (a b : ascii) :
  PyStr.is_space2 (PyStr.upper_char a) (PyStr.upper_char b) = PyStr.is_space2 a b.
Proof. unfold PyStr.is_space2. now rewrite !upper_char_eqb by lia. Qed.

Lemma upper_char_space3 (a b c : ascii) :
  PyStr.is_space3 (PyStr.upper_char a) (PyStr.upper_char b) (PyStr.upper_char c)
  = PyStr.is_space3 a b c.
Proof.
  unfold PyStr.is_space3. cbv zeta.
  now rewrite upper_char_range, !upper_char_eqb by lia.
Qed.

(** The recursion of [lstrip], as induction on the length. *)
Lemma by_length (P : string -> Prop) :
  (forall s, (forall t, (String.length t < String.length s)%nat -> P t) -> P s) ->
  forall s, P s.
Proof.
  intros H s.
  assert (G : forall n t, (String.length t < n)%nat -> P t).
  { induction n as [|n IH]; intros t Ht; [lia |].
    apply H. intros u Hu. apply IH. lia. }
  apply (G (S (String.length s))). lia.
Qed.

Lemma lstrip_unfold (s : string) :
  PyStr.lstrip s
  = match s with
    | EmptyString => EmptyString
    | String a r1 =>
        if PyStr.is_space a then PyStr.lstrip r1
        else
          match r1 with
          | String b r2 =>
              if PyStr.is_space2 a b then PyStr.lstrip r2
              else
                match r2 with
                | String c r3 =>
                    if PyStr.is_space3 a b c then PyStr.lstrip r3 else s
                | EmptyString => s
                end
          | EmptyString => s
          end
    end.
Proof. destruct s; reflexivity. Qed.

Lemma lstrip_upper (s : string) :
  PyStr.lstrip (PyStr.upper s) = PyStr.upper (PyStr.lstrip s).
Proof.
  induction s as [s IH] using by_length.
  destruct s as [|a r1]; [reflexivity |].
  rewrite (lstrip_unfold (String a r1)).
  change (PyStr.upper (String a r1))
    with (String (PyStr.upper_char a) (PyStr.upper r1)).
  rewrite (lstrip_unfold (String (PyStr.upper_char a) (PyStr.upper r1))).
  rewrite upper_char_space.
  destruct (PyStr.is_space a); [apply IH; cbn; lia |].
  destruct r1 as [|b r2]; [reflexivity |].
  change (PyStr.upper (String b r2))
    with (String (PyStr.upper_char b) (PyStr.upper r2)).
  cbv beta match. rewrite upper_char_space2.
  destruct (PyStr.is_space2 a b); [apply IH; cbn; lia |].
  destruct r2 as [|c r3]; [reflexivity |].
  change (PyStr.upper (String c r3))
    with (String (PyStr.upper_char c) (PyStr.upper r3)).
  cbv beta match. rewrite upper_char_space3.
  destruct (PyStr.is_space3 a b c); [apply IH; cbn; lia | reflexivity].
Qed.

Lemma upper_nonempty (s : string) : PyStr.upper s = "" -> s = "".
Proof. destruct s; [reflexivity | discriminate]. Qed.

Lemma blank_upper (s : string) : PyStr.blank (PyStr.upper s) = PyStr.blank s.
Proof.
  unfold PyStr.blank. rewrite lstrip_upper.
  destruct (PyStr.lstrip s); reflexivity.
Qed.

Lemma rstrip_upper (s : string) :
  PyStr.rstrip (PyStr.upper s) = PyStr.upper (PyStr.rstrip s).
Proof.
  induction s as [|c s IH]; [reflexivity |].
  change (PyStr.upper (String c s)) with (String (PyStr.upper_char c) (PyStr.upper s)).
  change (PyStr.rstrip (String (PyStr.upper_char c) (PyStr.upper s)))
    with (if PyStr.blank (String (PyStr.upper_char c) (PyStr.upper s)) then ""
          else String (PyStr.upper_char c) (PyStr.rstrip (PyStr.upper s))).
  change (String (PyStr.upper_char c) (PyStr.upper s)) with (PyStr.upper (String c s))
    at 1.
  rewrite blank_upper.
  change (PyStr.rstrip (String c s))
    with (if PyStr.blank (String c s) then "" else String c (PyStr.rstrip s)).
  destruct (PyStr.blank (String c s)); [reflexivity |].
  rewrite IH. reflexivity.
Qed.

Lemma strip_upper (s : string) :
  PyStr.strip (PyStr.upper s) = PyStr.upper (PyStr.strip s).
Proof. unfold PyStr.strip. now rewrite lstrip_upper, rstrip_upper. Qed.

Lemma lstrip_length (s : string) :
  (String.length (PyStr.lstrip s) <= String.length s)%nat.
Proof.
  induction s as [s IH] using by_length.
  rewrite lstrip_unfold.
  destruct s as [|a r1]; [cbn; lia |].
  assert (G : forall t, (String.length t < String.length (String a r1))%nat ->
                        (String.length (PyStr.lstrip t)
                         <= String.length (String a r1))%nat).
  { intros t Ht. specialize (IH t Ht). lia. }
  destruct (PyStr.is_space a); [apply G; cbn; lia |].
  destruct r1 as [|b r2]; [lia |].
  destruct (PyStr.is_space2 a b); [apply G; cbn; lia |].
  destruct r2 as [|c r3]; [lia |].
  destruct (PyStr.is_space3 a b c); [apply G; cbn; lia | lia].
Qed.

(** A string that [lstrip] leaves alone starts with no white space. *)
Lemma lstrip_fixed (a : ascii) (r : string) :
  PyStr.lstrip (String a r) = String a r ->
  PyStr.is_space a = false
  /\ match r with
     | String b r2 =>
         PyStr.is_space2 a b = false
         /\ match r2 with
            | String c _ => PyStr.is_space3 a b c = false
            | EmptyString => True
            end
     | EmptyString => True
     end.
Proof.
  rewrite lstrip_unfold. intro H.
  assert (L : forall t, (String.length t < String.length (String a r))%nat ->
                        PyStr.lstrip t <> String a r).
  { intros t Ht E. pose proof (lstrip_length t) as Hl. rewrite E in Hl. lia. }
  destruct (PyStr.is_space a); [exfalso; apply (L r); [cbn; lia | exact H] |].
  split; [reflexivity |].
  destruct r as [|b r2]; [exact I |].
  destruct (PyStr.is_space2 a b); [exfalso; apply (L r2); [cbn; lia | exact H] |].
  split; [reflexivity |].
  destruct r2 as [|c r3]; [exact I |].
  destruct (PyStr.is_space3 a b c); [exfalso; apply (L r3); [cbn; lia | exact H] |].
  reflexivity.
Qed.

Lemma lstrip_idem (s : string) :
  PyStr.lstrip (PyStr.lstrip s) = PyStr.lstrip s.
Proof.
  induction s as [s IH] using by_length.
  rewrite (lstrip_unfold s).
  destruct s as [|a r1]; [reflexivity |].
  destruct (PyStr.is_space a) eqn:Ha; [apply IH; cbn; lia |].
  destruct r1 as [|b r2].
  { rewrite lstrip_unfold, Ha. reflexivity. }
  destruct (PyStr.is_space2 a b) eqn:Hb; [apply IH; cbn; lia |].
  destruct r2 as [|c r3].
  { rewrite lstrip_unfold, Ha, Hb. reflexivity. }
  destruct (PyStr.is_space3 a b c) eqn:Hc; [apply IH; cbn; lia |].
  rewrite lstrip_unfold, Ha, Hb, Hc. reflexivity.
Qed.

(** White space before a string does not count. *)
Lemma lstrip_app (x y : string) :
  PyStr.blank x = true -> PyStr.lstrip (x ++ y) = PyStr.lstrip y.
Proof.
  unfold PyStr.blank. induction x as [x IH] using by_length.
  destruct x as [|a r1]; [reflexivity |].
  rewrite (lstrip_unfold (String a r1)).
  change (String a r1 ++ y) with (String a (r1 ++ y)).
  rewrite (lstrip_unfold (String a (r1 ++ y))).
  destruct (PyStr.is_space a); [apply IH; cbn; lia |].
  destruct r1 as [|b r2]; [discriminate |].
  change (String b r2 ++ y) with (String b (r2 ++ y)). cbv beta match.
  destruct (PyStr.is_space2 a b); [apply IH; cbn; lia |].
  destruct r2 as [|c r3]; [discriminate |].
  change (String c r3 ++ y) with (String c (r3 ++ y)). cbv beta match.
  destruct (PyStr.is_space3 a b c); [apply IH; cbn; lia | discriminate].
Qed.

Lemma rstrip_unfold (c : ascii) (r : string) :
  PyStr.rstrip (String c r)
  = if PyStr.blank (String c r) then "" else String c (PyStr.rstrip r).
Proof. reflexivity. Qed.

(** What [rstrip] cuts off is white space. *)
Lemma rstrip_split (s : string) :
  exists tail, s = PyStr.rstrip s ++ tail /\ PyStr.blank tail = true.
Proof.
  induction s as [|c r IH]; [exists ""; split; reflexivity |].
  rewrite rstrip_unfold.
  destruct (PyStr.blank (String c r)) eqn:Hb.
  - exists (String c r). split; [reflexivity | exact Hb].
  - destruct IH as (tail & E & Ht). exists tail. split; [| exact Ht].
    cbn [append]. now rewrite <- E.
Qed.

Lemma rstrip_idem (s : string) : PyStr.rstrip (PyStr.rstrip s) = PyStr.rstrip s.
Proof.
  induction s as [|c r IH]; [reflexivity |].
  rewrite (rstrip_unfold c r).
  destruct (PyStr.blank (String c r)) eqn:Hb; [reflexivity |].
  rewrite rstrip_unfold, IH.
  destruct (PyStr.blank (String c (PyStr.rstrip r))) eqn:Hb'; [| reflexivity].
  exfalso. destruct (rstrip_split r) as (tail & E & Ht).
  assert (Hall : PyStr.blank (String c r) = true).
  { rewrite E. change (String c (PyStr.rstrip r ++ tail))
      with (String c (PyStr.rstrip r) ++ tail).
    unfold PyStr.blank. rewrite (lstrip_app _ _ Hb'). exact Ht. }
  congruence.
Qed.

(** Cutting white space off the end brings none to the head. *)
Lemma lstrip_rstrip (t : string) :
  PyStr.lstrip t = t -> PyStr.lstrip (PyStr.rstrip t) = PyStr.rstrip t.
Proof.
  destruct t as [|a r1]; [reflexivity |].
  intro H. destruct (lstrip_fixed a r1 H) as [Ha Hr].
  rewrite rstrip_unfold.
  destruct (PyStr.blank (String a r1)); [reflexivity |].
  rewrite lstrip_unfold, Ha.
  destruct r1 as [|b r2]; [reflexivity |].
  destruct Hr as [Hb Hr]. rewrite rstrip_unfold.
  destruct (PyStr.blank (String b r2)); [reflexivity |].
  cbv beta match. rewrite Hb.
  destruct r2 as [|c r3]; [reflexivity |].
  rewrite rstrip_unfold.
  destruct (PyStr.blank (String c r3)); [reflexivity |].
  cbv beta match. rewrite Hr. reflexivity.
Qed.

Lemma strip_idem (s : string) : PyStr.strip (PyStr.strip s) = PyStr.strip s.
Proof.
  unfold PyStr.strip.
  rewrite (lstrip_rstrip (PyStr.lstrip s) (lstrip_idem s)).
  apply rstrip_idem.
Qed.

Lemma upper_strip_stable (s : string) :
  PyStr.upper (PyStr.strip (PyStr.upper (PyStr.strip s)))
  = PyStr.upper (PyStr.strip s).
Proof. now rewrite strip_upper, strip_idem, upper_idem. Qed.

(** A string of ASCII characters that are no white space is stripped
    already. *)
Lemma lstrip_plain (a : ascii) (r : string) :
  PyStr.ascii_code a < 128 -> PyStr.is_space a = false ->
  PyStr.lstrip (String a r) = String a r.
Proof.
  intros Hl Hs. rewrite lstrip_unfold, Hs.
  assert (H2 : forall b, PyStr.is_space2 a b = false).
  { intro b. unfold PyStr.is_space2.
    rewrite (proj2 (Z.eqb_neq (PyStr.ascii_code a) 194)) by lia. reflexivity. }
  assert (H3 : forall b c, PyStr.is_space3 a b c = false).
  { intros b c. unfold PyStr.is_space3. cbv zeta.
    rewrite (proj2 (Z.eqb_neq (PyStr.ascii_code a) 225)) by lia.
    rewrite (proj2 (Z.eqb_neq (PyStr.ascii_code a) 226)) by lia.
    rewrite (proj2 (Z.eqb_neq (PyStr.ascii_code a) 227)) by lia.
    reflexivity. }
  destruct r as [|b [|c r]]; rewrite ?H2, ?H3; reflexivity.
Qed.

Lemma rstrip_plain (s : string) :
  PyStr.all_chars (fun c => (PyStr.ascii_code c <? 128) && negb (PyStr.is_space c)) s
  = true ->
  PyStr.rstrip s = s.
Proof.
  induction s as [|c r IH]; [reflexivity |].
  cbn [PyStr.all_chars]. intro H. apply andb_prop in H. destruct H as [Hc Hr].
  apply andb_prop in Hc. destruct Hc as [Hl Hs].
  apply Z.ltb_lt in Hl. apply negb_true_iff in Hs.
  rewrite rstrip_unfold. unfold PyStr.blank.
  rewrite (lstrip_plain c r Hl Hs), (IH Hr). reflexivity.
Qed.

Lemma strip_plain (s : string) :
  PyStr.all_chars (fun c => (PyStr.ascii_code c <? 128) && negb (PyStr.is_space c)) s
  = true ->
  PyStr.strip s = s.
Proof.
  intro H. unfold PyStr.strip.
  assert (Hl : PyStr.lstrip s = s).
  { destruct s as [|c r]; [reflexivity |].
    cbn [PyStr.all_chars] in H. apply andb_prop in H. destruct H as [Hc _].
    apply andb_prop in Hc. destruct Hc as [Hl Hs].
    apply Z.ltb_lt in Hl. apply negb_true_iff in Hs.
    now apply lstrip_plain. }
  rewrite Hl. now apply rstrip_plain.
Qed.

(** X24. [_normalize_code] is idempotent: the quote tool normalises the
    code and hands the result to [_fetch_realtime_for_equity_or_etf],
    which normalises it again; the second pass changes nothing. *)
Theorem normalize_code_idempotent (code : string) :
  Realtime.normalize_code (Realtime.normalize_code code)
  = Realtime.normalize_code code.
Proof.
  unfold Realtime.normalize_code.
  destruct code as [|c r]; [reflexivity |].
  cbn [PyStr.truthy negb].
  destruct (PyStr.upper (PyStr.strip (String c r))) as [|c' r'] eqn:Hn;
    [reflexivity |].
  cbn [PyStr.truthy negb]. rewrite <- Hn.
  apply upper_strip_stable.
Qed.

Lemma channel_trace (E : md_env) (op norm : string) (w : world) :
  snd (Realtime.attempt (Realtime.channel E op norm) w)
  = (w ++ [EvCall op []])%list.
Proof.
  unfold Realtime.attempt, Realtime.channel, try_except, bind, call_akshare,
    lift, ret.
  destruct (akshare E w op []) as [table|e]; cbv beta iota; [| reflexivity].
  destruct (Pandas.empty table); cbn [negb]; cbv beta iota; [reflexivity |].
  destruct (Pandas.where_eq table "代码" norm) as [matched|e]; cbv beta iota;
    [| reflexivity].
  destruct (Pandas.empty matched); cbn [negb]; cbv beta iota; [reflexivity |].
  destruct (Pandas.insert_first matched _ _); reflexivity.
Qed.

Lemma channel_down (E : md_env) (op norm : string) (w : world) (e : exc) :
  akshare E w op [] = Raise e ->
  fst (Realtime.attempt (Realtime.channel E op norm) w) = Return None.
Proof.
  intro H.
  unfold Realtime.attempt, Realtime.channel, try_except, bind, call_akshare.
  rewrite H. reflexivity.
Qed.

Lemma channel_miss (E : md_env) (op norm : string) (w : world)
    (table : DataFrame) (k : nat) :
  akshare E w op [] = Return table ->
  Pandas.index_of "代码" (Pandas.columns table) = Some k ->
  quote_hits table k norm = [] ->
  fst (Realtime.attempt (Realtime.channel E op norm) w) = Return None.
Proof.
  intros Ha Hk Hh.
  unfold Realtime.attempt, Realtime.channel, try_except, bind, call_akshare,
    lift, ret, Pandas.where_eq, Pandas.locate.
  rewrite Ha. cbv beta iota.
  destruct (Pandas.empty table); cbn [negb]; cbv beta iota; [reflexivity |].
  rewrite Hk. cbv beta iota.
  unfold Pandas.select. fold (quote_hits table k norm). rewrite Hh.
  unfold Pandas.empty. cbn [Pandas.rows Pandas.columns].
  destruct (Pandas.columns table); reflexivity.
Qed.

Lemma channel_hit (E : md_env) (op norm : string) (w : world)
    (table : DataFrame) (k : nat) :
  akshare E w op [] = Return table ->
  Pandas.index_of "代码" (Pandas.columns table) = Some k ->
  Pandas.has_column table "数据源" = false ->
  quote_hits table k norm <> [] ->
  fst (Realtime.attempt (Realtime.channel E op norm) w)
  = Return (Some (tagged op table (quote_hits table k norm))).
Proof.
  intros Ha Hk Hc Hh.
  assert (Hrows : Pandas.rows table <> []).
  { intro H0. apply Hh. unfold quote_hits. now rewrite H0. }
  assert (Hcols : Pandas.columns table <> []).
  { intro H0. rewrite H0 in Hk. discriminate. }
  unfold Realtime.attempt, Realtime.channel, try_except, bind, call_akshare,
    lift, ret, Pandas.where_eq, Pandas.locate, Pandas.insert_first.
  rewrite Ha. cbv beta iota.
  assert (He : Pandas.empty table = false).
  { unfold Pandas.empty. destruct (Pandas.columns table); [congruence |].
    destruct (Pandas.rows table); [congruence | reflexivity]. }
  rewrite He. cbn [negb]. cbv beta iota. rewrite Hk. cbv beta iota.
  unfold Pandas.select. fold (quote_hits table k norm).
  assert (He' : Pandas.empty (mkDF (Pandas.columns table) (quote_hits table k norm))
                = false).
  { unfold Pandas.empty. cbn [Pandas.rows Pandas.columns].
    destruct (Pandas.columns table); [congruence |].
    destruct (quote_hits table k norm); [congruence | reflexivity]. }
  rewrite He'. cbn [negb]. cbv beta iota.
  unfold Pandas.has_column in *. cbn [Pandas.columns Pandas.rows].
  rewrite Hc. reflexivity.
Qed.

Lemma filter_present {A} (p : A -> bool) (l : list A) :
  filter (fun x => negb (p x)) (filter p l) = [].
Proof.
  induction l as [|a l IH]; simpl; [reflexivity |].
  destruct (p a) eqn:Hp; simpl; [rewrite Hp; simpl |]; exact IH.
Qed.

(** What the tool does with the tagged rows of a channel. *)
Lemma quote_of_tagged (E : md_env) (op : string) (table : DataFrame)
    (hits : list (list string)) (w : world) :
  hits <> [] ->
  exists shown,
    Pandas.project (tagged op table hits) (shown_columns (tagged op table hits))
    = Return shown
    /\ hd_error (Pandas.columns shown) = Some "数据源"
    /\ (let df := tagged op table hits in
        if Pandas.empty df then ret Realtime.no_quote
        else
          df' <- (match filter (Pandas.has_column df) Realtime.preferred_cols with
                  | [] => ret df
                  | _ :: _ =>
                      lift (Pandas.project df
                              (filter (Pandas.has_column df) Realtime.preferred_cols))
                  end) ;;
          format_df_to_markdown E df') w
       = (markdown_of E shown, w).
Proof.
  intro Hh. cbv zeta.
  assert (He : Pandas.empty (tagged op table hits) = false).
  { unfold Pandas.empty, tagged. cbn [Pandas.rows Pandas.columns].
    destruct hits; [congruence | reflexivity]. }
  rewrite He.
  assert (Hc : shown_columns (tagged op table hits)
               = "数据源" :: filter (Pandas.has_column (tagged op table hits))
                               (tl Realtime.preferred_cols)).
  { reflexivity. }
  fold (shown_columns (tagged op table hits)).
  assert (Hp : exists shown,
             Pandas.project (tagged op table hits)
               (shown_columns (tagged op table hits)) = Return shown
             /\ Pandas.columns shown = shown_columns (tagged op table hits)).
  { unfold Pandas.project, Pandas.missing_labels.
    unfold shown_columns at 1. rewrite filter_present.
    eexists. split; reflexivity. }
  destruct Hp as (shown & Hp & Hcols).
  exists shown. split; [exact Hp |].
  split; [rewrite Hcols, Hc; reflexivity |].
  rewrite Hp. rewrite Hc. unfold bind, lift, format_df_to_markdown. reflexivity.
Qed.

Lemma fetch_realtime_steps (E : md_env) (code : string) (w : world) :
  Realtime.fetch_realtime_for_equity_or_etf E code w
  = let norm := Realtime.normalize_code code in
    let w1 := (w ++ [spot_call])%list in
    match fst (Realtime.attempt (Realtime.channel E "fund_etf_spot_em" norm) w) with
    | Return (Some matched) => (Return matched, w1)
    | Return None =>
        match fst (Realtime.attempt
                     (Realtime.channel E "stock_zh_a_spot_em" norm) w1) with
        | Return (Some matched) => (Return matched, (w1 ++ [stock_call])%list)
        | Return None => (Return Pandas.no_frame, (w1 ++ [stock_call])%list)
        | Raise e => (Raise e, (w1 ++ [stock_call])%list)
        end
    | Raise e => (Raise e, w1)
    end.
Proof.
  cbv zeta. unfold Realtime.fetch_realtime_for_equity_or_etf.
  unfold bind at 1.
  pose proof (channel_trace E "fund_etf_spot_em" (Realtime.normalize_code code) w)
    as H1.
  destruct (Realtime.attempt (Realtime.channel E "fund_etf_spot_em" _) w)
    as [[[m|]|e] w1]; cbn [fst snd] in *; subst w1; try reflexivity.
  unfold bind at 1.
  pose proof (channel_trace E "stock_zh_a_spot_em" (Realtime.normalize_code code)
                (w ++ [spot_call])%list) as H2.
  destruct (Realtime.attempt (Realtime.channel E "stock_zh_a_spot_em" _) _)
    as [[[m|]|e] w2]; cbn [fst snd] in *; subst w2; reflexivity.
Qed.

(** The fetch as the tool calls it, on a code that is normalised
    already. *)
Lemma fetch_normalized_steps (E : md_env) (code : string) (w : world) :
  Realtime.fetch_realtime_for_equity_or_etf E (Realtime.normalize_code code) w
  = let norm := Realtime.normalize_code code in
    let w1 := (w ++ [spot_call])%list in
    match fst (Realtime.attempt (Realtime.channel E "fund_etf_spot_em" norm) w) with
    | Return (Some matched) => (Return matched, w1)
    | Return None =>
        match fst (Realtime.attempt
                     (Realtime.channel E "stock_zh_a_spot_em" norm) w1) with
        | Return (Some matched) => (Return matched, (w1 ++ [stock_call])%list)
        | Return None => (Return Pandas.no_frame, (w1 ++ [stock_call])%list)
        | Raise e => (Raise e, (w1 ++ [stock_call])%list)
        end
    | Raise e => (Raise e, w1)
    end.
Proof.
  rewrite fetch_realtime_steps.
  assert (Hn : Realtime.normalize_code (Realtime.normalize_code code)
               = Realtime.normalize_code code).
  { unfold Realtime.normalize_code. destruct code as [|c r]; [reflexivity |].
    cbn [PyStr.truthy negb].
    destruct (PyStr.upper (PyStr.strip (String c r))) as [|c' r'] eqn:Hu;
      [reflexivity |].
    cbn [PyStr.truthy negb]. rewrite <- Hu. apply upper_strip_stable. }
  now rewrite Hn.
Qed.

Lemma quote_steps (E : md_env) (code : string) (w : world) :
  Realtime.normalize_code code <> "" ->
  Realtime.get_realtime_quote E code w
  = try_except
      (df <- Realtime.fetch_realtime_for_equity_or_etf E
               (Realtime.normalize_code code) ;;
       if Pandas.empty df then ret Realtime.no_quote
       else
         df' <- (match filter (Pandas.has_column df) Realtime.preferred_cols with
                 | [] => ret df
                 | _ :: _ =>
                     lift (Pandas.project df
                             (filter (Pandas.has_column df) Realtime.preferred_cols))
                 end) ;;
         format_df_to_markdown E df')
      (fun e => ret ("错误: 获取实时行情失败: " ++ exc_msg e)) w.
Proof.
  intro Hn. unfold Realtime.get_realtime_quote.
  destruct (Realtime.normalize_code code); [congruence | reflexivity].
Qed.

(** X25. When the fund table lists the (normalised) code, the quote
    comes from it: its rows for the code, tagged
    [AKShare-fund_etf_spot_em] in a new first column [数据源], cut down
    to the preferred columns, are what is rendered, and the stock table
    is not fetched, even if it lists the code too. *)
Theorem realtime_quote_prefers_the_fund_table
    (E : md_env) (code : string) (w : world) (table : DataFrame) (k : nat) :
  let norm := Realtime.normalize_code code in
  norm <> "" ->
  akshare E w "fund_etf_spot_em" [] = Return table ->
  Pandas.index_of "代码" (Pandas.columns table) = Some k ->
  Pandas.has_column table "数据源" = false ->
  quote_hits table k norm <> [] ->
  let df := tagged "fund_etf_spot_em" table (quote_hits table k norm) in
  exists shown,
    Pandas.project df (shown_columns df) = Return shown
    /\ hd_error (Pandas.columns shown) = Some "数据源"
    /\ Realtime.get_realtime_quote E code w
       = (quote_answer E shown, (w ++ [spot_call])%list).
Proof.
  cbv zeta. intros Hn Ha Hk Hc Hh.
  rewrite (quote_steps E code w Hn).
  unfold try_except. unfold bind at 1.
  rewrite fetch_normalized_steps. cbv zeta.
  rewrite (channel_hit E _ _ w table k Ha Hk Hc Hh).
  destruct (quote_of_tagged E "fund_etf_spot_em" table
              (quote_hits table k (Realtime.normalize_code code))
              (w ++ [spot_call])%list Hh) as (shown & Hp & Hd & Hq).
  exists shown. split; [exact Hp |]. split; [exact Hd |].
  cbv zeta in Hq. rewrite Hq. unfold quote_answer, ret.
  destruct (markdown_of E shown); reflexivity.
Qed.

Lemma realtime_quote_prefers_the_fund_table_witness :
  Realtime.get_realtime_quote (with_count_renderer env_quotes) " 510300 " []
  = (Return "数据源|代码|名称|最新价|涨跌幅|成交量: 1 rows", [spot_call]).
Proof.
  destruct (realtime_quote_prefers_the_fund_table (with_count_renderer env_quotes)
              " 510300 " [] spot_table 0%nat)
    as (shown & Hp & _ & Hq);
    [vm_compute; discriminate | reflexivity | reflexivity | reflexivity
    | vm_compute; discriminate |].
  vm_compute in Hp. injection Hp as <-. exact Hq.
Defined.

(** X26. For a code written in ASCII (white space around it may be any
    of Unicode): when the fund table cannot be fetched, or lists no row
    for the stripped, upper-cased code, the stock table is fetched
    next.  A provider failure there is not reported as an error: like a
    table without the code it gives the no-data text.  Rows found there
    are rendered, tagged [AKShare-stock_zh_a_spot_em]. *)
Theorem realtime_quote_falls_back (E : md_env) (code : string) (w : world) :
  let norm := Realtime.normalize_code code in
  let w1 := (w ++ [spot_call])%list in
  let run := Realtime.get_realtime_quote E code w in
  PyStr.is_ascii (PyStr.strip code) = true ->
  norm <> "" ->
  ((exists e, akshare E w "fund_etf_spot_em" [] = Raise e)
   \/ (exists table k,
         akshare E w "fund_etf_spot_em" [] = Return table
         /\ Pandas.index_of "代码" (Pandas.columns table) = Some k
         /\ quote_hits table k norm = [])) ->
  snd run = (w1 ++ [stock_call])%list
  /\ (forall e, akshare E w1 "stock_zh_a_spot_em" [] = Raise e ->
        fst run = Return Realtime.no_quote)
  /\ (forall table k,
        akshare E w1 "stock_zh_a_spot_em" [] = Return table ->
        Pandas.index_of "代码" (Pandas.columns table) = Some k ->
        (quote_hits table k norm = [] -> fst run = Return Realtime.no_quote)
        /\ (Pandas.has_column table "数据源" = false ->
            quote_hits table k norm <> [] ->
            let df := tagged "stock_zh_a_spot_em" table (quote_hits table k norm) in
            exists shown,
              Pandas.project df (shown_columns df) = Return shown
              /\ hd_error (Pandas.columns shown) = Some "数据源"
              /\ fst run = quote_answer E shown)).
Proof.
  cbv zeta. intros _ Hn Hmiss.
  assert (H1 : fst (Realtime.attempt
                      (Realtime.channel E "fund_etf_spot_em"
                         (Realtime.normalize_code code)) w) = Return None).
  { destruct Hmiss as [[e He]|(table & k & Ha & Hk & Hh)].
    - exact (channel_down E _ _ w e He).
    - exact (channel_miss E _ _ w table k Ha Hk Hh). }
  pose proof (quote_steps E code w Hn) as Hrun.
  unfold try_except in Hrun. unfold bind at 1 in Hrun.
  rewrite fetch_normalized_steps in Hrun. cbv zeta in Hrun.
  rewrite H1 in Hrun.
  rewrite Hrun. clear Hrun.
  assert (Hnone : Pandas.empty Pandas.no_frame = true) by reflexivity.
  split; [| split].
  - destruct (fst (Realtime.attempt (Realtime.channel E "stock_zh_a_spot_em" _) _))
      as [[m|]|e]; cbv beta iota; try reflexivity.
    destruct (Pandas.empty m); [reflexivity |].
    unfold bind, lift, ret, format_df_to_markdown.
    destruct (filter _ _); cbv beta iota.
    + destruct (markdown_of E m); reflexivity.
    + destruct (Pandas.project m _) as [p|e]; cbv beta iota; [| reflexivity].
      destruct (markdown_of E p); reflexivity.
  - intros e He. rewrite (channel_down E _ _ _ e He). reflexivity.
  - intros table k Ha Hk. split.
    + intro Hh. rewrite (channel_miss E _ _ _ table k Ha Hk Hh). reflexivity.
    + intros Hc Hh. rewrite (channel_hit E _ _ _ table k Ha Hk Hc Hh).
      destruct (quote_of_tagged E "stock_zh_a_spot_em" table
                  (quote_hits table k (Realtime.normalize_code code))
                  ((w ++ [spot_call]) ++ [stock_call])%list Hh)
        as (shown & Hp & Hd & Hq).
      exists shown. split; [exact Hp |]. split; [exact Hd |].
      cbv zeta in Hq. cbv beta iota. rewrite Hq. unfold quote_answer, ret.
      destruct (markdown_of E shown); reflexivity.
Qed.

Lemma realtime_quote_falls_back_witness :
  PyStr.is_ascii (PyStr.strip "600519　") = true
  /\ snd (Realtime.get_realtime_quote (with_count_renderer env_stock_only)
            "600519　" [])
     = [spot_call; stock_call]
  /\ fst (Realtime.get_realtime_quote (with_count_renderer env_unreachable)
            "600519　" [])
     = Return Realtime.no_quote.
Proof.
  split; [reflexivity |]. split.
  - apply (realtime_quote_falls_back (with_count_renderer env_stock_only)
             "600519　" []);
      [reflexivity | vm_compute; discriminate | left; eexists; reflexivity].
  - refine (proj1 (proj2 (realtime_quote_falls_back
                            (with_count_renderer env_unreachable) "600519　" [] _ _ _))
              (mkExc ExceptionCls "timed out") eq_refl);
      [reflexivity | vm_compute; discriminate | left; eexists; reflexivity].
Defined.

(** X27. [get_realtime_quote] always answers with a string.  A code
    that is empty once stripped of white space (that of Unicode
    included) gives the fixed error text without any provider call;
    any other code costs one call (the fund table) or two (then the
    stock table), never more. *)
Theorem realtime_quote_is_total (E : md_env) (code : string) (w : world) :
  let run := Realtime.get_realtime_quote E code w in
  (exists text, fst run = Return text)
  /\ (PyStr.strip code = "" ->
      run = (Return "错误: 请输入有效的股票或ETF代码", w))
  /\ (PyStr.strip code <> "" ->
      snd run = (w ++ [spot_call])%list
      \/ snd run = (w ++ [spot_call; stock_call])%list).
Proof.
  cbv zeta.
  destruct (string_dec (PyStr.strip code) "") as [Hb|Hb].
  - assert (Hn : Realtime.normalize_code code = "").
    { unfold Realtime.normalize_code. destruct code; [reflexivity |].
      cbn [PyStr.truthy negb]. now rewrite Hb. }
    assert (Hq : Realtime.get_realtime_quote E code w
                 = (Return "错误: 请输入有效的股票或ETF代码", w)).
    { unfold Realtime.get_realtime_quote. rewrite Hn. reflexivity. }
    rewrite Hq. split; [eexists; reflexivity |].
    split; [reflexivity | congruence].
  - assert (Hn : Realtime.normalize_code code <> "").
    { unfold Realtime.normalize_code. destruct code as [|c r]; [now elim Hb |].
      cbn [PyStr.truthy negb]. intro H. apply Hb. now apply upper_nonempty. }
    pose proof (quote_steps E code w Hn) as Hrun.
    unfold try_except in Hrun. unfold bind at 1 in Hrun.
    rewrite fetch_normalized_steps in Hrun. cbv zeta in Hrun.
    rewrite Hrun. clear Hrun.
    assert (Hfin : forall (m : DataFrame) (w' : world),
               exists text,
                 (let (o, w2) :=
                    (if Pandas.empty m then ret Realtime.no_quote
                     else
                       df' <- (match filter (Pandas.has_column m)
                                       Realtime.preferred_cols with
                               | [] => ret m
                               | _ :: _ =>
                                   lift (Pandas.project m
                                           (filter (Pandas.has_column m)
                                              Realtime.preferred_cols))
                               end) ;;
                       format_df_to_markdown E df') w' in
                  match o with
                  | Return a => (Return a, w2)
                  | Raise e => ret ("错误: 获取实时行情失败: " ++ exc_msg e) w2
                  end) = (Return text, w')).
    { intros m w'. destruct (Pandas.empty m); [eexists; reflexivity |].
      unfold bind, lift, ret, format_df_to_markdown.
      destruct (filter _ _); cbv beta iota.
      - destruct (markdown_of E m); eexists; reflexivity.
      - destruct (Pandas.project m _) as [p|e]; cbv beta iota;
          [| eexists; reflexivity].
        destruct (markdown_of E p); eexists; reflexivity. }
    destruct (fst (Realtime.attempt (Realtime.channel E "fund_etf_spot_em" _) w))
      as [[m|]|e]; cbv beta iota.
    + destruct (Hfin m (w ++ [spot_call])%list) as [text ->].
      split; [eexists; reflexivity |]. split; [congruence | intros _; now left].
    + rewrite <- app_assoc. cbn [app].
      destruct (fst (Realtime.attempt (Realtime.channel E "stock_zh_a_spot_em" _) _))
        as [[m|]|e]; cbv beta iota.
      * destruct (Hfin m (w ++ [spot_call; stock_call])%list) as [text ->].
        split; [eexists; reflexivity |]. split; [congruence | intros _; now right].
      * destruct (Hfin Pandas.no_frame (w ++ [spot_call; stock_call])%list)
          as [text ->].
        split; [eexists; reflexivity |]. split; [congruence | intros _; now right].
      * split; [eexists; reflexivity |]. split; [congruence | intros _; now right].
    + split; [eexists; reflexivity |]. split; [congruence | intros _; now left].
Qed.

Lemma realtime_quote_is_total_witness :
  Realtime.get_realtime_quote (with_count_renderer env_quotes) "   " []
  = (Return "错误: 请输入有效的股票或ETF代码", [])
  /\ (snd (Realtime.get_realtime_quote (with_count_renderer env_quotes) "600519" [])
      = [spot_call]
      \/ snd (Realtime.get_realtime_quote (with_count_renderer env_quotes) "600519" [])
         = [spot_call; stock_call]).
Proof.
  split.
  - apply (realtime_quote_is_total (with_count_renderer env_quotes) "   " []).
    reflexivity.
  - apply (realtime_quote_is_total (with_count_renderer env_quotes) "600519" []).
    vm_compute. discriminate.
Defined.

(** ** The industry list *)











(** ** The constants of the tools *)

(** X29. [list_tool_constants] reads its [kind] trimmed (of the white
    space of Unicode) and without regard to case.  No kind (or a blank
    one) lists the four tables, one of the four names lists that table
    alone, and the error string is returned exactly when the kind is
    none of these.  (Python lowers no character outside ASCII to a
    letter of these names, so that [PyStr.lower], which is exact on
    ASCII, decides as the code does.) *)
Theorem list_tool_constants_spec (kind : option string) :
  let k := PyStr.lower (PyStr.strip (PyStr.or_default kind "")) in
  let out := Helpers.list_tool_constants kind in
  (out = Helpers.invalid_kind <-> ~ In k known_kinds)
  /\ (k = "" ->
      out = String.concat LF
              [Helpers.as_md "frequency" Helpers.freq;
               Helpers.as_md "adjust_flag" Helpers.adjust;
               Helpers.as_md "year_type" Helpers.year_type;
               Helpers.as_md "index" Helpers.index])
  /\ (k = "frequency" -> out = Helpers.as_md "frequency" Helpers.freq)
  /\ (k = "adjust_flag" -> out = Helpers.as_md "adjust_flag" Helpers.adjust)
  /\ (k = "year_type" -> out = Helpers.as_md "year_type" Helpers.year_type)
  /\ (k = "index" -> out = Helpers.as_md "index" Helpers.index).
Proof.
  cbv zeta. unfold Helpers.list_tool_constants, Helpers.selects, known_kinds.
  generalize (PyStr.lower (PyStr.strip (PyStr.or_default kind ""))). intro k.
  destruct (String.eqb_spec k "") as [->|H0];
    [| destruct (String.eqb_spec k "frequency") as [->|H1];
       [| destruct (String.eqb_spec k "adjust_flag") as [->|H2];
          [| destruct (String.eqb_spec k "year_type") as [->|H3];
             [| destruct (String.eqb_spec k "index") as [->|H4]]]]].
  1-5: split;
    [ split;
      [ intro H; vm_compute in H; discriminate H
      | intro H; exfalso; apply H; cbn; tauto ]
    | repeat split; intro H; try discriminate H; vm_compute; reflexivity ].
  cbn [orb app filter]. split.
  - split; [| reflexivity].
    intros _ H. cbn in H. intuition congruence.
  - repeat split; intro H; congruence.
Qed.

Lemma list_tool_constants_spec_witness :
  Helpers.list_tool_constants (Some "  Index ")
  = Helpers.as_md "index" Helpers.index
  /\ Helpers.list_tool_constants (Some "indices") = Helpers.invalid_kind.
Proof.
  split.
  - apply (list_tool_constants_spec (Some "  Index ")). reflexivity.
  - apply (list_tool_constants_spec (Some "indices")).
    vm_compute. intuition discriminate.
Defined.

(** ** The patterns of [normalize_stock_code] *)

Lemma in_seq (ic : bool) (a b : Re.regex) (input : list ascii)
    (m : list string) (rest : list ascii) :
  In (m, rest) (Re.matches ic (Re.Seq a b) input) ->
  exists m1 mid m2,
    In (m1, mid) (Re.matches ic a input)
    /\ In (m2, rest) (Re.matches ic b mid)
    /\ m = (m1 ++ m2)%list.
Proof.
  change (Re.matches ic (Re.Seq a b) input)
    with (flat_map
            (fun m1 =>
               map (fun m2 => ((fst m1 ++ fst m2)%list, snd m2))
                   (Re.matches ic b (snd m1)))
            (Re.matches ic a input)).
  rewrite in_flat_map. intros [[m1 mid] [H1 H2]].
  rewrite in_map_iff in H2. destruct H2 as [[m2 r2] [Heq H2]].
  cbn [fst snd] in *. injection Heq as <- <-. eauto 7.
Qed.

Lemma in_digit (ic : bool) (input : list ascii) (m : list string) (rest : list ascii) :
  In (m, rest) (Re.matches ic Re.Digit input) ->
  m = [] /\ exists a, input = a :: rest /\ PyStr.is_ascii_digit a = true.
Proof.
  destruct input as [|a r]; cbn [Re.matches]; [intros [] |].
  destruct (PyStr.is_ascii_digit a) eqn:Ha; [| intros []].
  intros [[= <- <-]|[]]. eauto.
Qed.

Lemma in_lit (ic : bool) (c : ascii) (input : list ascii)
    (m : list string) (rest : list ascii) :
  In (m, rest) (Re.matches ic (Re.Lit c) input) ->
  m = [] /\ exists a, input = a :: rest /\ Re.char_eq ic a c = true.
Proof.
  destruct input as [|a r]; cbn [Re.matches]; [intros [] |].
  destruct (Re.char_eq ic a c) eqn:Ha; [| intros []].
  intros [[= <- <-]|[]]. eauto.
Qed.

Lemma in_rep_digit (ic : bool) (n : nat) (input : list ascii)
    (m : list string) (rest : list ascii) :
  In (m, rest) (Re.matches ic (Re.Rep n Re.Digit) input) ->
  m = [] /\ exists ds, input = (ds ++ rest)%list /\ List.length ds = n
                       /\ forallb PyStr.is_ascii_digit ds = true.
Proof.
  revert input m. induction n as [|n IH]; intros input m.
  - cbn. intros [[= <- <-]|[]]. split; [reflexivity |]. exists []. auto.
  - change (Re.matches ic (Re.Rep (S n) Re.Digit) input)
      with (flat_map
              (fun m1 =>
                 map (fun m2 => ((fst m1 ++ fst m2)%list, snd m2))
                     (Re.matches ic (Re.Rep n Re.Digit) (snd m1)))
              (Re.matches ic Re.Digit input)).
    rewrite in_flat_map. intros [[m1 mid] [H1 H2]].
    rewrite in_map_iff in H2. destruct H2 as [[m2 r2] [Heq H2]].
    cbn [fst snd] in *. injection Heq as <- <-.
    destruct (in_digit _ _ _ _ H1) as [-> (a & -> & Ha)].
    destruct (IH _ _ H2) as [-> (ds & -> & Hl & Hd)].
    split; [reflexivity |]. exists (a :: ds). cbn. rewrite Ha, Hd, Hl. auto.
Qed.

Lemma in_group (ic : bool) (a : Re.regex) (input : list ascii)
    (m : list string) (rest : list ascii) :
  In (m, rest) (Re.matches ic (Re.Group a) input) ->
  exists m0, In (m0, rest) (Re.matches ic a input)
             /\ m = (m0 ++ [Re.consumed input rest])%list.
Proof.
  change (Re.matches ic (Re.Group a) input)
    with (map (fun m => ((fst m ++ [Re.consumed input (snd m)])%list, snd m))
              (Re.matches ic a input)).
  rewrite in_map_iff. intros [[m0 r0] [Heq H]]. cbn [fst snd] in Heq.
  injection Heq as <- <-. eauto.
Qed.

Lemma in_alt (ic : bool) (a b : Re.regex) (input : list ascii)
    (x : list string * list ascii) :
  In x (Re.matches ic (Re.Alt a b) input) ->
  In x (Re.matches ic a input) \/ In x (Re.matches ic b input).
Proof.
  change (Re.matches ic (Re.Alt a b) input)
    with (Re.matches ic a input ++ Re.matches ic b input)%list.
  apply in_app_or.
Qed.

Lemma in_opt (ic : bool) (a : Re.regex) (input : list ascii)
    (m : list string) (rest : list ascii) :
  In (m, rest) (Re.matches ic (Re.Opt a) input) ->
  In (m, rest) (Re.matches ic a input) \/ (m = [] /\ rest = input).
Proof.
  change (Re.matches ic (Re.Opt a) input)
    with (Re.matches ic a input ++ [([], input)])%list.
  intro H. apply in_app_or in H. destruct H as [H|[[= <- <-]|[]]]; auto.
Qed.

Lemma consumed_app (ds rest : list ascii) :
  Re.consumed (ds ++ rest) rest = string_of_list_ascii ds.
Proof.
  unfold Re.consumed. rewrite length_app, Nat.add_sub.
  now rewrite firstn_app, Nat.sub_diag, firstn_all, app_nil_r.
Qed.

Lemma digits_string (ds : list ascii) :
  forallb PyStr.is_ascii_digit ds = true ->
  PyStr.all_chars PyStr.is_ascii_digit (string_of_list_ascii ds) = true
  /\ String.length (string_of_list_ascii ds) = List.length ds.
Proof.
  induction ds as [|a ds IH]; cbn; [auto |].
  intro H. apply andb_prop in H. destruct H as [Ha Hd].
  destruct (IH Hd) as [H1 H2]. now rewrite Ha, H1, H2.
Qed.

(** A number group holds six digits. *)
Lemma in_six_digits (ic : bool) (input : list ascii)
    (m : list string) (rest : list ascii) :
  In (m, rest) (Re.matches ic Helpers.six_digits input) ->
  exists num, m = [num] /\ String.length num = 6%nat
              /\ PyStr.all_chars PyStr.is_ascii_digit num = true.
Proof.
  unfold Helpers.six_digits. intro H.
  destruct (in_group _ _ _ _ _ H) as (m0 & H0 & ->).
  destruct (in_rep_digit _ _ _ _ _ H0) as [-> (ds & -> & Hl & Hd)].
  rewrite consumed_app. destruct (digits_string ds Hd) as [H1 H2].
  exists (string_of_list_ascii ds). cbn. rewrite H2, Hl. auto.
Qed.

Lemma lower_char_s (a : ascii) :
  Re.char_eq true a "s" = true -> PyStr.lower_char a = "s"%char.
Proof. unfold Re.char_eq. intro H. now apply Ascii.eqb_eq in H. Qed.

Lemma lower_char_h (a : ascii) :
  Re.char_eq true a "h" = true -> PyStr.lower_char a = "h"%char.
Proof. unfold Re.char_eq. intro H. now apply Ascii.eqb_eq in H. Qed.

Lemma lower_char_z (a : ascii) :
  Re.char_eq true a "z" = true -> PyStr.lower_char a = "z"%char.
Proof. unfold Re.char_eq. intro H. now apply Ascii.eqb_eq in H. Qed.

(** An exchange group, matched without regard to case, is [sh] or [sz]
    once lowered. *)
Lemma in_exchange (input : list ascii) (m : list string) (rest : list ascii) :
  In (m, rest) (Re.matches true Helpers.exchange input) ->
  exists ex, m = [ex] /\ (PyStr.lower ex = "sh" \/ PyStr.lower ex = "sz").
Proof.
  unfold Helpers.exchange. intro H.
  destruct (in_group _ _ _ _ _ H) as (m0 & H0 & ->).
  apply in_alt in H0. destruct H0 as [H0|H0];
    destruct (in_seq _ _ _ _ _ _ H0) as (m1 & mid & m2 & Ha & Hb & ->);
    destruct (in_lit _ _ _ _ _ Ha) as [-> (a & -> & Hca)];
    destruct (in_lit _ _ _ _ _ Hb) as [-> (b & -> & Hcb)];
    change (a :: b :: rest) with ([a; b] ++ rest)%list;
    rewrite consumed_app; eexists; (split; [reflexivity |]); cbn.
  - left. now rewrite (lower_char_s _ Hca), (lower_char_h _ Hcb).
  - right. now rewrite (lower_char_s _ Hca), (lower_char_z _ Hcb).
Qed.

Lemma fullmatch_in (v : Re.python) (r : Re.regex) (s : string) (m : list string) :
  Re.fullmatch v r s = Return (Some m) ->
  In (m, []) (Re.matches (Re.has_flag_i r) r (list_ascii_of_string s)).
Proof.
  unfold Re.fullmatch, Re.compile.
  destruct (Re.misplaced_flag true r) as [pos|]; [destruct v |]; try discriminate;
    (destruct (filter _ _) as [|[m0 r0] l] eqn:Hf; [discriminate |];
     intros [= <-];
     assert (Hin : In (m0, r0) ((m0, r0) :: l)) by (now left);
     rewrite <- Hf in Hin; apply filter_In in Hin; destruct Hin as [Hin Hr];
     cbn [snd] in Hr; destruct r0; [exact Hin | discriminate]).
Qed.

Lemma prefixed_groups (v : Re.python) (raw : string) (m : list string) :
  Re.fullmatch v Helpers.pattern_prefixed raw = Return (Some m) ->
  exists ex num,
    m = [ex; num] /\ (PyStr.lower ex = "sh" \/ PyStr.lower ex = "sz")
    /\ String.length num = 6%nat
    /\ PyStr.all_chars PyStr.is_ascii_digit num = true.
Proof.
  intro H. apply fullmatch_in in H.
  change (Re.has_flag_i Helpers.pattern_prefixed) with true in H.
  unfold Helpers.pattern_prefixed in H.
  destruct (in_seq _ _ _ _ _ _ H) as (m0 & mid0 & m' & Hflag & H' & ->).
  destruct Hflag as [[= <- <-]|[]].
  destruct (in_seq _ _ _ _ _ _ H') as (m1 & mid1 & m'' & Hex & H'' & ->).
  destruct (in_seq _ _ _ _ _ _ H'') as (m2 & mid2 & m3 & Hdot & Hnum & ->).
  destruct (in_exchange _ _ _ Hex) as (ex & -> & Hx).
  destruct (in_six_digits _ _ _ _ Hnum) as (num & -> & Hl & Hd).
  assert (m2 = []) as ->.
  { unfold Helpers.opt_dot in Hdot. apply in_opt in Hdot.
    destruct Hdot as [Hdot|[-> _]]; [| reflexivity].
    now destruct (in_lit _ _ _ _ _ Hdot). }
  exists ex, num. auto.
Qed.

Lemma suffixed_groups (v : Re.python) (raw : string) (m : list string) :
  Re.fullmatch v Helpers.pattern_suffixed raw = Return (Some m) ->
  exists ex num,
    m = [num; ex] /\ (PyStr.lower ex = "sh" \/ PyStr.lower ex = "sz")
    /\ String.length num = 6%nat
    /\ PyStr.all_chars PyStr.is_ascii_digit num = true.
Proof.
  intro H. apply fullmatch_in in H.
  change (Re.has_flag_i Helpers.pattern_suffixed) with true in H.
  unfold Helpers.pattern_suffixed in H.
  destruct (in_seq _ _ _ _ _ _ H) as (m1 & mid1 & m' & Hnum & H' & ->).
  destruct (in_seq _ _ _ _ _ _ H') as (m2 & mid2 & m'' & Hdot & H'' & ->).
  destruct (in_seq _ _ _ _ _ _ H'') as (m3 & mid3 & m4 & Hflag & Hex & ->).
  destruct Hflag as [[= <- <-]|[]].
  destruct (in_exchange _ _ _ Hex) as (ex & -> & Hx).
  destruct (in_six_digits _ _ _ _ Hnum) as (num & -> & Hl & Hd).
  assert (m2 = []) as ->.
  { unfold Helpers.opt_dot in Hdot. apply in_opt in Hdot.
    destruct Hdot as [Hdot|[-> _]]; [| reflexivity].
    now destruct (in_lit _ _ _ _ _ Hdot). }
  exists ex, num. auto.
Qed.

Lemma bare_groups (v : Re.python) (raw : string) (m : list string) :
  Re.fullmatch v Helpers.pattern_bare raw = Return (Some m) ->
  exists num,
    m = [num] /\ String.length num = 6%nat
    /\ PyStr.all_chars PyStr.is_ascii_digit num = true.
Proof.
  intro H. apply fullmatch_in in H.
  exact (in_six_digits _ _ _ _ H).
Qed.

Lemma digit_is_plain (a : ascii) :
  PyStr.is_ascii_digit a = true ->
  (PyStr.ascii_code a <? 128) && negb (PyStr.is_space a) = true.
Proof.
  destruct a as [b0 b1 b2 b3 b4 b5 b6 b7];
    destruct b0, b1, b2, b3, b4, b5, b6, b7; cbn; congruence.
Qed.

(** A well-formed code is read back as itself. *)
Lemma well_formed_is_fixed (v : Re.python) (ex num : string) :
  ex = "sh" \/ ex = "sz" ->
  String.length num = 6%nat ->
  PyStr.all_chars PyStr.is_ascii_digit num = true ->
  Helpers.normalize_stock_code v (ex ++ "." ++ num) = ex ++ "." ++ num.
Proof.
  intros Hex Hl Hd.
  destruct num as [|a1 [|a2 [|a3 [|a4 [|a5 [|a6 [|a7 r]]]]]]]; try discriminate.
  cbn [PyStr.all_chars] in Hd.
  repeat match goal with
         | H : (_ && _)%bool = true |- _ => apply andb_prop in H; destruct H
         end.
  unfold Helpers.normalize_stock_code, Helpers.normalize_body.
  destruct Hex as [->| ->]; cbn [append];
    (rewrite strip_plain;
     [| cbn [PyStr.all_chars];
        repeat match goal with
               | H : PyStr.is_ascii_digit ?a = true |- _ =>
                   rewrite (digit_is_plain a H); clear H
               end; reflexivity]);
    cbn [PyStr.truthy negb];
    unfold Re.fullmatch;
    change (Re.compile v Helpers.pattern_prefixed)
      with (Return (Helpers.pattern_prefixed, true));
    cbv beta iota;
    cbv -[PyStr.is_ascii_digit];
    repeat match goal with
           | H : PyStr.is_ascii_digit _ = true |- _ => rewrite H
           end.
  all: reflexivity.
Qed.

Lemma normalize_stock_code_cases (v : Re.python) (code : string) :
  let out := Helpers.normalize_stock_code v code in
  PyStr.startswith out "Error: " = true
  \/ exists ex num,
       out = ex ++ "." ++ num /\ (ex = "sh" \/ ex = "sz")
       /\ String.length num = 6%nat
       /\ PyStr.all_chars PyStr.is_ascii_digit num = true.
Proof.
  cbv zeta. unfold Helpers.normalize_stock_code, Helpers.normalize_body.
  destruct (PyStr.truthy (PyStr.strip code)); cbn [negb]; [| now left].
  destruct (Re.fullmatch v Helpers.pattern_prefixed _) as [[m|]|e] eqn:H1.
  - right. destruct (prefixed_groups _ _ _ H1) as (ex & num & -> & Hx & Hl & Hd).
    exists (PyStr.lower ex), num. cbn. destruct Hx as [->| ->]; auto.
  - destruct (Re.fullmatch v Helpers.pattern_suffixed _) as [[m|]|e] eqn:H2.
    + right. destruct (suffixed_groups _ _ _ H2) as (ex & num & -> & Hx & Hl & Hd).
      exists (PyStr.lower ex), num. cbn. destruct Hx as [->| ->]; auto.
    + destruct (Re.fullmatch v Helpers.pattern_bare _) as [[m|]|e] eqn:H3.
      * right. destruct (bare_groups _ _ _ H3) as (num & -> & Hl & Hd).
        cbn [Re.group Nat.sub nth].
        destruct (PyStr.startswith num "6"); eauto 8.
      * now left.
      * left. apply prefix_app.
    + left. apply prefix_app.
  - left. apply prefix_app.
Qed.

(** X30. For an ASCII input, on either interpreter, what
    [normalize_stock_code] returns is an error string (it starts with
    [Error: ]) or a well-formed code: [sh] or [sz], a dot, six digits.
    A well-formed answer is a fixed point: normalising it again gives
    it back. *)
Theorem normalize_stock_code_well_formed (v : Re.python) (code : string) :
  PyStr.is_ascii code = true ->
  let out := Helpers.normalize_stock_code v code in
  PyStr.startswith out "Error: " = true
  \/ (baostock_code out /\ Helpers.normalize_stock_code v out = out).
Proof.
  intros _. cbv zeta.
  destruct (normalize_stock_code_cases v code) as [H|(ex & num & Ho & Hx & Hl & Hd)];
    [now left |].
  right. rewrite Ho. split.
  - exists ex, num. split; [reflexivity |]. split; [exact Hx |].
    split; [exact Hl |]. unfold PyStr.ascii_digits.
    destruct num; [discriminate | exact Hd].
  - now apply well_formed_is_fixed.
Qed.

Lemma normalize_stock_code_well_formed_witness :
  Helpers.normalize_stock_code Re.Py311 " SZ000001 " = "sz.000001"
  /\ baostock_code "sz.000001"
  /\ Helpers.normalize_stock_code Re.Py311 "sz.000001" = "sz.000001".
Proof.
  split; [reflexivity |].
  destruct (normalize_stock_code_well_formed Re.Py311 " SZ000001 " eq_refl)
    as [H|H]; [vm_compute in H; discriminate | exact H].
Defined.
